(** * sasctl.tasks: a shallow embedding of the task layer of python-sasctl

    The Python module [src/sasctl/tasks.py] orchestrates calls to the SAS Viya
    model repository, the publishing services and a CAS session.  This file
    embeds its functions as Rocq definitions and proves properties of them.

    - Python [str] values are [string]s; slices, [in], [split], [join],
      [lower] and [lstrip] are written out as recursive functions ([PyStr]).
    - Python [dict]s with string keys are [gmap string _]; a key that is
      missing and a key bound to [None] are told apart where the code does.
    - Code that calls services runs in a monad that threads the process
      environment ([os.environ]), records every call that leaves the
      process (and every warning) in the order of issue, and ends normally
      or by raising; the trace up to an exception is kept.
    - Functions of other modules (the REST services, [ModelInfo], the PyMAS
      generator, the statistics helpers, [swat]) are fields of records of
      collaborators over which the definitions are parameterised; those
      that the code calls remotely or under [try] return or raise.
    - Line numbers are those of [tasks.py].  Calls to [logger] are left
      out; the text of a message that prints a whole object is shortened;
      the entries of [files] are the dictionaries that the documentation
      of [register_model] describes. *)

From Stdlib Require Import Ascii String ZArith Lia Bool.
From stdpp Require Import base option list gmap strings pretty.

(** ** Python string operations *)

Module PyStr.

(** [s[:n]] *)
Fixpoint take (n : nat) (s : string) : string :=
  match n, s with
  | S n', String c s' => String c (take n' s')
  | _, _ => ""
  end.

(** one character of [str.lower()], on the ASCII range *)
Definition lower_char (c : ascii) : ascii :=
  let n := nat_of_ascii c in
  if (65 <=? n)%nat && (n <=? 90)%nat then ascii_of_nat (n + 32) else c.

(** [s.lower()] *)
Fixpoint lower (s : string) : string :=
  match s with
  | "" => ""
  | String c s' => String (lower_char c) (lower s')
  end.

(** [s.startswith(p)] *)
Fixpoint startswith (p s : string) : bool :=
  match p, s with
  | "", _ => true
  | String a p', String b s' => if ascii_dec a b then startswith p' s' else false
  | String _ _, "" => false
  end.

(** [sub in s] *)
Fixpoint contains (sub s : string) : bool :=
  if startswith sub s then true
  else match s with
       | "" => false
       | String _ s' => contains sub s'
       end.

(** the mathematical meaning of [sub in s] *)
Definition occurs (sub s : string) : Prop :=
  exists pre post, s = pre +:+ sub +:+ post.

(** [s.split(sep)] for a non-empty [sep]: the separators are the
    non-overlapping occurrences found scanning from the left.  [skip]
    counts the characters of a separator that are still to be passed
    over, [cur] holds the current piece reversed. *)
Fixpoint split_go (sep : string) (skip : nat) (cur : string) (s : string)
  : list string :=
  match s with
  | "" => [String.rev cur]
  | String c s' =>
      match skip with
      | S k => split_go sep k cur s'
      | O =>
          if startswith sep s
          then String.rev cur :: split_go sep (String.length sep - 1) "" s'
          else split_go sep 0 (String c cur) s'
      end
  end.

Definition split (sep s : string) : list string := split_go sep 0 "" s.

(** [sep.join(l)] *)
Fixpoint join (sep : string) (l : list string) : string :=
  match l with
  | [] => ""
  | [x] => x
  | x :: l' => x +:+ sep +:+ join sep l'
  end.

(** membership of a character in a string used as a character set *)
Fixpoint mem_char (c : ascii) (chars : string) : bool :=
  match chars with
  | "" => false
  | String d chars' => if ascii_dec c d then true else mem_char c chars'
  end.

(** [s.lstrip(chars)] *)
Fixpoint lstrip (chars s : string) : string :=
  match s with
  | "" => ""
  | String c s' => if mem_char c chars then lstrip chars s' else s
  end.

End PyStr.

(** ** Python values that occur in model descriptors *)

(** a custom property, the dictionary [{'name': ..., 'value': ...}] *)
Record property := Property { prop_name : string; prop_value : string }.

(** a model variable, a dictionary with a ['name'] and possibly a ['role'] *)
Record variable := Variable_ { var_name : string; var_role : option string }.

Inductive pyval :=
| PNone
| PStr (s : string)
| PProps (l : list property)
| PVars (l : list variable).

Global Instance property_eq_dec : EqDecision property.
Proof. solve_decision. Defined.
Global Instance variable_eq_dec : EqDecision variable.
Proof. solve_decision. Defined.
Global Instance pyval_eq_dec : EqDecision pyval.
Proof. solve_decision. Defined.

(** [d.get(k)]: a missing key reads as [None] *)
Definition pyget (d : gmap string pyval) (k : string) : pyval :=
  default PNone (d !! k).

(** ** Length limits and [_property] (tasks.py, lines 40-51) *)

Definition _DESC_MAXLEN : nat := 1024.
Definition _PROP_VALUE_MAXLEN : nat := 512.
Definition _PROP_NAME_MAXLEN : nat := 60.

(** [k] and [v] stand for [str(k)] and [str(v)]. *)
Definition _property (k v : string) : property :=
  {| prop_name := PyStr.take _PROP_NAME_MAXLEN k;
     prop_value := PyStr.take _PROP_VALUE_MAXLEN v |}.

(** ** [_sklearn_to_dict] (tasks.py, lines 54-104) *)

(** What the function reads of a scikit-learn estimator. *)
Record estimator := {
  (** [type(model).__name__] *)
  est_type_name : string;
  (** [type(model._final_estimator).__name__] when the attribute exists *)
  est_final_estimator : option string;
  (** [model._estimator_type] *)
  est_estimator_type : string;
  (** [str(model)] *)
  est_repr : string;
  (** [model.get_params().items()], each key and value through [str] *)
  est_params : list (string * string)
}.

Definition mappings : gmap string string :=
  list_to_map
    [ ("LogisticRegression", "Logistic regression");
      ("LinearRegression", "Linear regression");
      ("SVC", "Support vector machine");
      ("GradientBoostingClassifier", "Gradient boosting");
      ("GradientBoostingRegressor", "Gradient boosting");
      ("XGBClassifier", "Gradient boosting");
      ("XGBRegressor", "Gradient boosting");
      ("RandomForestClassifier", "Forest");
      ("DecisionTreeClassifier", "Decision tree");
      ("DecisionTreeRegressor", "Decision tree");
      ("classifier", "classification");
      ("regressor", "prediction") ].

(** [mappings.get(k, k)] *)
Definition mappings_get (k : string) : string := default k (mappings !! k).

(** lines 71-75 *)
Definition sk_estimator (model : estimator) : string :=
  match est_final_estimator model with
  | Some n => n
  | None => est_type_name model
  end.

(** line 78 *)
Definition sk_algorithm (model : estimator) : string :=
  mappings_get (sk_estimator model).

(** line 81 *)
Definition sk_analytic_function (model : estimator) : string :=
  mappings_get (est_estimator_type model).

(** lines 83-90 *)
Definition sk_target_level (analytic_function estimator algorithm : string)
  : pyval :=
  if bool_decide (analytic_function = "classification")
     && PyStr.contains "logistic" (PyStr.lower algorithm)
  then PStr "Binary"
  else if bool_decide (analytic_function = "prediction")
          && (PyStr.contains "regressor" (PyStr.lower estimator)
              || PyStr.contains "regression" (PyStr.lower algorithm))
  then PStr "Interval"
  else PNone.

Section Sklearn.

(** ['Python %s.%s' % (sys.version_info.major, sys.version_info.minor)] *)
Variable python_tool : string.

Definition _sklearn_to_dict (model : estimator) : gmap string pyval :=
  let estimator := sk_estimator model in
  let algorithm := sk_algorithm model in
  let analytic_function := sk_analytic_function model in
  let target_level := sk_target_level analytic_function estimator algorithm in
  list_to_map
    [ ("description", PStr (PyStr.take _DESC_MAXLEN (est_repr model)));
      ("algorithm", PStr algorithm);
      ("scoreCodeType", PStr "ds2MultiType");
      ("trainCodeType", PStr "Python");
      ("targetLevel", target_level);
      ("function", PStr analytic_function);
      ("tool", PStr python_tool);
      ("properties",
        PProps (map (fun kv => _property (fst kv) (snd kv)) (est_params model))) ].

End Sklearn.

(** lines 147-154 of [_create_project]; both arguments already lower-cased
    by lines 130-131 *)
Definition cp_target_level (function algorithm : string) : pyval :=
  if bool_decide (function = "classification")
     && PyStr.contains "logistic" algorithm
  then PStr "Binary"
  else if bool_decide (function = "prediction")
          && PyStr.contains "regression" algorithm
  then PStr "Interval"
  else PNone.

(** ** Exceptions, remote calls and the execution monad *)

Inductive exn :=
| ValueError (msg : string)
| TypeError (msg : string)
| RuntimeError (msg : string)
| AttributeError (msg : string)
| KeyError (key : string)
| AuthorizationError (msg : string)
| HTTPError (code : Z)
| Exception_ (msg : string)
| OtherError (descr : string).

Inductive result (A : Type) :=
| Ok (a : A)
| Raise (e : exn).
Arguments Ok {A} a.
Arguments Raise {A} e.

(** a [RestObj], or any other mapping returned by a service *)
Abbreviation restobj := (gmap string pyval).

(** a value that may or may not be an instance of [RestObj] *)
Inductive pyobj :=
| IsRestObj (o : restobj)
| NotRestObj (repr : string).

(** the [project] variable of [register_model]: the caller's argument, or
    the object returned by [_create_project] *)
Inductive project_ref :=
| ByName (p : option string)
| ByObj (o : restobj).

(** the [version] argument: [None], a string or an integer *)
Inductive pyversion :=
| VNone
| VStr (s : string)
| VInt (z : Z).

(** an entry of the [files] list *)
Record file_entry := File {
  f_name : string;
  f_file : string;
  f_role : option string
}.

(** the members of the ZIP package that [register_model] reads back:
    [outputVar.json], [inputVar.json] and [ModelProperties.json], each absent
    or decoded *)
Record zip_pkg := {
  zip_output_vars : option (list variable);
  zip_input_vars : option (list variable);
  zip_model_props : option (gmap string pyval)
}.

(** a publishing job as returned by [mr._monitor_job] *)
Record job := {
  job_state : string;
  job_destination_type : string;
  job_publish_name : string
}.

(** Every call that leaves the process, and every warning, in the order in
    which the code issues them. *)
Inductive event :=
| EWarn (msg : string)
(* model_repository *)
| EGetProject (project : string)
| EDefaultRepository
| EGetRepository (repository : string)
| ECreateProject (name : option string) (repo : restobj)
    (variables : list variable) (properties : gmap string pyval)
| EUpdateProject (project : restobj)
| EImportModelFromZip (name : string) (project : project_ref) (zip : zip_pkg)
    (version : pyversion)
| EGetModel (name : string)
| ECreateModelVersion (name : string)
| EDeleteModelContents (model : pyobj)
| ECreateModel (model : gmap string pyval) (project : project_ref)
| EAddModelContent (model : restobj) (file : file_entry)
(* model_publish, model_management, microanalytic_score, core *)
| EGetDestination (destination : string)
| EMMPublishModel (model destination : string) (force reload_model_table : bool)
| EMPPublishModel (model destination code : string)
| EMonitorJob (max_retries : Z)
| EDeleteModule (name : string)
| ERequestLink (j : job) (rel : string)
| EGet (url : string)
| EDefineSteps (module : restobj)
| EListPerformanceDefinitions
| EExecutePerformanceDefinition (perf_def : restobj)
(* swat *)
| ECASConnect (url : string)
| ECASSetSessOpt
| ECASTableInfo (caslib : string)
| ECASUpload (table_name caslib : string)
| ECASClose.

(** [os.environ] *)
Abbreviation environ := (gmap string string).

Record outcome (A : Type) := Outcome {
  res : result A;
  env_out : environ;
  trace : list event
}.
Arguments Outcome {A} res env_out trace.
Arguments res {A} o.
Arguments env_out {A} o.
Arguments trace {A} o.

(** A computation reads and writes the environment, appends to the trace of
    calls, and ends normally or by raising. *)
Definition M (A : Type) : Type := environ -> outcome A.

Definition ret {A} (a : A) : M A := fun env => Outcome (Ok a) env [].

Definition raise {A} (e : exn) : M A := fun env => Outcome (Raise e) env [].

Definition bind {A B} (m : M A) (f : A -> M B) : M B :=
  fun env =>
    let o := m env in
    match res o with
    | Ok a =>
        let o' := f a (env_out o) in
        Outcome (res o') (env_out o') (trace o ++ trace o')
    | Raise e => Outcome (Raise e) (env_out o) (trace o)
    end.

Notation "'do' x <- c ; k" := (bind c (fun x => k))
  (at level 10, x name, c at level 100, k at level 200).
Notation "c ;; k" := (bind c (fun _ => k))
  (at level 100, k at level 200, right associativity).

Definition emit (e : event) : M unit := fun env => Outcome (Ok tt) env [e].

(** a call to a collaborator: the call is recorded, then it returns or raises *)
Definition call {A} (e : event) (r : result A) : M A :=
  fun env => Outcome r env [e].

(** a call to a function of this process that returns or raises *)
Definition local {A} (r : result A) : M A := fun env => Outcome r env [].

(** [warnings.warn(msg)] *)
Definition warn (msg : string) : M unit := emit (EWarn msg).

(** [try: m  except <the exceptions on which h is defined>: h e] *)
Definition try_except {A} (m : M A) (h : exn -> option (M A)) : M A :=
  fun env =>
    let o := m env in
    match res o with
    | Ok a => o
    | Raise e =>
        match h e with
        | Some k =>
            let o' := k (env_out o) in
            Outcome (res o') (env_out o') (trace o ++ trace o')
        | None => o
        end
    end.

(** [for x in l: body x] *)
Fixpoint for_each {A} (l : list A) (body : A -> M unit) : M unit :=
  match l with
  | [] => ret tt
  | x :: l' => body x ;; for_each l' body
  end.

(** [os.environ.get(k)] and [os.environ[k] = v] *)
Definition environ_get (k : string) : M (option string) :=
  fun env => Outcome (Ok (env !! k)) env [].
Definition environ_set (k v : string) : M unit :=
  fun env => Outcome (Ok tt) (<[k := v]> env) [].

(** the calls that change something on the server *)
Definition is_mutation (e : event) : bool :=
  match e with
  | ECreateProject _ _ _ _ | EUpdateProject _ | EImportModelFromZip _ _ _ _
  | ECreateModelVersion _ | EDeleteModelContents _ | ECreateModel _ _
  | EAddModelContent _ _ | EMMPublishModel _ _ _ _ | EMPPublishModel _ _ _
  | EDeleteModule _ | EExecutePerformanceDefinition _ | ECASUpload _ _ => true
  | _ => false
  end.

Definition is_upload (e : event) : bool :=
  match e with
  | EAddModelContent _ _ => true
  | _ => false
  end.

(** ** Collaborators of [register_model] *)

(** a variable of a generated PyMAS module: [var.as_model_metadata()] and
    [var.out] *)
Record mas_var := { mv_metadata : variable; mv_out : bool }.

(** the PyMAS module returned by [from_model_info]: what [score_code()],
    [score_code(dest='CAS')] and [score_code(dest='Python')] return or raise,
    and [variables] *)
Record mas_module := {
  score_code : result string;
  score_code_cas : result string;
  score_code_python : result string;
  mas_variables : list mas_var
}.

(** the three statistics helpers of [utils.metrics] *)
Inductive stat_func := lift_statistics | fit_statistics | roc_statistics.

(** [Data] is the type of the Python objects passed as data sets, [MI] the
    type of [ModelInfo] instances.  The [mr_] fields are the functions of
    [services.model_repository]; each returns or raises. *)
Record registry (Data MI : Type) := {
  mr_get_project : string -> result (option restobj);
  mr_default_repository : result (option restobj);
  mr_get_repository : string -> result (option restobj);
  mr_create_project :
    option string -> restobj -> list variable -> gmap string pyval ->
    result restobj;
  mr_update_project : restobj -> result restobj;
  mr_import_model_from_zip :
    string -> project_ref -> zip_pkg -> pyversion -> result restobj;
  mr_get_model : string -> result (option restobj);
  mr_create_model_version : string -> result pyobj;
  mr_delete_model_contents : pyobj -> result unit;
  mr_create_model : gmap string pyval -> project_ref -> result pyobj;
  mr_add_model_content : restobj -> file_entry -> result unit;
  (** [utils.create_package(model, input=data)] on a CAS table *)
  create_package : string -> Data -> zip_pkg;
  (** [pickle.dumps] *)
  pickle_dumps : estimator -> string;
  (** [utils.misc.installed_packages()] *)
  installed_packages : option (list string);
  (** [ModelInfo(model)], [model_info.name = name],
      [model_info.set_variables( *data)], [model_info.to_dict()] *)
  mi_new : estimator -> MI;
  mi_set_name : MI -> string -> MI;
  mi_set_variables : MI -> Data -> MI;
  mi_to_dict : MI -> gmap string pyval;
  (** [json.dumps(func(model_obj, train=, test=, valid=), indent=2)] *)
  statistics :
    stat_func -> estimator -> option Data -> option Data -> option Data -> string;
  (** [utils.pymas.core.from_model_info] *)
  from_model_info : MI -> result mas_module;
  (** [not isinstance(data, Sequence) or len(data) == 1], on an object other
      than [None] (for which the test is true) *)
  data_is_single : Data -> bool;
  (** the tuple [(data, None)] *)
  data_pair_none : option Data -> Data
}.
Arguments mr_get_project {Data MI} r.
Arguments mr_default_repository {Data MI} r.
Arguments mr_get_repository {Data MI} r.
Arguments mr_create_project {Data MI} r.
Arguments mr_update_project {Data MI} r.
Arguments mr_import_model_from_zip {Data MI} r.
Arguments mr_get_model {Data MI} r.
Arguments mr_create_model_version {Data MI} r.
Arguments mr_delete_model_contents {Data MI} r.
Arguments mr_create_model {Data MI} r.
Arguments mr_add_model_content {Data MI} r.
Arguments create_package {Data MI} r.
Arguments pickle_dumps {Data MI} r.
Arguments installed_packages {Data MI} r.
Arguments mi_new {Data MI} r.
Arguments mi_set_name {Data MI} r.
Arguments mi_set_variables {Data MI} r.
Arguments mi_to_dict {Data MI} r.
Arguments statistics {Data MI} r.
Arguments from_model_info {Data MI} r.
Arguments data_is_single {Data MI} r.
Arguments data_pair_none {Data MI} r.

(** the [model] argument of [register_model], by the tests the function
    applies to it, in their order *)
Inductive model_arg :=
| MCASTable (table : string)              (* a [swat.cas.table.CASTable] *)
| MEstimator (est : estimator)            (* has [_estimator_type] and [get_params] *)
| MDict (d : gmap string pyval)           (* a [dict] *)
| MOther (repr : string).                 (* anything else *)

Record register_args (Data : Type) := {
  a_model : model_arg;
  a_name : string;
  a_project : option string;
  a_repository : option string;
  a_input : option Data;
  a_version : pyversion;
  a_files : list file_entry;
  a_force : bool;
  a_data : option Data;
  a_train : option Data;
  a_test : option Data;
  a_valid : option Data;
  a_record_packages : bool
}.
Arguments a_model {Data} r.
Arguments a_name {Data} r.
Arguments a_project {Data} r.
Arguments a_repository {Data} r.
Arguments a_input {Data} r.
Arguments a_version {Data} r.
Arguments a_files {Data} r.
Arguments a_force {Data} r.
Arguments a_data {Data} r.
Arguments a_train {Data} r.
Arguments a_test {Data} r.
Arguments a_valid {Data} r.
Arguments a_record_packages {Data} r.

(** [str(x)] of an optional string, as [format] and [%s] print it *)
Definition str_opt (o : option string) : string := default "None" o.

(** [str(version)] *)
Definition str_version (v : pyversion) : string :=
  match v with
  | VNone => "None"
  | VStr s => s
  | VInt z => pretty z
  end.

(** [version or 'new'] *)
Definition version_or_new (v : pyversion) : pyversion :=
  match v with
  | VNone => VStr "new"
  | VStr "" => VStr "new"
  | VInt 0 => VStr "new"
  | _ => v
  end.

(** [any(f['name'] == name for f in files)] *)
Definition has_file (name : string) (files : list file_entry) : bool :=
  existsb (fun f => bool_decide (f_name f = name)) files.

(** the lists read from a descriptor; anything but a list reads as empty *)
Definition vars_of (v : pyval) : list variable :=
  match v with
  | PVars l => l
  | _ => []
  end.

(** [d.get(k, '').lower()] *)
Definition get_lower (d : gmap string pyval) (k : string) : M string :=
  match d !! k with
  | None => ret ""
  | Some (PStr s) => ret (PyStr.lower s)
  | Some _ => raise (AttributeError "lower")
  end.

Section Register.

Context {Data MI : Type}.
Variable R : registry Data MI.

(** ** [_create_project] (tasks.py, lines 107-172) *)

Definition _create_project (project_name : option string)
    (model : gmap string pyval) (repo : restobj)
    (input_vars output_vars : list variable) : M restobj :=
  (* line 128 *)
  let properties : gmap string pyval :=
    filter (fun kv => kv.1 = "function" \/ kv.1 = "targetLevel") model in
  (* lines 130-131 *)
  do function <- get_lower model "function";
  do algorithm <- get_lower model "algorithm";
  (* lines 135-138 *)
  let input_vars :=
    match input_vars with
    | [] => vars_of (pyget model "inputVariables")
    | _ => input_vars
    end in
  let output_vars :=
    match output_vars with
    | [] => vars_of (pyget model "outputVariables")
    | _ => output_vars
    end in
  (* lines 141-145 *)
  let properties :=
    match output_vars with
    | [] => properties
    | v :: _ =>
        if bool_decide (function = "prediction")
        then <["predictionVariable" := PStr (var_name v)]> properties
        else <["eventProbabilityVariable" := PStr (var_name v)]> properties
    end in
  (* lines 148-154 *)
  let properties :=
    if bool_decide (pyget properties "targetLevel" = PNone)
    then <["targetLevel" := cp_target_level function algorithm]> properties
    else properties in
  (* lines 156-158 *)
  do project <-
    call (ECreateProject project_name repo (input_vars ++ output_vars) properties)
         (mr_create_project R project_name repo (input_vars ++ output_vars)
            properties);
  (* lines 163-167 *)
  let step (acc : restobj * bool) (p : string) : restobj * bool :=
    if bool_decide (pyget acc.1 p <> pyget properties p)
    then (<[p := pyget properties p]> acc.1, true)
    else acc in
  let '(project, needs_update) :=
    fold_left step ["predictionVariable"; "eventProbabilityVariable"]
      (project, false) in
  (* lines 169-172 *)
  if needs_update
  then call (EUpdateProject project) (mr_update_project R project)
  else ret project.

(** ** [register_model] (tasks.py, lines 271-604) *)

(** lines 388-409: the repository lookup *)
Definition find_repository (repository : option string) : M restobj :=
  do repo_obj <-
    try_except
      (match repository with
       | None => call EDefaultRepository (mr_default_repository R)
       | Some r => call (EGetRepository r) (mr_get_repository R r)
       end)
      (fun e =>
         match e with
         | HTTPError code =>
             Some (if bool_decide (code = 403%Z)
                   then raise (AuthorizationError
                     "Unable to register model.  User account does not have read permissions for the /modelRepository/repositories/ URL. Please contact your SAS Viya administrator.")
                   else raise e)
         | _ => None
         end);
  match repo_obj, repository with
  | Some r, _ => ret r
  | None, None => raise (ValueError "Unable to find a default repository")
  | None, Some r =>
      raise (ValueError ("Unable to find repository '" +:+ r +:+ "'"))
  end.

(** lines 413-448: a CAS table holding an ASTORE *)
Definition register_castable (table : string) (name : string)
    (project : option string) (create_project : bool) (repo_obj : restobj)
    (version : pyversion) (data : Data) : M restobj :=
  let zipfile := create_package R table data in
  do project <-
    (if create_project then
       (* lines 424-429 *)
       let outvar :=
         match zip_output_vars zipfile with
         | Some l =>
             map (fun v => {| var_name := var_name v;
                              var_role := Some "output" |}) l
         | None => []
         end in
       (* lines 430-436 *)
       do invar <-
         match zip_input_vars zipfile with
         | Some l =>
             if forallb (fun v => bool_decide (is_Some (var_role v))) l
             then ret (map (fun v => {| var_name := var_name v;
                                        var_role := Some "input" |}) l)
             else raise (KeyError "role")
         | None => ret []
         end;
       (* lines 438-443 *)
       let model_props := default ∅ (zip_model_props zipfile) in
       do p <- _create_project project model_props repo_obj invar outvar;
       ret (ByObj p)
     else ret (ByName project));
  call (EImportModelFromZip name project zipfile version)
       (mr_import_model_from_zip R name project zipfile version).

(** The state of the local variables once the estimator branch is through:
    [name] (rebound by the statistics loop), the descriptor [model] and
    the [files] list. *)
Record prepared := Prepared {
  p_name : string;
  p_model : gmap string pyval;
  p_files : list file_entry
}.

(** lines 467-476: the data set whose columns give the variables *)
Definition variables_source (train test valid : option Data) (data : Data)
  : Data :=
  match train, test, valid with
  | Some ds, _, _ => ds
  | None, Some ds, _ => ds
  | None, None, Some ds => ds
  | None, None, None => data
  end.

(** [any(x is not None for x in (train, test, valid))] *)
Definition any_split (train test valid : option Data) : bool :=
  bool_decide (is_Some train) || bool_decide (is_Some test)
  || bool_decide (is_Some valid).

(** lines 482-498: the statistics files.  The loop variable is [name], the
    very variable that holds the caller's model name. *)
Definition statistics_files (est : estimator) (train test valid : option Data)
    (name : string) (files : list file_entry) : string * list file_entry :=
  if any_split train test valid then
    fold_left
      (fun (acc : string * list file_entry) (nf : string * stat_func) =>
         let name := nf.1 in
         if negb (has_file name acc.2)
         then (name,
               acc.2 ++ [ {| f_name := name;
                             f_file := statistics R nf.2 est train test valid;
                             f_role := None |} ])
         else (name, acc.2))
      [ ("dmcas_lift.json", lift_statistics);
        ("dmcas_fitstat.json", fit_statistics);
        ("dmcas_roc.json", roc_statistics) ]
      (name, files)
  else (name, files).

(** [model['properties'].append(pr)] *)
Definition append_property (model : gmap string pyval) (pr : property)
  : M (gmap string pyval) :=
  match model !! "properties" with
  | Some (PProps l) => ret (<["properties" := PProps (l ++ [pr])]> model)
  | _ => raise (AttributeError "append")
  end.

(** lines 512-514: the body of the loop over the installed packages *)
Definition record_package (model : gmap string pyval) (p : string)
  : M (gmap string pyval) :=
  if PyStr.contains "==" p then
    match PyStr.split "==" p with
    | [n; v] => append_property model (_property ("env_" +:+ n) v)
    | [] | [_] =>
        raise (ValueError "not enough values to unpack (expected 2, got 1)")
    | _ => raise (ValueError "too many values to unpack (expected 2)")
    end
  else ret model.

(** lines 511-514 *)
Fixpoint record_packages (model : gmap string pyval) (packages : list string)
  : M (gmap string pyval) :=
  match packages with
  | [] => ret model
  | p :: rest =>
      do model <- record_package model p;
      record_packages model rest
  end.

(** the text of the generated [requirements.txt], line 517 *)
Definition requirements_txt (packages : list string) : file_entry :=
  {| f_name := "requirements.txt";
     f_file := PyStr.join (String "010"%char "") packages;
     f_role := None |}.

(** lines 501-517 *)
Definition record_installed_packages (record : bool)
    (model : gmap string pyval) (files : list file_entry)
  : M (gmap string pyval * list file_entry) :=
  if record && negb (has_file "requirements.txt" files) then
    match installed_packages R with
    | Some packages =>
        (* [model.setdefault('properties', [])] *)
        let model :=
          match model !! "properties" with
          | None => <["properties" := PProps []]> model
          | Some _ => model
          end in
        do model <- record_packages model packages;
        ret (model, files ++ [requirements_txt packages])
    | None => ret (model, files)
    end
  else ret (model, files).

Definition score_code_warning : string :=
  "Unable to determine input/output variables.  Model variables will not be specified and some model functionality may not be available.".

(** lines 556-565: the handler of the [try] of line 520.  [state] is the
    descriptor and the list of files as the interrupted block left them
    ([files.append] acts on the list itself, so that what was appended
    before the exception stays). *)
Definition except_ValueError {A} (e : exn) (state : A) : M A :=
  match e with
  | ValueError _ => warn score_code_warning ;; ret state
  | _ => raise e
  end.

(** lines 519-565 *)
Definition generate_score_code (model_info : MI) (model : gmap string pyval)
    (files : list file_entry) : M (gmap string pyval * list file_entry) :=
  (* line 522 *)
  match from_model_info R model_info with
  | Raise e => except_ValueError e (model, files)
  | Ok mas_module =>
  (* lines 528-534 *)
  match score_code mas_module with
  | Raise e => except_ValueError e (model, files)
  | Ok code =>
  let files :=
    files ++ [ {| f_name := "dmcas_packagescorecode.sas"; f_file := code;
                  f_role := Some "Score Code" |} ] in
  (* lines 535-541 *)
  match score_code_cas mas_module with
  | Raise e => except_ValueError e (model, files)
  | Ok code =>
  let files :=
    files ++ [ {| f_name := "dmcas_epscorecode.sas"; f_file := code;
                  f_role := Some "score" |} ] in
  (* lines 542-547 *)
  match score_code_python mas_module with
  | Raise e => except_ValueError e (model, files)
  | Ok code =>
  let files :=
    files ++ [ {| f_name := "python_wrapper.py"; f_file := code;
                  f_role := None |} ] in
  (* lines 549-555 *)
  let model :=
    <["inputVariables" :=
        PVars (map mv_metadata
                 (filter (fun v => mv_out v = false) (mas_variables mas_module)))]>
      model in
  let model :=
    <["outputVariables" :=
        PVars (map mv_metadata
                 (filter (fun v => mv_out v = true) (mas_variables mas_module)))]>
      model in
  ret (model, files)
  end end end end.

(** lines 463-476: the [ModelInfo] of the estimator, named and given its
    variables *)
Definition estimator_info (est : estimator) (name : string) (data : Data)
    (train test valid : option Data) : MI :=
  mi_set_variables R (mi_set_name R (mi_new R est) name)
    (variables_source train test valid data).

(** lines 457-517: the branch of a scikit-learn estimator, up to the
    score code *)
Definition before_score_code (est : estimator) (name : string)
    (files : list file_entry) (data : Data) (train test valid : option Data)
    (record : bool) : M prepared :=
  (* lines 459-460 *)
  let files :=
    files ++ [ {| f_name := "model.pkl"; f_file := pickle_dumps R est;
                  f_role := Some "Python Pickle" |} ] in
  (* lines 463-479 *)
  let model_info := estimator_info est name data train test valid in
  let model := <["scoreCodeType" := PStr "ds2MultiType"]> (mi_to_dict R model_info) in
  (* lines 482-498 *)
  let '(name, files) := statistics_files est train test valid name files in
  (* lines 501-517 *)
  do mf <- record_installed_packages record model files;
  ret (Prepared name mf.1 mf.2).

(** lines 457-565: the whole branch *)
Definition prepare_estimator (est : estimator) (name : string)
    (files : list file_entry) (data : Data) (train test valid : option Data)
    (record : bool) : M prepared :=
  do pr <- before_score_code est name files data train test valid record;
  (* lines 519-565 *)
  do mf <- generate_score_code (estimator_info est name data train test valid)
             (p_model pr) (p_files pr);
  ret (Prepared (p_name pr) mf.1 mf.2).

(** [str(version).lower() != 'new'] *)
Definition replaces_version (version : pyversion) : bool :=
  bool_decide (PyStr.lower (str_version version) <> "new").

(** lines 573-604: what follows the dispatch on the kind of model *)
Definition submit_model (pr : prepared) (project : option string)
    (create_project : bool) (repo_obj : restobj) (version : pyversion)
  : M restobj :=
  let name := p_name pr in
  (* lines 573-574 *)
  do project <-
    (if create_project
     then do p <- _create_project project (p_model pr) repo_obj [] [];
          ret (ByObj p)
     else ret (ByName project));
  (* lines 577-589 *)
  do model <-
    (if replaces_version version then
       do model_obj <- call (EGetModel name) (mr_get_model R name);
       match model_obj with
       | None =>
           raise (ValueError
             ("Unable to update version '" +:+ str_version version
              +:+ "' of model '" +:+ name +:+ ".  Model not found."))
       | Some _ =>
           do model <-
             call (ECreateModelVersion name) (mr_create_model_version R name);
           call (EDeleteModelContents model) (mr_delete_model_contents R model) ;;
           ret model
       end
     else
       call (ECreateModel (p_model pr) project)
            (mr_create_model R (p_model pr) project));
  (* lines 591-595 *)
  match model with
  | NotRestObj r =>
      raise (TypeError
        ("Model should be an instance of RestObj but received '" +:+ r
         +:+ "' instead."))
  | IsRestObj model =>
      (* lines 598-602 *)
      for_each (p_files pr)
        (fun file => call (EAddModelContent model file)
                          (mr_add_model_content R model file)) ;;
      ret model
  end.

Definition deprecation_warning : string :=
  "The 'input' parameter has been deprecated and will be removed in a future version.  Please use the 'data' parameter instead.".

(** lines 364-369: the [data] variable once the [input] argument is taken
    into account and a lone value is wrapped into a pair *)
Definition data_argument (a : register_args Data) : Data :=
  let data :=
    match a_input a, a_data a with
    | Some i, None => Some i
    | _, d => d
    end in
  match data with
  | None => data_pair_none R None
  | Some d => if data_is_single R d then data_pair_none R (Some d) else d
  end.

(** lines 411-604: the dispatch on the kind of model, once the project and
    the repository are settled *)
Definition register_resolved (a : register_args Data) (create_project : bool)
    (repo_obj : restobj) : M restobj :=
  let name := a_name a in
  let project := a_project a in
  let data := data_argument a in
  let version := version_or_new (a_version a) in
  let files := a_files a in
  match a_model a with
  | MCASTable table =>
      register_castable table name project create_project repo_obj version data
  | MEstimator est =>
      do pr <- prepare_estimator est name files data
                 (a_train a) (a_test a) (a_valid a) (a_record_packages a);
      submit_model pr project create_project repo_obj version
  | MDict d =>
      submit_model (Prepared name d files) project create_project repo_obj version
  | MOther r =>
      raise (TypeError
        ("Expected an instance of '{}' but received '" +:+ r +:+ "'."))
  end.

(** line 379 *)
Definition lookup_project (project : option string) : M (option restobj) :=
  match project with
  | Some pn => call (EGetProject pn) (mr_get_project R pn)
  | None => ret None
  end.

Definition register_model (a : register_args Data) : M restobj :=
  let project := a_project a in
  (* lines 360-363 *)
  match a_input a with
  | Some _ => warn deprecation_warning
  | None => ret tt
  end ;;
  (* line 379 *)
  do p <- lookup_project project;
  (* lines 382-385 *)
  let create_project := bool_decide (p = None) && a_force a in
  if bool_decide (p = None) && negb create_project
  then raise (ValueError ("Project '" +:+ str_opt project +:+ "' not found"))
  else
    (* lines 388-409 *)
    do repo_obj <- find_repository (a_repository a);
    (* lines 411-604 *)
    register_resolved a create_project repo_obj.

End Register.

(** ** [publish_model] (tasks.py, lines 607-724) *)

(** The services behind [publish_model].  The server answers the first and
    the second publishing request independently, so the job that
    [mr._monitor_job] returns depends on the rank of the request. *)
Record publisher := {
  (** [mp.get_destination(destination)]: the [destinationType] of the
      object found, [None] when the result is falsy *)
  mp_get_destination : string -> result (option string);
  mm_publish_model : string -> string -> bool -> bool -> result restobj;
  mp_publish_model : string -> string -> string -> result restobj;
  mr_monitor_job : nat -> restobj -> Z -> result job;
  mas_delete_module : string -> result unit;
  (** [request_link(job, 'self')] *)
  job_self : job -> result restobj;
  (** [request_link(job, 'publishingLog')], its [log] field *)
  job_publishing_log : job -> result string;
  (** [_parse_module_url] (lines 909-921), which rests on [json.loads],
      [get_link] and [re.search] *)
  _parse_module_url : string -> result (option string);
  (** [get(module_url)]: the module and its [content-type] header *)
  core_get : string -> result (restobj * string);
  mas_define_steps : restobj -> result restobj
}.

Section Publish.

Variable P : publisher.

(** lines 651-669; [attempt] is the rank of the request *)
Definition submit_request (model destination : string) (code : option string)
    (max_retries : Z) (replace : bool) (attempt : nat) : M job :=
  do publish_req <-
    match code with
    | None =>
        do dest_type <-
          call (EGetDestination destination) (mp_get_destination P destination);
        if bool_decide (dest_type = Some "cas")
        then call (EMMPublishModel model destination replace true)
                  (mm_publish_model P model destination replace true)
        else call (EMMPublishModel model destination replace false)
                  (mm_publish_model P model destination replace false)
    | Some c =>
        call (EMPPublishModel model destination c)
             (mp_publish_model P model destination c)
    end;
  call (EMonitorJob max_retries) (mr_monitor_job P attempt publish_req max_retries).

Definition job_is (j : job) (state : string) : bool :=
  bool_decide (PyStr.lower (job_state j) = state).

Definition is_mas (j : job) : bool :=
  bool_decide (job_destination_type j = "microAnalyticService").

Definition publish_failure (model log : string) : exn :=
  RuntimeError ("Failed to publish model '" +:+ model +:+ "': " +:+ log).

(** lines 695-724: what follows once no request is to be submitted any more *)
Definition conclude_publication (model : string) (job : job) : M restobj :=
  (* lines 696-698 *)
  if job_is job "failed"
  then
    do log <- call (ERequestLink job "publishingLog") (job_publishing_log P job);
    raise (publish_failure model log)
  (* lines 701-704 *)
  else if negb (job_is job "completed")
  then raise (RuntimeError
         ("Model publishing job in an unknown state: '"
          +:+ PyStr.lower (job_state job) +:+ "'"))
  else
    (* lines 706-707 *)
    do log <- call (ERequestLink job "publishingLog") (job_publishing_log P job);
    let msg := PyStr.lstrip "SUCCESS===" log in
    (* lines 712-714 *)
    do module_url <- local (_parse_module_url P msg);
    match module_url with
    | None => raise (Exception_ "Unable to retrieve module URL from publish log.")
    | Some url =>
        (* lines 716-724 *)
        do mh <- call (EGet url) (core_get P url);
        if PyStr.contains "application/vnd.sas.microanalytic.module" mh.2
        then call (EDefineSteps mh.1) (mas_define_steps P mh.1)
        else ret mh.1
    end.

Definition publish_model (model destination : string) (code : option string)
    (max_retries : Z) (replace : bool) : M restobj :=
  (* line 672 *)
  do job <- submit_request model destination code max_retries replace 0;
  (* lines 675-679 *)
  if job_is job "completed" && negb (is_mas job)
  then call (ERequestLink job "self") (job_self P job)
  else
    (* lines 683-693 *)
    do job <-
      (if job_is job "failed" && replace && is_mas job
       then
         call (EDeleteModule (job_publish_name job))
              (mas_delete_module P (job_publish_name job)) ;;
         submit_request model destination code max_retries replace 1
       else ret job);
    (* lines 695-724 *)
    conclude_publication model job.

End Publish.

(** the requests that were submitted, in a trace *)
Definition is_submission (e : event) : bool :=
  match e with
  | EMMPublishModel _ _ _ _ | EMPPublishModel _ _ _ => true
  | _ => false
  end.

Definition is_module_deletion (e : event) : bool :=
  match e with
  | EDeleteModule _ => true
  | _ => false
  end.

(** ** Regular expressions, as far as line 850 needs them *)

Module Regex.

Inductive re :=
| Chr (c : ascii)      (* a literal character *)
| Digit                (* [\d] *)
| Any                  (* [.]: any character but a newline *)
| Seq (r1 r2 : re)
| Star (r : re)        (* greedy [*] *)
| Group (r : re)       (* a capturing group *)
| Eps.

(** [r+] *)
Definition Plus (r : re) : re := Seq r (Star r).

(** the literal text [s] *)
Fixpoint Lit (s : string) : re :=
  match s with
  | "" => Eps
  | String c s' => Seq (Chr c) (Lit s')
  end.

Definition is_digit (c : ascii) : bool :=
  let n := nat_of_ascii c in (48 <=? n)%nat && (n <=? 57)%nat.

Definition newline : ascii := "010"%char.

(** one character against a literal, under [re.IGNORECASE] *)
Definition same_char (c d : ascii) : bool :=
  bool_decide (PyStr.lower_char c = PyStr.lower_char d).

(** The rounds of a greedy [*].  [step] matches the repeated expression
    once; a round is tried first, and only if no continuation of it
    succeeds is the rest of the pattern, [k], tried on the text as it
    stands.  A round must consume something (Python cuts off an empty
    round), so that [n], the length of the text, bounds the rounds. *)
Fixpoint rounds {B}
    (step : string -> option string ->
            (string -> option string -> option B) -> option B)
    (k : string -> option string -> option B)
    (n : nat) (s : string) (cap : option string) : option B :=
  match
    match n with
    | S n' =>
        step s cap
          (fun s' cap' =>
             if (String.length s' <? String.length s)%nat
             then rounds step k n' s' cap' else None)
    | O => None
    end
  with
  | Some b => Some b
  | None => k s cap
  end.

(** A backtracking matcher in continuation-passing style.  [m r s cap k]
    matches [r] at the head of [s]; at each way of matching, from the
    preferred one on, it hands the rest of the text and the text of the
    group to [k], and it returns the first answer of [k] that is not
    [None]. *)
Fixpoint m {B} (r : re) (s : string) (cap : option string)
    (k : string -> option string -> option B) : option B :=
  match r with
  | Chr c =>
      match s with
      | String d s' => if same_char c d then k s' cap else None
      | "" => None
      end
  | Digit =>
      match s with
      | String d s' => if is_digit d then k s' cap else None
      | "" => None
      end
  | Any =>
      match s with
      | String d s' => if bool_decide (d = newline) then None else k s' cap
      | "" => None
      end
  | Seq r1 r2 => m r1 s cap (fun s' cap' => m r2 s' cap' k)
  | Star r' => rounds (m r') k (String.length s) s cap
  | Group r' =>
      m r' s cap
        (fun s' _ =>
           k s' (Some (PyStr.take (String.length s - String.length s') s)))
  | Eps => k s cap
  end.

(** [re.search(r, s)]: the leftmost position at which [r] matches; the
    answer is the text of the group *)
Fixpoint search (r : re) (s : string) : option (option string) :=
  match m r s None (fun _ cap => Some cap) with
  | Some cap => Some cap
  | None =>
      match s with
      | "" => None
      | String _ s' => search r s'
      end
  end.

(** [Series.str.extract(r, expand=False)] on one name, for a pattern with
    one group: the text of the group, or NaN *)
Definition extract (r : re) (s : string) : option string :=
  match search r s with
  | Some (Some g) => Some g
  | _ => None
  end.

(** the characters that a pattern does not read as themselves *)
Definition is_meta (c : ascii) : bool := PyStr.mem_char c ".^$*+?{}[]\|()".

Fixpoint literal (s : string) : bool :=
  match s with
  | "" => true
  | String c s' => negb (is_meta c) && literal s'
  end.

End Regex.

(** every character of [s] passes the test [p] *)
Fixpoint all_chars (p : ascii -> bool) (s : string) : bool :=
  match s with
  | "" => true
  | String c s' => p c && all_chars p s'
  end.

(** a non-empty string of decimal digits *)
Definition is_number (s : string) : bool :=
  negb (bool_decide (s = "")) && all_chars Regex.is_digit s.

(** a string without a newline *)
Definition one_line (s : string) : bool :=
  all_chars (fun c => negb (bool_decide (c = Regex.newline))) s.

(** [int(s)] on a string of decimal digits *)
Definition digit_value (c : ascii) : Z := Z.of_nat (nat_of_ascii c - 48).

Fixpoint int_of_digits_go (acc : Z) (s : string) : Z :=
  match s with
  | "" => acc
  | String c s' => int_of_digits_go (10 * acc + digit_value c) s'
  end.

Definition int_of_digits (s : string) : Z := int_of_digits_go 0 s.

(** ** [update_model_performance] (tasks.py, lines 727-906) *)

(** a performance definition, with the fields that the function reads *)
Record perf_def := {
  pd_project_id : string;
  pd_cas_server_id : string;
  pd_data_library : string;
  pd_data_prefix : string;
  pd_input_variables : list string;
  pd_output_variables : list string;
  pd_score_execution_required : bool;
  pd_obj : restobj
}.

(** [current_session()] *)
Record session := {
  sess_protocol : string;
  sess_hostname : string;
  sess_username : string;
  sess_password : string;
  sess_verify : bool
}.

Record monitoring := {
  (** whether [import swat] succeeds *)
  swat_available : bool;
  pm_get_model : string -> result (option restobj);
  pm_get_project : string -> result (option restobj);
  mm_list_performance_definitions : result (list perf_def);
  current_session : session;
  (** [swat.CAS(url, username=, password=)] *)
  cas_connect : string -> result unit;
  cas_setsessopt : result unit;
  (** [s.table.tableinfo(caslib=caslib)]: the [Name] column of the
      [TableInfo] result, [None] when the result has no [TableInfo] *)
  cas_tableinfo : string -> result (option (list string));
  (** [s.upload(data, casout=...)]: the [casTable] attribute of the result,
      [None] when the result has none *)
  cas_upload : string -> string -> result (option string);
  mm_execute_performance_definition : restobj -> result unit
}.

(** [o.k] on a [RestObj], for an attribute that holds a string *)
Definition attr (o : restobj) (k : string) : M string :=
  match o !! k with
  | Some (PStr s) => ret s
  | _ => raise (AttributeError k)
  end.

(** [with enter as x: body x], for a context manager whose exit closes the
    session and lets an exception of the body through *)
Definition with_session {A} (enter : M unit) (body : M A) : M A :=
  enter ;;
  fun env =>
    let o := body env in
    Outcome (res o) (env_out o) (trace o ++ [ECASClose]).

(** lines 853-858 and 899-900, around the block [body] of lines 861-896:
    the setting of [SSLREQCERT] is saved, overridden if the session does not
    verify certificates, and written back after [body] *)
Definition certificate_override {A} (verify : bool) (body : M A) : M A :=
  (* line 853 *)
  do orig_sslreqcert <- environ_get "SSLREQCERT";
  (* lines 857-858 *)
  (if negb verify then environ_set "SSLREQCERT" "no" else ret tt) ;;
  (* lines 861-896 *)
  do x <- body;
  (* lines 899-900 *)
  match orig_sslreqcert with
  | Some v => environ_set "SSLREQCERT" v
  | None => ret tt
  end ;;
  ret x.

(** line 850: the pattern, for a prefix and a model id that are free of
    metacharacters *)
Definition table_regex (table_prefix model_id : string) : Regex.re :=
  Regex.Seq (Regex.Lit table_prefix)
    (Regex.Seq (Regex.Chr "_")
       (Regex.Seq (Regex.Group (Regex.Plus Regex.Digit))
          (Regex.Seq (Regex.Chr "_")
             (Regex.Seq (Regex.Star Regex.Any)
                (Regex.Seq (Regex.Chr "_") (Regex.Lit model_id)))))).

(** [Series.max()]: NaN on an empty series *)
Definition series_max (l : list Z) : option Z :=
  match l with
  | [] => None
  | x :: l' => Some (fold_left Z.max l' x)
  end.

(** lines 873-878: [perf_tables.dropna().astype(int)].  The integers are
    those of Python; the conversion to the 64-bit integers of the series is
    taken to succeed. *)
Definition sequence_numbers (table_prefix model_id : string)
    (names : list string) : list Z :=
  let perf_tables := map (Regex.extract (table_regex table_prefix model_id)) names in
  map int_of_digits (omap id perf_tables).

(** lines 870-881 *)
Definition next_sequence (table_prefix model_id : string)
    (all_tables : option (list string)) : Z :=
  match all_tables with
  | Some names =>
      let last_seq := series_max (sequence_numbers table_prefix model_id names) in
      match last_seq with
      | None => 1
      | Some last_seq => last_seq + 1
      end
  | None => 1
  end%Z.

(** lines 883-885 *)
Definition performance_table_name (table_prefix : string) (sequence : Z)
    (label model_id : string) : string :=
  table_prefix +:+ "_" +:+ pretty sequence +:+ "_" +:+ label +:+ "_" +:+ model_id.

Section Performance.

Variable W : monitoring.

Definition unsupported (what received expected : string) : exn :=
  ValueError
    ("Performance monitoring is currently supported for regression and binary classification projects.  Received project with '"
     +:+ received +:+ "' " +:+ what +:+ ".  Should be " +:+ expected +:+ ".").

(** [', '.join(col for col in expected if col not in columns)] *)
Definition missing_columns (expected columns : list string) : list string :=
  filter (fun col => col ∉ columns) expected.

Definition columns_error (missing : list string) : exn :=
  ValueError
    ("The following columns were expected but not found in the data set: "
     +:+ PyStr.join ", " missing).

(** lines 861-896: the body of the [with swat.CAS(...) as s] block *)
Definition upload_performance_table (caslib table_prefix model_id label : string)
  : M string :=
  call ECASSetSessOpt (cas_setsessopt W) ;;
  do all_tables <- call (ECASTableInfo caslib) (cas_tableinfo W caslib);
  let next_seq := next_sequence table_prefix model_id all_tables in
  let table_name := performance_table_name table_prefix next_seq label model_id in
  do result <- call (ECASUpload table_name caslib) (cas_upload W table_name caslib);
  match result with
  | None => raise (RuntimeError "Unable to upload performance data to CAS.")
  | Some tbl => ret tbl
  end.

(** [columns] is [data.columns]; [refresh] is [None] when omitted *)
Definition update_model_performance (columns : list string)
    (model label : string) (refresh : option bool) : M string :=
  (* lines 760-765 *)
  if negb (swat_available W)
  then raise (RuntimeError
         "The 'swat' package is required to save model performance data.")
  else
  (* line 768 *)
  let refresh := default true refresh in
  (* lines 770-775 *)
  do model_obj <- call (EGetModel model) (pm_get_model W model);
  match model_obj with
  | None => raise (ValueError ("Model " +:+ model +:+ " was not found."))
  | Some model_obj =>
  do project_id <- attr model_obj "projectId";
  do project <- call (EGetProject project_id) (pm_get_project W project_id);
  match project with
  | None => raise (AttributeError "get")
  | Some project =>
  (* lines 777-791 *)
  do function <- get_lower project "function";
  if negb (bool_decide (function ∈ ["prediction"; "classification"]))
  then raise (unsupported "function" function "'Prediction' or 'Classification'")
  else
  do target_level <- get_lower project "targetLevel";
  if negb (bool_decide (target_level ∈ ["interval"; "binary"]))
  then raise (unsupported "target level" target_level "'Interval' or 'Binary'")
  else
  (* lines 793-808 *)
  if bool_decide (default (PStr "") (project !! "predictionVariable") = PStr "")
     && bool_decide (function = "prediction")
  then raise (ValueError "Project does not have a prediction variable specified.")
  else
  if bool_decide (default (PStr "") (project !! "eventProbabilityVariable") = PStr "")
     && bool_decide (function = "classification")
  then raise (ValueError
         "Project does not have an Event Probability variable specified.")
  else
  (* lines 812-821 *)
  do definitions <-
    call EListPerformanceDefinitions (mm_list_performance_definitions W);
  do found <-
    match definitions with
    | [] => ret None
    | _ =>
        do the_project_id <- attr project "id";
        ret (find (fun p => PyStr.contains the_project_id (pd_project_id p))
               definitions)
    end;
  match found with
  | None =>
      raise (ValueError
        ("Unable to find a performance definition for model '" +:+ model +:+ "'"))
  | Some perf_def =>
  (* lines 824-826 *)
  let cas_id := pd_cas_server_id perf_def in
  let caslib := pd_data_library perf_def in
  let table_prefix := pd_data_prefix perf_def in
  (* lines 829-846 *)
  let missing_cols := missing_columns (pd_input_variables perf_def) columns in
  if negb (bool_decide (missing_cols = []))
  then raise (columns_error missing_cols)
  else
  let missing_cols :=
    if pd_score_execution_required perf_def then []
    else missing_columns (pd_output_variables perf_def) columns in
  if negb (bool_decide (missing_cols = []))
  then raise (columns_error missing_cols)
  else
  (* lines 848-850 *)
  let sess := current_session W in
  let url :=
    sess_protocol sess +:+ "://" +:+ sess_hostname sess +:+ "/" +:+ cas_id
    +:+ "-http/" in
  do model_id <- attr model_obj "id";
  (* lines 853-900 *)
  do tbl <-
    certificate_override (sess_verify sess)
      (with_session (call (ECASConnect url) (cas_connect W url))
         (upload_performance_table caslib table_prefix model_id label));
  (* lines 903-906 *)
  (if refresh
   then call (EExecutePerformanceDefinition (pd_obj perf_def))
             (mm_execute_performance_definition W (pd_obj perf_def))
   else ret tt) ;;
  ret tbl
  end end end.

End Performance.

(** ** Vocabulary of the statements *)

(** the number of publishing requests in a trace *)
Definition submissions (t : list event) : nat := length (filter is_submission t).

(** the number of module deletions in a trace *)
Definition module_deletions (t : list event) : nat :=
  length (filter is_module_deletion t).

(** neither a publishing request nor a module deletion *)
Definition settled (e : event) : Prop :=
  is_submission e = false /\ is_module_deletion e = false.


(** a trace without any call that changes the server *)
Definition no_remote_mutation (t : list event) : Prop :=
  Forall (fun e => is_mutation e = false) t.

(** a call that leaves the server as it is, or a warning *)
Definition quiet (e : event) : Prop := is_mutation e = false.

(** a warning, not a call *)
Definition warning (e : event) : Prop :=
  match e with
  | EWarn _ => True
  | _ => False
  end.

(** a trace without any upload of model content *)
Definition no_upload (t : list event) : Prop :=
  Forall (fun e => is_upload e = false) t.

(** a computation confined to [P]: every event that it records satisfies
    [P], and it leaves the environment as it found it *)
Definition confined {A} (P : event -> Prop) (m : M A) : Prop :=
  forall env, Forall P (trace (m env)) /\ env_out (m env) = env.

(** a computation that, when it ends normally, leaves [SSLREQCERT] at the
    value [v] that it found *)
Definition restores {A} (v : string) (m : M A) : Prop :=
  forall env x,
    env !! "SSLREQCERT" = Some v -> res (m env) = Ok x -> env_out (m env) = env.

(** the call ended by raising [ValueError] *)
Definition raises_ValueError {A} (o : outcome A) : Prop :=
  exists msg, res o = Raise (ValueError msg).

(** [pr] is the state of [name], [model] and [files] with which
    [register_model] reaches line 573: the arguments themselves for a
    dictionary, the result of the estimator branch for an estimator *)
Definition prepared_by {Data MI} (R : registry Data MI) (a : register_args Data)
    (env : environ) (pr : prepared) : Prop :=
  match a_model a with
  | MDict d => pr = Prepared (a_name a) d (a_files a)
  | MEstimator est =>
      res (prepare_estimator R est (a_name a) (a_files a) (data_argument R a)
             (a_train a) (a_test a) (a_valid a) (a_record_packages a) env)
      = Ok pr
  | _ => False
  end.

(** the estimator branch of [register_model] on the arguments [a], up to the
    score code, and the [ModelInfo] it builds *)
Definition before_score_code_of {Data MI} (R : registry Data MI)
    (a : register_args Data) (est : estimator) : M prepared :=
  before_score_code R est (a_name a) (a_files a) (data_argument R a)
    (a_train a) (a_test a) (a_valid a) (a_record_packages a).

Definition estimator_info_of {Data MI} (R : registry Data MI)
    (a : register_args Data) (est : estimator) : MI :=
  estimator_info R est (a_name a) (data_argument R a)
    (a_train a) (a_test a) (a_valid a).

(** the custom properties of a descriptor *)
Definition props_of (model : gmap string pyval) : list property :=
  match model !! "properties" with
  | Some (PProps l) => l
  | _ => []
  end.

(** the property that stands for one installed package: none for a string
    without ['=='], one for ['name==version'] *)
Definition env_property (p : string) : list property :=
  if PyStr.contains "==" p then
    match PyStr.split "==" p with
    | [n; v] => [_property ("env_" +:+ n) v]
    | _ => []
    end
  else [].

(** a string without the character ['='] *)
Definition no_equals_sign (s : string) : bool :=
  all_chars (fun c => negb (bool_decide (c = "="%char))) s.

(** a package string has no ['=='] or splits into a name and a version *)
Definition well_formed_package (p : string) : Prop :=
  PyStr.contains "==" p = false \/ exists n v, PyStr.split "==" p = [n; v].

Definition env_properties (packages : list string) : list property :=
  flat_map env_property packages.

(** the names of the files that the estimator branch makes before the
    score code *)
Definition generated_before_score_code : list string :=
  [ "model.pkl"; "dmcas_lift.json"; "dmcas_fitstat.json"; "dmcas_roc.json";
    "requirements.txt" ].

(** the packages that lines 501-517 record, if any *)
Definition recorded_packages {Data MI} (R : registry Data MI) (record : bool)
    (files : list file_entry) : list string :=
  if record && negb (has_file "requirements.txt" files)
  then default [] (installed_packages R)
  else [].

(** [p] is one of the lines of the file [f] *)
Definition listed_in (p : string) (f : file_entry) : Prop :=
  In p (PyStr.split (String "010"%char "") (f_file f)).

(** no uploaded [requirements.txt] lists [p] *)
Definition manifest_excludes (t : list event) (p : string) : Prop :=
  forall m f,
    In (EAddModelContent m f) t -> f_name f = "requirements.txt" ->
    ~ listed_in p f.

(** no custom property of a submitted descriptor stands for [p] *)
Definition properties_exclude (t : list event) (p : string) : Prop :=
  forall d project pr,
    In (ECreateModel d project) t -> In pr (props_of d) ->
    ~ In pr (env_property p).

(** a custom property within the limits of the platform *)
Definition within_limits (p : property) : Prop :=
  String.length (prop_name p) <= 60 /\ String.length (prop_value p) <= 512.

(** every lookup of a model and every new version goes by the name [name] *)
Definition names_model (name : string) (e : event) : Prop :=
  match e with
  | EGetModel n | ECreateModelVersion n => n = name
  | _ => True
  end.

(** what [register_model] records before it looks for the repository *)
Definition preamble_trace {Data} (a : register_args Data) : list event :=
  match a_input a with Some _ => [EWarn deprecation_warning] | None => [] end
  ++ match a_project a with Some pn => [EGetProject pn] | None => [] end.

(** the message of line 581 *)
Definition model_not_found (version : pyversion) (name : string) : exn :=
  ValueError
    ("Unable to update version '" +:+ str_version version +:+ "' of model '"
     +:+ name +:+ ".  Model not found.").

(** ** A small installation, for examples *)

Definition demo_project : restobj :=
  <["id" := PStr "p-1"]> (<["name" := PStr "Iris"]> ∅).

Definition demo_repository : restobj := <["name" := PStr "Public"]> ∅.

(** The repository knows the project "Iris", the repository "Public" and the
    models named in [models]; [packages] is the answer of
    [installed_packages()] and [pymas] that of [from_model_info].  Data sets
    are not inspected; a [ModelInfo] is represented by its dictionary. *)
Definition demo_registry (models : list string) (packages : option (list string))
    (pymas : result mas_module) : registry unit (gmap string pyval) :=
  {| mr_get_project p :=
       Ok (if bool_decide (p = "Iris") then Some demo_project else None);
     mr_default_repository := Ok (Some demo_repository);
     mr_get_repository r :=
       Ok (if bool_decide (r = "Public") then Some demo_repository else None);
     mr_create_project name repo variables properties :=
       Ok (<["name" := PStr (str_opt name)]> ∅);
     mr_update_project p := Ok p;
     mr_import_model_from_zip name project zip version :=
       Ok (<["name" := PStr name]> ∅);
     mr_get_model n :=
       Ok (if bool_decide (n ∈ models) then Some (<["name" := PStr n]> ∅)
           else None);
     mr_create_model_version n := Ok (IsRestObj (<["name" := PStr n]> ∅));
     mr_delete_model_contents m := Ok tt;
     mr_create_model d project := Ok (IsRestObj (<["id" := PStr "m-1"]> ∅));
     mr_add_model_content m f := Ok tt;
     create_package table data :=
       {| zip_output_vars := None; zip_input_vars := None;
          zip_model_props := None |};
     pickle_dumps est := "pickle:" +:+ est_repr est;
     installed_packages := packages;
     mi_new est := _sklearn_to_dict "Python 3.8" est;
     mi_set_name mi n := <["name" := PStr n]> mi;
     mi_set_variables mi data := mi;
     mi_to_dict mi := mi;
     statistics func est train test valid := "{}";
     from_model_info mi := pymas;
     data_is_single d := true;
     data_pair_none d := tt |}.

Definition demo_estimator : estimator :=
  {| est_type_name := "LogisticRegression";
     est_final_estimator := None;
     est_estimator_type := "classifier";
     est_repr := "LogisticRegression(C=1.0)";
     est_params := [("C", "1.0"); ("penalty", "l2")] |}.

Definition demo_args (model : model_arg) (project : string) (version : pyversion)
    (force : bool) (train : option unit) : register_args unit :=
  {| a_model := model; a_name := "my_model"; a_project := Some project;
     a_repository := None; a_input := None; a_version := version;
     a_files := []; a_force := force; a_data := None; a_train := train;
     a_test := None; a_valid := None; a_record_packages := true |}.

(** an environment with two released packages and one installed from a
    source tree *)
Definition demo_packages : list string :=
  [ "scikit-learn==1.0.2";
    "-e git+https://example.org/pkg.git#egg=pkg";
    "numpy==1.21.0" ].

(** what the estimator branch hands over for [demo_estimator] on this
    installation, when no data is given and no score code can be made *)
Definition demo_prepared : prepared :=
  let base :=
    <["scoreCodeType" := PStr "ds2MultiType"]>
      (<["name" := PStr "my_model"]> (_sklearn_to_dict "Python 3.8" demo_estimator)) in
  {| p_name := "my_model";
     p_model :=
       <["properties" := PProps (props_of base ++ env_properties demo_packages)]> base;
     p_files :=
       [ {| f_name := "model.pkl"; f_file := "pickle:LogisticRegression(C=1.0)";
            f_role := Some "Python Pickle" |};
         requirements_txt demo_packages ] |}.

(** a metadata dictionary for a logistic regression *)
Definition demo_dict : gmap string pyval :=
  <["function" := PStr "classification"]>
    (<["algorithm" := PStr "Logistic regression"]>
       (<["name" := PStr "my_model"]> ∅)).

(** a publishing service whose first two requests end in the jobs [j1] and
    [j2] *)
Definition demo_publisher (j1 j2 : job) : publisher :=
  {| mp_get_destination d := Ok (Some "microAnalyticService");
     mm_publish_model model destination force reload := Ok ∅;
     mp_publish_model model destination code := Ok ∅;
     mr_monitor_job attempt req max_retries :=
       Ok (match attempt with O => j1 | _ => j2 end);
     mas_delete_module name := Ok tt;
     job_self j := Ok ∅;
     job_publishing_log j := Ok ("log of " +:+ job_publish_name j +:+ ": " +:+ job_state j);
     _parse_module_url msg := Ok None;
     core_get url := Ok (∅, "");
     mas_define_steps m := Ok m |}.

Definition demo_job (state : string) : job :=
  {| job_state := state; job_destination_type := "microAnalyticService";
     job_publish_name := "my_model" |}.

(** A monitored installation: the model "my_model" of a classification
    project with one performance definition; the CAS library holds the
    tables [tables]; the session verifies certificates or not; the upload
    answers [upload]. *)
Definition demo_monitoring (verify : bool) (tables : option (list string))
    (upload : result (option string)) : monitoring :=
  {| swat_available := true;
     pm_get_model m :=
       Ok (if bool_decide (m = "my_model")
           then Some (<["id" := PStr "model1"]> (<["projectId" := PStr "p-1"]> ∅))
           else None);
     pm_get_project p :=
       Ok (Some (<["id" := PStr "p-1"]>
                   (<["function" := PStr "Classification"]>
                      (<["targetLevel" := PStr "Binary"]>
                         (<["eventProbabilityVariable" := PStr "P_1"]> ∅)))));
     mm_list_performance_definitions :=
       Ok [ {| pd_project_id := "p-1"; pd_cas_server_id := "cas-shared-default";
               pd_data_library := "Public"; pd_data_prefix := "PREFIX";
               pd_input_variables := ["x1"; "x2"];
               pd_output_variables := ["P_1"];
               pd_score_execution_required := false;
               pd_obj := ∅ |} ];
     current_session :=
       {| sess_protocol := "https"; sess_hostname := "viya.example.org";
          sess_username := "user"; sess_password := "secret";
          sess_verify := verify |};
     cas_connect url := Ok tt;
     cas_setsessopt := Ok tt;
     cas_tableinfo caslib := Ok tables;
     cas_upload table_name caslib := upload;
     mm_execute_performance_definition d := Ok tt |}.

Definition demo_columns : list string := ["x1"; "x2"; "P_1"; "y"].


(** ** Further vocabulary *)

(** the submission of a descriptor, [mr.create_model] *)
Definition is_create_model (e : event) : bool :=
  match e with
  | ECreateModel _ _ => true
  | _ => false
  end.

(** the answer of the repository service to the lookup of lines 389-392 *)
Definition repository_answer {Data MI} (R : registry Data MI)
    (repository : option string) : result (option restobj) :=
  match repository with
  | None => mr_default_repository R
  | Some r => mr_get_repository R r
  end.

(** the call of lines 389-392 *)
Definition repository_lookup (repository : option string) : event :=
  match repository with
  | None => EDefaultRepository
  | Some r => EGetRepository r
  end.

(** the exception of lines 395-401 *)
Definition repository_forbidden : exn :=
  AuthorizationError
    "Unable to register model.  User account does not have read permissions for the /modelRepository/repositories/ URL. Please contact your SAS Viya administrator.".

(** the exceptions of lines 406 and 409 *)
Definition repository_not_found (repository : option string) : exn :=
  match repository with
  | None => ValueError "Unable to find a default repository"
  | Some r => ValueError ("Unable to find repository '" +:+ r +:+ "'")
  end.

(** the exception of lines 569-571 *)
Definition unsupported_model (repr : string) : exn :=
  TypeError ("Expected an instance of '{}' but received '" +:+ repr +:+ "'.").

(** the exception of lines 592-595 *)
Definition not_a_restobj (repr : string) : exn :=
  TypeError
    ("Model should be an instance of RestObj but received '" +:+ repr
     +:+ "' instead.").

(** the uploads of [files] to [model], in their order (lines 598-602) *)
Definition uploads (model : restobj) (files : list file_entry) : list event :=
  map (EAddModelContent model) files.

(** the loop of lines 598-602 *)
Definition upload_all {Data MI} (R : registry Data MI) (m : restobj)
    (files : list file_entry) : M unit :=
  for_each files
    (fun file => call (EAddModelContent m file) (mr_add_model_content R m file)).

(** the three files of lines 528-547, for the codes that the PyMAS module
    returns *)
Definition score_code_files (code code_cas code_python : string)
  : list file_entry :=
  [ {| f_name := "dmcas_packagescorecode.sas"; f_file := code;
       f_role := Some "Score Code" |};
    {| f_name := "dmcas_epscorecode.sas"; f_file := code_cas;
       f_role := Some "score" |};
    {| f_name := "python_wrapper.py"; f_file := code_python; f_role := None |} ].

(** the pickle of line 460 *)
Definition pickle_file {Data MI} (R : registry Data MI) (est : estimator)
  : file_entry :=
  {| f_name := "model.pkl"; f_file := pickle_dumps R est;
     f_role := Some "Python Pickle" |}.

(** the names of the files that lines 482-517 make unless the caller gave
    a file of that name *)
Definition optional_files : list string :=
  [ "dmcas_lift.json"; "dmcas_fitstat.json"; "dmcas_roc.json"; "requirements.txt" ].

(** the estimator branch of [register_model] on the arguments [a] *)
Definition prepare_estimator_of {Data MI} (R : registry Data MI)
    (a : register_args Data) (est : estimator) : M prepared :=
  prepare_estimator R est (a_name a) (a_files a) (data_argument R a)
    (a_train a) (a_test a) (a_valid a) (a_record_packages a).

(** the files of [files] that bear the name [name] *)
Definition named (name : string) (files : list file_entry) : list file_entry :=
  filter (fun f => f_name f = name) files.

(** the answer of the repository service to the lookup of line 379; no
    lookup is made for the project [None] *)
Definition project_answer {Data MI} (R : registry Data MI)
    (project : option string) : result (option restobj) :=
  match project with
  | Some pn => mr_get_project R pn
  | None => Ok None
  end.

(** the exception of line 385 *)
Definition project_not_found (project : option string) : exn :=
  ValueError ("Project '" +:+ str_opt project +:+ "' not found").

(** a call that neither uploads a file nor submits a descriptor *)
Definition sends_no_model (e : event) : Prop :=
  is_upload e = false /\ is_create_model e = false.

(** two calls of [register_model] agree on the arguments that the branch of
    a CAS table reads *)
Definition same_table_arguments {Data} (a a' : register_args Data) : Prop :=
  a_model a' = a_model a /\ a_name a' = a_name a
  /\ a_project a' = a_project a /\ a_repository a' = a_repository a
  /\ a_input a' = a_input a /\ a_version a' = a_version a
  /\ a_force a' = a_force a /\ a_data a' = a_data a.

(** a character of a decimal numeral: a digit or the sign *)
Definition is_numeral_char (c : ascii) : bool :=
  Regex.is_digit c || bool_decide (c = "-"%char).

(** ** The steps of [_create_project], one by one *)

(** [d.get(k, '').lower()] when it does not raise: the empty string for a
    missing key, the text in lower case for a string *)
Definition text_lower (d : gmap string pyval) (k : string) : option string :=
  match d !! k with
  | None => Some ""
  | Some (PStr s) => Some (PyStr.lower s)
  | Some _ => None
  end.

(** [d.get(k, [])] when it is a list: the empty list for a missing key *)
Definition listed (d : gmap string pyval) (k : string) : option (list variable) :=
  match d !! k with
  | None => Some []
  | Some (PVars l) => Some l
  | Some _ => None
  end.

(** lines 135-138: [given or model.get(key, [])] *)
Definition cp_variables (given : list variable) (model : gmap string pyval)
    (key : string) : list variable :=
  match given with
  | [] => vars_of (pyget model key)
  | _ => given
  end.

(** lines 128 and 141-154: the keyword arguments of [mr.create_project] *)
Definition cp_properties (model : gmap string pyval) (function algorithm : string)
    (output_vars : list variable) : gmap string pyval :=
  let properties : gmap string pyval :=
    filter (fun kv => kv.1 = "function" \/ kv.1 = "targetLevel") model in
  let properties :=
    match output_vars with
    | [] => properties
    | v :: _ =>
        if bool_decide (function = "prediction")
        then <["predictionVariable" := PStr (var_name v)]> properties
        else <["eventProbabilityVariable" := PStr (var_name v)]> properties
    end in
  if bool_decide (pyget properties "targetLevel" = PNone)
  then <["targetLevel" := cp_target_level function algorithm]> properties
  else properties.

(** lines 163-167: the project with the two variables as they were asked
    for, and whether anything had to be changed *)
Definition cp_reconcile (project properties : restobj) : restobj * bool :=
  fold_left
    (fun (acc : restobj * bool) (p : string) =>
       if bool_decide (pyget acc.1 p <> pyget properties p)
       then (<[p := pyget properties p]> acc.1, true)
       else acc)
    ["predictionVariable"; "eventProbabilityVariable"]
    (project, false).

(** the two variables of a project read as they were asked for *)
Definition variables_agree (project properties : restobj) : Prop :=
  pyget project "predictionVariable" = pyget properties "predictionVariable"
  /\ pyget project "eventProbabilityVariable"
     = pyget properties "eventProbabilityVariable".

(** the keys that [_create_project] may pass to [mr.create_project] *)
Definition project_keys : list string :=
  [ "function"; "targetLevel"; "predictionVariable"; "eventProbabilityVariable" ].

(** ** Vocabulary of [publish_model] *)

(** the exception of lines 701-704 *)
Definition unknown_state (j : job) : exn :=
  RuntimeError
    ("Model publishing job in an unknown state: '" +:+ PyStr.lower (job_state j)
     +:+ "'").

(** the exception of line 714 *)
Definition no_module_url : exn :=
  Exception_ "Unable to retrieve module URL from publish log.".

(** the characters that line 707 strips from the head of the log *)
Definition success_chars : string := "SUCCESS===".

(** ** The steps of [update_model_performance] *)

(** the lookups of lines 770-813 *)
Definition is_lookup (e : event) : Prop :=
  match e with
  | EGetModel _ | EGetProject _ | EListPerformanceDefinitions => True
  | _ => False
  end.

(** The checks of lines 760-821 pass: [swat] is there, the model [model] is
    found, it is [model_obj], its project is found, it is [project], the
    function and the target level of the project are supported, the
    variable that goes with the function is there, and [pd] is the first
    performance definition whose project id holds the id of the project. *)
Definition definition_found (W : monitoring) (model : string)
    (model_obj project : restobj) (pd : perf_def) : Prop :=
  swat_available W = true
  /\ pm_get_model W model = Ok (Some model_obj)
  /\ (exists pid,
        model_obj !! "projectId" = Some (PStr pid)
        /\ pm_get_project W pid = Ok (Some project))
  /\ (exists f tl,
        text_lower project "function" = Some f
        /\ In f ["prediction"; "classification"]
        /\ text_lower project "targetLevel" = Some tl
        /\ In tl ["interval"; "binary"]
        /\ (f = "prediction" ->
            default (PStr "") (project !! "predictionVariable") <> PStr "")
        /\ (f = "classification" ->
            default (PStr "") (project !! "eventProbabilityVariable") <> PStr ""))
  /\ (exists defs id,
        mm_list_performance_definitions W = Ok defs
        /\ project !! "id" = Some (PStr id)
        /\ find (fun p => PyStr.contains id (pd_project_id p)) defs = Some pd).

(** line 849 *)
Definition cas_url (W : monitoring) (pd : perf_def) : string :=
  sess_protocol (current_session W) +:+ "://" +:+ sess_hostname (current_session W)
  +:+ "/" +:+ pd_cas_server_id pd +:+ "-http/".

(** lines 853-906: the upload under the certificate setting, and the
    execution of the definition *)
Definition monitor_upload (W : monitoring) (pd : perf_def)
    (model_id label : string) (refresh : bool) : M string :=
  do tbl <-
    certificate_override (sess_verify (current_session W))
      (with_session (call (ECASConnect (cas_url W pd)) (cas_connect W (cas_url W pd)))
         (upload_performance_table W (pd_data_library pd) (pd_data_prefix pd)
            model_id label));
  (if refresh
   then call (EExecutePerformanceDefinition (pd_obj pd))
             (mm_execute_performance_definition W (pd_obj pd))
   else ret tt) ;;
  ret tbl.

(** lines 829-906: what follows once the definition is found *)
Definition monitor_data (W : monitoring) (columns : list string) (label : string)
    (refresh : bool) (model_obj : restobj) (pd : perf_def) : M string :=
  let missing_cols := missing_columns (pd_input_variables pd) columns in
  if negb (bool_decide (missing_cols = []))
  then raise (columns_error missing_cols)
  else
  let missing_cols :=
    if pd_score_execution_required pd then []
    else missing_columns (pd_output_variables pd) columns in
  if negb (bool_decide (missing_cols = []))
  then raise (columns_error missing_cols)
  else
  do model_id <- attr model_obj "id";
  monitor_upload W pd model_id label refresh.

(** a call that does not reach the data: it raises after lookups, and
    leaves the environment alone *)
Definition stops_at_checks (o : outcome string) (env : environ) : Prop :=
  exists e t, o = Outcome (Raise e) env t /\ Forall is_lookup t.

(** a call made inside the CAS session *)
Definition in_session (e : event) : Prop :=
  match e with
  | ECASSetSessOpt | ECASTableInfo _ | ECASUpload _ _ => True
  | _ => False
  end.

(** the execution of a performance definition *)
Definition is_execution (e : event) : Prop :=
  match e with
  | EExecutePerformanceDefinition _ => True
  | _ => False
  end.

(** every column of [expected] is a column of the data *)
Definition columns_present (expected columns : list string) : Prop :=
  forall c, In c expected -> In c columns.

(** the table [tbl] was uploaded by one of the calls of [t] *)
Definition uploaded (W : monitoring) (tbl : string) (t : list event) : Prop :=
  exists name caslib,
    In (ECASUpload name caslib) t /\ cas_upload W name caslib = Ok (Some tbl).

(** a call to CAS *)
Definition is_cas (e : event) : Prop :=
  match e with
  | ECASConnect _ | ECASSetSessOpt | ECASTableInfo _ | ECASUpload _ _ | ECASClose =>
      True
  | _ => False
  end.

(** ** Further examples *)

(** a call of [register_model] on the small installation, with a choice of
    repository and files *)
Definition demo_request (model : model_arg) (project repository : option string)
    (version : pyversion) (force : bool) (files : list file_entry)
  : register_args unit :=
  {| a_model := model; a_name := "my_model"; a_project := project;
     a_repository := repository; a_input := None; a_version := version;
     a_files := files; a_force := force; a_data := None; a_train := None;
     a_test := None; a_valid := None; a_record_packages := true |}.

Definition demo_readme : file_entry :=
  {| f_name := "README.md"; f_file := "A model of the iris data."; f_role := None |}.

Definition demo_notes : file_entry :=
  {| f_name := "notes.txt"; f_file := "Trained in March."; f_role := None |}.

Definition demo_license : file_entry :=
  {| f_name := "LICENSE"; f_file := "Apache-2.0"; f_role := None |}.

(** the installation [R], but for the uploads, which answer [upload] *)
Definition with_uploads {Data MI} (R : registry Data MI)
    (upload : restobj -> file_entry -> result unit) : registry Data MI :=
  {| mr_get_project := mr_get_project R;
     mr_default_repository := mr_default_repository R;
     mr_get_repository := mr_get_repository R;
     mr_create_project := mr_create_project R;
     mr_update_project := mr_update_project R;
     mr_import_model_from_zip := mr_import_model_from_zip R;
     mr_get_model := mr_get_model R;
     mr_create_model_version := mr_create_model_version R;
     mr_delete_model_contents := mr_delete_model_contents R;
     mr_create_model := mr_create_model R;
     mr_add_model_content := upload;
     create_package := create_package R;
     pickle_dumps := pickle_dumps R;
     installed_packages := installed_packages R;
     mi_new := mi_new R;
     mi_set_name := mi_set_name R;
     mi_set_variables := mi_set_variables R;
     mi_to_dict := mi_to_dict R;
     statistics := statistics R;
     from_model_info := from_model_info R;
     data_is_single := data_is_single R;
     data_pair_none := data_pair_none R |}.

(** a repository that refuses the file [name] *)
Definition refusing (name : string) (m : restobj) (f : file_entry) : result unit :=
  if bool_decide (f_name f = name) then Raise (HTTPError 413) else Ok tt.

(** a PyMAS module with two inputs and one output; [code_cas] is what
    [score_code(dest='CAS')] returns or raises *)
Definition demo_module (code_cas : result string) : mas_module :=
  {| score_code := Ok "package score;";
     score_code_cas := code_cas;
     score_code_python := Ok "def score(x1, x2): pass";
     mas_variables :=
       [ {| mv_metadata := Variable_ "x1" (Some "input"); mv_out := false |};
         {| mv_metadata := Variable_ "P_1" (Some "output"); mv_out := true |};
         {| mv_metadata := Variable_ "x2" (Some "input"); mv_out := false |} ] |}.

(** a statistics file that the caller made *)
Definition demo_roc : file_entry :=
  {| f_name := "dmcas_roc.json"; f_file := "{auc: 0.9}"; f_role := None |}.

(** the output of a classifier *)
Definition demo_output : variable := Variable_ "P_1" (Some "output").

(** ** The descriptor of an estimator, as the specification has it *)

(** Modelled from the spec: the description in the descriptor that
    [ModelInfo(model).to_dict()] returns (line 478); [ModelInfo] is of
    [sasctl.utils.models], which is not under src/.  The specification has
    the descriptor derived from the estimator, and "description strings are
    truncated to at most 1024 characters": the text of the estimator, cut
    at 1024 characters. *)
Definition spec_description (est : estimator) : string :=
  PyStr.take 1024 (est_repr est).

(** Modelled from the spec: the custom properties in the descriptor that
    [ModelInfo(model).to_dict()] returns (line 478), missing for the same
    reason.  The specification derives them from the hyperparameters of the
    estimator, and "every generated custom-property name is truncated to at
    most 60 characters and every value to at most 512 characters": one
    property per hyperparameter, its name and its value cut at these
    lengths. *)
Definition spec_properties (est : estimator) : list property :=
  map (fun kv => {| prop_name := PyStr.take 60 kv.1;
                    prop_value := PyStr.take 512 kv.2 |})
      (est_params est).

(** Modelled from the spec: an installation whose [ModelInfo] is the one of
    the specification, as far as the description and the custom properties
    of the descriptor go.  The [ModelInfo] is the one that lines 464-476
    build: named, and given its variables. *)
Definition model_info_per_spec {Data MI} (R : registry Data MI) : Prop :=
  forall est name data train test valid,
    mi_to_dict R (estimator_info R est name data train test valid) !! "description"
    = Some (PStr (spec_description est))
    /\ mi_to_dict R (estimator_info R est name data train test valid) !! "properties"
       = Some (PProps (spec_properties est)).

(** the description of a descriptor is a string within the limit of the
    platform *)
Definition description_within_limit (d : gmap string pyval) : Prop :=
  exists s, d !! "description" = Some (PStr s) /\ String.length s <= 1024.

(** a descriptor within the limits of the platform: its description and
    each of its custom properties *)
Definition descriptor_within_limits (d : gmap string pyval) : Prop :=
  description_within_limit d /\ Forall within_limits (props_of d).

(** every descriptor sent to [create_model] is [d] *)
Definition creates_only (d : gmap string pyval) (e : event) : Prop :=
  match e with
  | ECreateModel d' _ => d' = d
  | _ => True
  end.

(** the model, the project and the performance definition that the small
    monitoring installation answers with *)
Definition demo_monitored_model : restobj :=
  <["id" := PStr "model1"]> (<["projectId" := PStr "p-1"]> ∅).

Definition demo_monitored_project : restobj :=
  <["id" := PStr "p-1"]>
    (<["function" := PStr "Classification"]>
       (<["targetLevel" := PStr "Binary"]>
          (<["eventProbabilityVariable" := PStr "P_1"]> ∅))).

Definition demo_definition : perf_def :=
  {| pd_project_id := "p-1"; pd_cas_server_id := "cas-shared-default";
     pd_data_library := "Public"; pd_data_prefix := "PREFIX";
     pd_input_variables := ["x1"; "x2"];
     pd_output_variables := ["P_1"];
     pd_score_execution_required := false;
     pd_obj := ∅ |}.

(** * Properties *)

(** ** Strings *)

Lemma take_length n s : String.length (PyStr.take n s) <= n.
Proof.
  revert s. induction n as [|n IH]; intros [|c s]; simpl; try lia.
  specialize (IH s). lia.
Qed.

Lemma append_cons c s1 s2 : String c s1 +:+ s2 = String c (s1 +:+ s2).
Proof. reflexivity. Qed.

Lemma append_nil s : "" +:+ s = s.
Proof. reflexivity. Qed.

Lemma append_nil_r s : s +:+ "" = s.
Proof. induction s as [|c s IH]; [done|]. by rewrite append_cons, IH. Qed.

(** a slice [s[:n]] is a prefix of [s], and [s] itself if [s] is short *)
Lemma take_prefix n s : exists rest, s = PyStr.take n s +:+ rest.
Proof.
  revert s. induction n as [|n IH]; intros [|c s]; simpl;
    try (by eexists; rewrite append_nil).
  destruct (IH s) as [rest Hrest]. exists rest.
  by rewrite append_cons, <- Hrest.
Qed.

Lemma take_short n s : String.length s <= n -> PyStr.take n s = s.
Proof.
  revert s. induction n as [|n IH]; intros [|c s]; simpl; intros H;
    try reflexivity; try lia.
  f_equal. apply IH. lia.
Qed.

Lemma startswith_spec p s :
  PyStr.startswith p s = true <-> exists t, s = p +:+ t.
Proof.
  revert s. induction p as [|a p IH]; intros s; simpl.
  - split; [intros _; exists s; reflexivity | reflexivity].
  - destruct s as [|b s].
    + split; [discriminate | intros [t Ht]; discriminate].
    + destruct (ascii_dec a b) as [->|Hab].
      * rewrite IH. split; intros [t Ht]; exists t.
        -- simpl. by rewrite Ht.
        -- simpl in Ht. by injection Ht.
      * split; [discriminate|]. intros [t Ht]. simpl in Ht.
        injection Ht as Hb _. congruence.
Qed.

Lemma contains_occurs sub s :
  PyStr.contains sub s = true <-> PyStr.occurs sub s.
Proof.
  unfold PyStr.occurs. induction s as [|c s IH].
  - simpl. destruct (PyStr.startswith sub "") eqn:E.
    + apply startswith_spec in E as [t Ht]. split; [|reflexivity].
      intros _. exists "", t. exact Ht.
    + split; [discriminate|]. intros (pre & post & H).
      destruct pre; simpl in H; [|discriminate].
      assert (PyStr.startswith sub "" = true) by (apply startswith_spec; eauto).
      congruence.
  - cbn [PyStr.contains]. destruct (PyStr.startswith sub (String c s)) eqn:E.
    + apply startswith_spec in E as [t Ht]. split; [|reflexivity].
      intros _. exists "", t. exact Ht.
    + rewrite IH. split.
      * intros (pre & post & ->). exists (String c pre), post. reflexivity.
      * intros (pre & post & H). destruct pre as [|d pre]; simpl in H.
        -- assert (PyStr.startswith sub (String c s) = true)
             by (apply startswith_spec; eauto).
           congruence.
        -- injection H as _ ->. eauto.
Qed.

(** ** Target level, [_property] and [_sklearn_to_dict] *)

Lemma sk_target_level_cases f est alg :
  sk_target_level f est alg = PStr "Binary"
  \/ sk_target_level f est alg = PStr "Interval"
  \/ sk_target_level f est alg = PNone.
Proof.
  unfold sk_target_level.
  repeat match goal with |- context [if ?b then _ else _] => destruct b end; auto.
Qed.

(** the shape of the rule table: two exclusive conditions, each with its
    own test *)
Lemma rule_table (c p : Prop) `{!Decision c, !Decision p} (l r : bool) :
  ~ (c /\ p) ->
  let v :=
    if bool_decide c && l then PStr "Binary"
    else if bool_decide p && r then PStr "Interval"
    else PNone in
  (v = PStr "Binary" <-> c /\ l = true)
  /\ (v = PStr "Interval" <-> p /\ r = true)
  /\ (v = PNone <-> ~ (c /\ l = true) /\ ~ (p /\ r = true)).
Proof.
  intros Hcp v. subst v.
  repeat case_bool_decide; destruct l, r; simpl;
    repeat split; try discriminate; try tauto; intuition discriminate.
Qed.

(** reads one key of a dictionary given as a list of items *)
Ltac lookup_item :=
  cbv [list_to_map foldr fst snd uncurry];
  repeat (rewrite lookup_insert_ne by discriminate);
  apply lookup_insert_eq.

Lemma _sklearn_to_dict_target_level tool model :
  _sklearn_to_dict tool model !! "targetLevel"
  = Some (sk_target_level (sk_analytic_function model) (sk_estimator model)
            (sk_algorithm model)).
Proof. unfold _sklearn_to_dict. lookup_item. Qed.

Lemma function_names_differ (f : string) :
  ~ (f = "classification" /\ f = "prediction").
Proof. intros [-> H]. discriminate H. Qed.

(** C5.  The target level is a total function of the function name, the
    estimator name and the algorithm name, and nothing else, with three
    possible values.  In [_sklearn_to_dict] it is ['Binary'] exactly when the
    function is ['classification'] and ['logistic'] occurs in the algorithm
    name, ['Interval'] exactly when the function is ['prediction'] and
    ['regression'] occurs in the algorithm name or ['regressor'] in the
    estimator name, and [None] in every other case; the algorithm and
    estimator names are read in lower case, as the code does.  In
    [_create_project], which has no estimator name and has put the function
    and the algorithm in lower case, the same table holds.  The value stored
    by [_sklearn_to_dict] under ['targetLevel'] is the one of the table. *)
Theorem target_level_inference (f est alg : string) :
  (sk_target_level f est alg = PStr "Binary" <->
     f = "classification" /\ PyStr.occurs "logistic" (PyStr.lower alg))
  /\ (sk_target_level f est alg = PStr "Interval" <->
        f = "prediction"
        /\ (PyStr.occurs "regression" (PyStr.lower alg)
            \/ PyStr.occurs "regressor" (PyStr.lower est)))
  /\ (sk_target_level f est alg = PNone <->
        ~ (f = "classification" /\ PyStr.occurs "logistic" (PyStr.lower alg))
        /\ ~ (f = "prediction"
              /\ (PyStr.occurs "regression" (PyStr.lower alg)
                  \/ PyStr.occurs "regressor" (PyStr.lower est))))
  /\ (sk_target_level f est alg = PStr "Binary"
      \/ sk_target_level f est alg = PStr "Interval"
      \/ sk_target_level f est alg = PNone)
  /\ (cp_target_level f alg = PStr "Binary" <->
        f = "classification" /\ PyStr.occurs "logistic" alg)
  /\ (cp_target_level f alg = PStr "Interval" <->
        f = "prediction" /\ PyStr.occurs "regression" alg)
  /\ (cp_target_level f alg = PNone <->
        ~ (f = "classification" /\ PyStr.occurs "logistic" alg)
        /\ ~ (f = "prediction" /\ PyStr.occurs "regression" alg))
  /\ (forall tool model,
        _sklearn_to_dict tool model !! "targetLevel"
        = Some (sk_target_level (sk_analytic_function model) (sk_estimator model)
                  (sk_algorithm model))).
Proof.
  rewrite <- !contains_occurs.
  destruct (rule_table (f = "classification") (f = "prediction")
              (PyStr.contains "logistic" (PyStr.lower alg))
              (PyStr.contains "regressor" (PyStr.lower est)
               || PyStr.contains "regression" (PyStr.lower alg))
              (function_names_differ f)) as (Hb & Hi & Hn).
  destruct (rule_table (f = "classification") (f = "prediction")
              (PyStr.contains "logistic" alg) (PyStr.contains "regression" alg)
              (function_names_differ f)) as (Hb' & Hi' & Hn').
  rewrite orb_true_iff, (or_comm (_ = true)) in Hi, Hn.
  split; [exact Hb|]. split; [exact Hi|]. split; [exact Hn|].
  split; [apply sk_target_level_cases|].
  split; [exact Hb'|]. split; [exact Hi'|]. split; [exact Hn'|].
  apply _sklearn_to_dict_target_level.
Qed.

Lemma _property_bounded k v :
  String.length (prop_name (_property k v)) <= 60
  /\ String.length (prop_value (_property k v)) <= 512.
Proof. split; apply take_length. Qed.

Lemma _sklearn_to_dict_description tool model :
  _sklearn_to_dict tool model !! "description"
  = Some (PStr (PyStr.take _DESC_MAXLEN (est_repr model))).
Proof. unfold _sklearn_to_dict. lookup_item. Qed.

Lemma _sklearn_to_dict_properties tool model :
  _sklearn_to_dict tool model !! "properties"
  = Some (PProps (map (fun kv => _property kv.1 kv.2) (est_params model))).
Proof. unfold _sklearn_to_dict. lookup_item. Qed.


(** ** The execution monad *)

Lemma bind_run {A B} (m : M A) (f : A -> M B) env a env' t :
  m env = Outcome (Ok a) env' t ->
  bind m f env
  = Outcome (res (f a env')) (env_out (f a env')) (t ++ trace (f a env')).
Proof. intros H. unfold bind. by rewrite H. Qed.

Lemma bind_call_ok {A B} e (r : result A) a (f : A -> M B) env :
  r = Ok a ->
  bind (call e r) f env
  = Outcome (res (f a env)) (env_out (f a env)) (e :: trace (f a env)).
Proof. intros ->. reflexivity. Qed.

Lemma trace_bind {A B} (m : M A) (f : A -> M B) env :
  trace (bind m f env)
  = trace (m env)
    ++ match res (m env) with
       | Ok a => trace (f a (env_out (m env)))
       | Raise _ => []
       end.
Proof.
  unfold bind. destruct (res (m env)); simpl; [reflexivity|].
  by rewrite app_nil_r.
Qed.

Lemma trace_bind_call {A B} e (r : result A) (f : A -> M B) env :
  trace (bind (call e r) f env)
  = e :: match r with
         | Ok a => trace (f a env)
         | Raise _ => []
         end.
Proof. unfold bind, call. simpl. by destruct r. Qed.

Section Confined.

Variable P : event -> Prop.

Lemma confined_ret {A} (a : A) : confined P (ret a).
Proof. intros env. split; [constructor | reflexivity]. Qed.

Lemma confined_raise {A} e : confined P (@raise A e).
Proof. intros env. split; [constructor | reflexivity]. Qed.

Lemma confined_local {A} (r : result A) : confined P (local r).
Proof. intros env. split; [constructor | reflexivity]. Qed.

Lemma confined_call {A} e (r : result A) : P e -> confined P (call e r).
Proof. intros H env. split; [repeat constructor; exact H | reflexivity]. Qed.

Lemma confined_emit e : P e -> confined P (emit e).
Proof. intros H env. split; [repeat constructor; exact H | reflexivity]. Qed.

Lemma confined_bind {A B} (m : M A) (f : A -> M B) :
  confined P m -> (forall a, confined P (f a)) -> confined P (bind m f).
Proof.
  intros Hm Hf env. destruct (Hm env) as [Ht He].
  unfold bind. destruct (res (m env)) as [a|e]; simpl; [|done].
  destruct (Hf a (env_out (m env))) as [Ht' He']. split.
  - apply Forall_app. done.
  - congruence.
Qed.

Lemma confined_try_except {A} (m : M A) h :
  confined P m ->
  (forall e k, h e = Some k -> confined P k) ->
  confined P (try_except m h).
Proof.
  intros Hm Hh env. destruct (Hm env) as [Ht He].
  unfold try_except. destruct (res (m env)) as [a|e]; [done|].
  destruct (h e) as [k|] eqn:E; simpl; [|done].
  destruct (Hh e k E (env_out (m env))) as [Ht' He']. split.
  - apply Forall_app. done.
  - congruence.
Qed.

Lemma confined_for_each {A} (l : list A) body :
  (forall x, confined P (body x)) -> confined P (for_each l body).
Proof.
  intros H. induction l as [|x l IH]; simpl.
  - apply confined_ret.
  - apply confined_bind; auto.
Qed.

Lemma confined_bind_res {A B} (m : M A) (f : A -> M B) :
  confined P m ->
  (forall env a, res (m env) = Ok a -> confined P (f a)) ->
  confined P (bind m f).
Proof.
  intros Hm Hf env. destruct (Hm env) as [Ht He].
  unfold bind. destruct (res (m env)) as [a|e] eqn:E; simpl; [|done].
  destruct (Hf env a E (env_out (m env))) as [Ht' He']. split.
  - apply Forall_app. done.
  - congruence.
Qed.

Lemma confined_nothing {A} (m : M A) env :
  confined (fun _ => False) m -> trace (m env) = [] /\ env_out (m env) = env.
Proof.
  intros H. destruct (H env) as [Ht He]. split; [|done].
  destruct (trace (m env)) as [|e t]; [done|]. by inversion Ht.
Qed.

End Confined.

Lemma confined_weaken {A} (P Q : event -> Prop) (m : M A) :
  (forall e, P e -> Q e) -> confined P m -> confined Q m.
Proof.
  intros H Hm env. destruct (Hm env) as [Ht He]. split; [|done].
  eapply Forall_impl; eauto.
Qed.

Create HintDb effects.
#[export] Hint Resolve confined_ret confined_raise confined_local
  confined_call confined_emit confined_bind confined_for_each : effects.

(** ** [register_model] *)

Section RegisterFacts.

Context {Data MI : Type}.
Variable R : registry Data MI.

(** C8.  With [force=False], and a project that is [None] or that the
    repository does not know, [register_model] raises [ValueError] ("Project
    ... not found"); up to that point it has uploaded no model content, and
    indeed issued no call that changes the server: the trace holds at most
    the deprecation warning and the project lookup. *)
Theorem register_model_missing_project (a : register_args Data) (env : environ) :
  a_force a = false ->
  (a_project a = None
   \/ exists pn, a_project a = Some pn /\ mr_get_project R pn = Ok None) ->
  let o := register_model R a env in
  res o = Raise (ValueError ("Project '" +:+ str_opt (a_project a) +:+ "' not found"))
  /\ no_upload (trace o)
  /\ no_remote_mutation (trace o)
  /\ env_out o = env.
Proof.
  intros Hforce Hproj o. subst o. unfold register_model.
  rewrite Hforce.
  destruct Hproj as [Hp | (pn & Hp & Hget)]; rewrite Hp;
    destruct (a_input a); cbn; rewrite ?Hget; cbn;
    repeat split; repeat constructor.
Qed.

(** *** What the steps before the submission do to the server: nothing *)

Lemma find_repository_confined (P : event -> Prop) repository :
  P EDefaultRepository -> (forall r, P (EGetRepository r)) ->
  confined P (find_repository R repository).
Proof.
  intros Hd Hr. unfold find_repository. apply confined_bind.
  - apply confined_try_except.
    + destruct repository; apply confined_call; auto.
    + intros e k. destruct e; try discriminate. intros [= <-].
      case_bool_decide; apply confined_raise.
  - intros [r|]; [apply confined_ret|].
    destruct repository; apply confined_raise.
Qed.

Lemma find_repository_quiet repository :
  confined quiet (find_repository R repository).
Proof. by apply find_repository_confined. Qed.

Lemma warning_quiet e : warning e -> quiet e.
Proof. by destruct e. Qed.

Lemma append_property_confined P model pr :
  confined P (append_property model pr).
Proof.
  unfold append_property.
  destruct (model !! "properties") as [[]|]; auto with effects.
Qed.

Lemma record_package_confined P model p : confined P (record_package model p).
Proof.
  unfold record_package.
  destruct (PyStr.contains "==" p); [|apply confined_ret].
  destruct (PyStr.split "==" p) as [|n [|v [|]]];
    auto using confined_raise, append_property_confined.
Qed.

Lemma record_packages_confined P packages :
  forall model, confined P (record_packages model packages).
Proof.
  induction packages as [|p rest IH]; intros model; simpl.
  - apply confined_ret.
  - apply confined_bind; [apply record_package_confined | auto].
Qed.

Lemma record_installed_packages_confined P record model files :
  confined P (record_installed_packages R record model files).
Proof.
  unfold record_installed_packages.
  destruct (_ && _); [|apply confined_ret].
  destruct (installed_packages R); [|apply confined_ret].
  apply confined_bind; [apply record_packages_confined|].
  intros; apply confined_ret.
Qed.

Lemma except_ValueError_confined {A} e (state : A) :
  confined warning (except_ValueError e state).
Proof.
  unfold except_ValueError. destruct e; try apply confined_raise.
  apply confined_bind; [by apply confined_emit|]. intros; apply confined_ret.
Qed.

Lemma generate_score_code_confined mi model files :
  confined warning (generate_score_code R mi model files).
Proof.
  unfold generate_score_code.
  destruct (from_model_info R mi) as [mas|];
    [|apply except_ValueError_confined].
  destruct (score_code mas); [|apply except_ValueError_confined].
  destruct (score_code_cas mas); [|apply except_ValueError_confined].
  destruct (score_code_python mas); [|apply except_ValueError_confined].
  apply confined_ret.
Qed.

Lemma before_score_code_confined P est name files data train test valid record :
  confined P (before_score_code R est name files data train test valid record).
Proof.
  unfold before_score_code.
  destruct (statistics_files _ _ _ _ _ _ _) as [name' files'].
  apply confined_bind; [apply record_installed_packages_confined|].
  intros; apply confined_ret.
Qed.

(** the estimator branch calls no service: it records warnings at most *)
Lemma prepare_estimator_confined est name files data train test valid record :
  confined warning
    (prepare_estimator R est name files data train test valid record).
Proof.
  unfold prepare_estimator.
  apply confined_bind; [apply before_score_code_confined|].
  intros pr. apply confined_bind; [apply generate_score_code_confined|].
  intros; apply confined_ret.
Qed.

Lemma no_remote_mutation_existsb t :
  no_remote_mutation t -> existsb is_mutation t = false.
Proof.
  induction 1 as [|e t He _ IH]; simpl; [reflexivity|].
  by rewrite He, IH.
Qed.

(** the outcome of line 581, reached without any change on the server *)
Lemma submit_model_missing pr project repo_obj version env :
  replaces_version version = true ->
  mr_get_model R (p_name pr) = Ok None ->
  submit_model R pr project false repo_obj version env
  = Outcome (Raise (model_not_found version (p_name pr))) env
      [EGetModel (p_name pr)].
Proof.
  intros Hv Hget. unfold submit_model. rewrite Hv. cbn. rewrite Hget. reflexivity.
Qed.

Lemma lookup_project_run project env p :
  res (lookup_project R project env) = Ok p ->
  lookup_project R project env
  = Outcome (Ok p) env
      (match project with Some pn => [EGetProject pn] | None => [] end).
Proof. destruct project; cbn; [by intros -> | by intros [= <-]]. Qed.

(** once the project is settled and the repository found, the call is the
    dispatch of lines 411-604, after the lookups *)
Lemma register_model_resolved (a : register_args Data) env p repo t :
  res (lookup_project R (a_project a) env) = Ok p ->
  (p = None -> a_force a = true) ->
  find_repository R (a_repository a) env = Outcome (Ok repo) env t ->
  let o := register_resolved R a (bool_decide (p = None) && a_force a) repo env in
  register_model R a env
  = Outcome (res o) (env_out o) (preamble_trace a ++ t ++ trace o).
Proof.
  intros Hp Hforce Hfind o. subst o. unfold register_model, preamble_trace.
  assert (Hgate : bool_decide (p = None)
                  && negb (bool_decide (p = None) && a_force a) = false).
  { case_bool_decide; [rewrite Hforce by done|]; reflexivity. }
  apply lookup_project_run in Hp.
  assert (Hw : exists m : M unit,
             m env
             = Outcome (Ok tt) env
                 (match a_input a with
                  | Some _ => [EWarn deprecation_warning]
                  | None => []
                  end)
             /\ match a_input a with
                | Some _ => warn deprecation_warning
                | None => ret tt
                end = m).
  { destruct (a_input a); eexists; (split; [|reflexivity]); reflexivity. }
  destruct Hw as (m & Hm & ->).
  rewrite (bind_run _ _ _ _ _ _ Hm). rewrite (bind_run _ _ _ _ _ _ Hp).
  rewrite Hgate. rewrite (bind_run _ _ _ _ _ _ Hfind). cbn [res env_out trace].
  by rewrite <- !app_assoc.
Qed.

(** a dictionary or a prepared estimator goes on to the submission *)
Lemma register_resolved_prepared (a : register_args Data) create repo env pr :
  prepared_by R a env pr ->
  exists tp,
    Forall warning tp
    /\ let o := submit_model R pr (a_project a) create repo
                 (version_or_new (a_version a)) env in
       register_resolved R a create repo env
       = Outcome (res o) (env_out o) (tp ++ trace o).
Proof.
  unfold prepared_by, register_resolved. destruct (a_model a) as [|est|d|]; try done.
  - intros Hpr.
    destruct (prepare_estimator_confined est (a_name a) (a_files a)
                (data_argument R a) (a_train a) (a_test a) (a_valid a)
                (a_record_packages a) env) as [Ht He].
    destruct (prepare_estimator _ _ _ _ _ _ _ _ _ _) as [r e t] eqn:E.
    simpl in *. subst. exists t. split; [done|].
    by rewrite (bind_run _ _ _ _ _ _ E).
  - intros ->. exists []. split; [constructor|]. simpl.
    by destruct (submit_model _ _ _ _ _ _ _).
Qed.

(** C3, amended.  Let [register_model] be called with a dictionary or an
    estimator (not a CAS table), a project that exists, so that none is
    created, a repository that is found, and a version whose text in lower
    case is not ['new'] ([None], [''] and [0] stand for ['new']).  Let [pr]
    be the state in which the call reaches the submission, and let the
    repository hold no model under the name of [pr] (the [name] argument for
    a dictionary).  Then the call raises the [ValueError] of line 581, after
    the lookup of that name, and no call that it has issued changes the
    server. *)
Theorem register_model_version_of_missing_model
    (a : register_args Data) (env : environ) pn p repo pr :
  a_project a = Some pn ->
  mr_get_project R pn = Ok (Some p) ->
  res (find_repository R (a_repository a) env) = Ok repo ->
  replaces_version (version_or_new (a_version a)) = true ->
  prepared_by R a env pr ->
  mr_get_model R (p_name pr) = Ok None ->
  let o := register_model R a env in
  res o = Raise (model_not_found (version_or_new (a_version a)) (p_name pr))
  /\ no_remote_mutation (trace o)
  /\ In (EGetModel (p_name pr)) (trace o).
Proof.
  intros Hp Hget Hrepo Hv Hpr Hmodel o. subst o.
  destruct (find_repository_quiet (a_repository a) env) as [Hq He].
  destruct (find_repository R (a_repository a) env) as [r e t] eqn:Hfind.
  simpl in Hrepo, Hq, He. subst r e.
  rewrite (register_model_resolved a env (Some p) repo t); try done.
  2:{ rewrite Hp. simpl. exact Hget. }
  destruct (register_resolved_prepared a
              (bool_decide (Some p = None) && a_force a) repo env pr Hpr)
    as (tp & Htp & ->).
  rewrite bool_decide_eq_false_2 by done. cbn [andb].
  rewrite submit_model_missing by done. cbn [res env_out trace].
  split; [reflexivity|]. split.
  - unfold no_remote_mutation. rewrite !Forall_app. repeat split.
    + unfold preamble_trace. rewrite Hp.
      destruct (a_input a); repeat constructor.
    + exact Hq.
    + eapply Forall_impl; [exact Htp | apply warning_quiet].
    + repeat constructor.
  - rewrite !in_app_iff. right; right; right. by left.
Qed.

End RegisterFacts.

(** the theorem on a call that names an unknown project *)
Lemma register_model_missing_project_witness :
  let R := demo_registry [] None (Raise (ValueError "no type information")) in
  let a := demo_args (MDict demo_dict) "Unknown" VNone false None in
  a_force a = false
  /\ (a_project a = None
      \/ exists pn, a_project a = Some pn /\ mr_get_project R pn = Ok None)
  /\ res (register_model R a ∅) = Raise (ValueError "Project 'Unknown' not found")
  /\ no_upload (trace (register_model R a ∅)).
Proof.
  intros R a.
  assert (H1 : a_force a = false) by reflexivity.
  assert (H2 : a_project a = None
               \/ exists pn, a_project a = Some pn /\ mr_get_project R pn = Ok None).
  { right. exists "Unknown". split; reflexivity. }
  split; [exact H1|]. split; [exact H2|].
  destruct (register_model_missing_project R a ∅ H1 H2) as (Hres & Hup & _).
  split; [exact Hres | exact Hup].
Defined.

(** C3, as stated, fails: with [force=True] and a project that does not
    exist, the project is created (line 574) before the model is looked up
    (line 579), so the call that ends in [ValueError] has changed the
    server. *)
Lemma register_model_creates_project_before_failing :
  let R := demo_registry [] None (Raise (ValueError "no type information")) in
  let a := demo_args (MDict demo_dict) "Unknown" (VStr "latest") true None in
  let o := register_model R a ∅ in
  a_version a = VStr "latest"
  /\ mr_get_model R (a_name a) = Ok None
  /\ raises_ValueError o
  /\ ~ no_remote_mutation (trace o).
Proof.
  intros R a o. split; [reflexivity|]. split; [reflexivity|]. split.
  - eexists. vm_compute. reflexivity.
  - intros H. apply no_remote_mutation_existsb in H.
    vm_compute in H. discriminate.
Qed.

(** the theorem on a call for the version [latest] of a model that the
    repository does not hold, in the project "Iris" *)
Lemma register_model_version_of_missing_model_witness :
  let R := demo_registry [] None (Raise (ValueError "no type information")) in
  let a := demo_args (MDict demo_dict) "Iris" (VStr "latest") true None in
  let pr := Prepared "my_model" demo_dict [] in
  let o := register_model R a ∅ in
  a_project a = Some "Iris"
  /\ mr_get_project R "Iris" = Ok (Some demo_project)
  /\ res (find_repository R (a_repository a) ∅) = Ok demo_repository
  /\ replaces_version (version_or_new (a_version a)) = true
  /\ prepared_by R a ∅ pr
  /\ mr_get_model R (p_name pr) = Ok None
  /\ res o = Raise (model_not_found (VStr "latest") "my_model")
  /\ no_remote_mutation (trace o).
Proof.
  intros R a pr o.
  assert (H1 : a_project a = Some "Iris") by reflexivity.
  assert (H2 : mr_get_project R "Iris" = Ok (Some demo_project)) by reflexivity.
  assert (H3 : res (find_repository R (a_repository a) ∅) = Ok demo_repository)
    by reflexivity.
  assert (H4 : replaces_version (version_or_new (a_version a)) = true)
    by (vm_compute; reflexivity).
  assert (H5 : prepared_by R a ∅ pr) by reflexivity.
  assert (H6 : mr_get_model R (p_name pr) = Ok None) by reflexivity.
  repeat (split; [assumption|]).
  destruct (register_model_version_of_missing_model R a ∅ "Iris" demo_project
              demo_repository pr H1 H2 H3 H4 H5 H6) as (Hres & Hmut & _).
  split; [exact Hres | exact Hmut].
Defined.


(** ** The estimator branch of [register_model] *)

Lemma bind_ok_inv {A B} (m : M A) (f : A -> M B) env b :
  res (bind m f env) = Ok b ->
  exists a, res (m env) = Ok a /\ res (f a (env_out (m env))) = Ok b.
Proof.
  unfold bind. destruct (res (m env)) as [a|e]; simpl; [eauto | discriminate].
Qed.

Lemma props_of_insert_ne k v model :
  k <> "properties" -> props_of (<[k := v]> model) = props_of model.
Proof. intros H. unfold props_of. by rewrite lookup_insert_ne. Qed.

Lemma props_of_insert l model :
  props_of (<["properties" := PProps l]> model) = l.
Proof. unfold props_of. by rewrite lookup_insert_eq. Qed.

Lemma has_file_app name l1 l2 :
  has_file name (l1 ++ l2) = has_file name l1 || has_file name l2.
Proof. unfold has_file. apply existsb_app. Qed.

Lemma record_package_ok model p env model' :
  res (record_package model p env) = Ok model' ->
  props_of model' = props_of model ++ env_property p /\ well_formed_package p.
Proof.
  unfold record_package, env_property, well_formed_package.
  destruct (PyStr.contains "==" p).
  - destruct (PyStr.split "==" p) as [|n [|v [|]]]; try discriminate.
    unfold append_property, props_of.
    destruct (model !! "properties") as [[]|]; try discriminate.
    intros [= <-]. rewrite lookup_insert_eq. eauto.
  - intros [= <-]. rewrite app_nil_r. auto.
Qed.

Lemma record_packages_ok packages :
  forall model env model',
    res (record_packages model packages env) = Ok model' ->
    props_of model' = props_of model ++ env_properties packages
    /\ Forall well_formed_package packages.
Proof.
  induction packages as [|p rest IH]; intros model env model'; simpl.
  - intros [= <-]. rewrite app_nil_r. auto.
  - intros H. apply bind_ok_inv in H as (m1 & H1 & H2).
    apply record_package_ok in H1 as [Hp Hw].
    apply IH in H2 as [Hr Hf]. split; [|by constructor].
    unfold env_properties in *. simpl. rewrite Hr, Hp. by rewrite app_assoc.
Qed.

Section EstimatorBranch.

Context {Data MI : Type}.
Variable R : registry Data MI.

Lemma record_installed_packages_ok record model files env model' files' :
  res (record_installed_packages R record model files env) = Ok (model', files') ->
  props_of model' = props_of model ++ env_properties (recorded_packages R record files)
  /\ Forall well_formed_package (recorded_packages R record files)
  /\ (forall packages,
        record = true -> has_file "requirements.txt" files = false ->
        installed_packages R = Some packages ->
        files' = files ++ [requirements_txt packages])
  /\ (forall f, In f files -> In f files').
Proof.
  unfold record_installed_packages, recorded_packages.
  destruct (record && negb (has_file "requirements.txt" files)) eqn:Hrec.
  - destruct (installed_packages R) as [packages|] eqn:Hpk; simpl.
    + intros H. apply bind_ok_inv in H as (m1 & H1 & H2).
      injection H2 as <- <-.
      apply record_packages_ok in H1 as [Hp Hw]. split; [|split; [done|split]].
      * rewrite Hp. f_equal.
        destruct (model !! "properties") eqn:E; [done|].
        rewrite props_of_insert. unfold props_of. by rewrite E.
      * intros ? _ _ [= <-]. reflexivity.
      * intros f Hf. apply in_or_app. by left.
    + intros [= <- <-]. rewrite app_nil_r. repeat split; try done.
  - intros [= <- <-]. rewrite app_nil_r. repeat split; try done.
    intros packages -> Hf. rewrite Hf in Hrec. discriminate.
Qed.

Lemma statistics_files_requirements est train test valid name files :
  has_file "requirements.txt" (statistics_files R est train test valid name files).2
  = has_file "requirements.txt" files.
Proof.
  unfold statistics_files. destruct (any_split train test valid); [|done].
  cbn [fold_left fst snd].
  repeat match goal with
         | |- context [if ?b then _ else _] => destruct b; cbn [fst snd]
         end;
    rewrite ?has_file_app; cbn [has_file existsb f_name];
    rewrite ?orb_false_r; reflexivity.
Qed.

Lemma statistics_files_made est train test valid name files f :
  In f (statistics_files R est train test valid name files).2 ->
  In f files \/ In (f_name f) generated_before_score_code.
Proof.
  unfold statistics_files. destruct (any_split train test valid); [|by left].
  cbn [fold_left fst snd].
  repeat match goal with
         | |- context [if ?b then _ else _] => destruct b; cbn [fst snd]
         end;
    rewrite ?in_app_iff; cbn [In];
    intros H; decompose [or] H; subst; cbn [f_name]; auto;
    right; unfold generated_before_score_code; cbn [In]; tauto.
Qed.

Lemma record_installed_packages_made record model files env model' files' f :
  res (record_installed_packages R record model files env) = Ok (model', files') ->
  In f files' -> In f files \/ f_name f = "requirements.txt".
Proof.
  unfold record_installed_packages.
  destruct (record && negb (has_file "requirements.txt" files)).
  - destruct (installed_packages R) as [packages|]; simpl.
    + intros H. apply bind_ok_inv in H as (m1 & _ & H2). injection H2 as _ <-.
      rewrite in_app_iff. cbn [In]. intros [H | [<- | []]]; auto.
    + intros [= _ <-]. auto.
  - intros [= _ <-]. auto.
Qed.

(** when [train], [test] or [valid] is given, the loop of lines 483-498
    leaves ['dmcas_roc.json'] in [name] *)
Lemma statistics_files_name est train test valid name files :
  (statistics_files R est train test valid name files).1
  = if any_split train test valid then "dmcas_roc.json" else name.
Proof.
  unfold statistics_files. destruct (any_split train test valid); [|done].
  cbn [fold_left fst snd].
  repeat match goal with
         | |- context [if ?b then _ else _] => destruct b; cbn [fst snd]
         end; reflexivity.
Qed.

End EstimatorBranch.

Section EstimatorResults.

Context {Data MI : Type}.
Variable R : registry Data MI.

Lemma except_ValueError_ok {A} e (state state' : A) env :
  res (except_ValueError e state env) = Ok state' -> state' = state.
Proof.
  unfold except_ValueError. destruct e; try discriminate. by intros [= <-].
Qed.

Lemma generate_score_code_ok mi model files env model' files' :
  res (generate_score_code R mi model files env) = Ok (model', files') ->
  props_of model' = props_of model /\ (forall f, In f files -> In f files').
Proof.
  unfold generate_score_code.
  repeat match goal with
         | |- context [match ?r with Ok _ => _ | Raise _ => _ end] =>
             destruct r
         end;
    try (intros H; apply except_ValueError_ok in H; injection H as -> ->;
         split; [done|]; intros f Hf; rewrite ?in_app_iff; tauto).
  intros [= <- <-]. split.
  - by rewrite !props_of_insert_ne.
  - intros f Hf. rewrite !in_app_iff. tauto.
Qed.

(** the score-code block, when [from_model_info] raises [ValueError] *)
Lemma generate_score_code_swallowed mi model files env msg :
  from_model_info R mi = Raise (ValueError msg) ->
  generate_score_code R mi model files env
  = Outcome (Ok (model, files)) env [EWarn score_code_warning].
Proof. intros H. unfold generate_score_code. rewrite H. reflexivity. Qed.

(** a [ValueError] raised later in the block, by one of the calls to
    [score_code], is swallowed as well, but the entries appended before it
    stay in the list of files *)
Lemma generate_score_code_interrupted mi model files env mas code msg :
  from_model_info R mi = Ok mas ->
  score_code mas = Ok code ->
  score_code_cas mas = Raise (ValueError msg) ->
  generate_score_code R mi model files env
  = Outcome
      (Ok (model,
           files ++ [ {| f_name := "dmcas_packagescorecode.sas"; f_file := code;
                         f_role := Some "Score Code" |} ]))
      env [EWarn score_code_warning].
Proof.
  intros H1 H2 H3. unfold generate_score_code. rewrite H1, H2, H3. reflexivity.
Qed.

Lemma before_score_code_ok est name files data train test valid record env pr :
  res (before_score_code R est name files data train test valid record env) = Ok pr ->
  props_of (p_model pr)
  = props_of (mi_to_dict R (estimator_info R est name data train test valid))
    ++ env_properties (recorded_packages R record files)
  /\ Forall well_formed_package (recorded_packages R record files)
  /\ (forall packages,
        record = true -> has_file "requirements.txt" files = false ->
        installed_packages R = Some packages ->
        In (requirements_txt packages) (p_files pr))
  /\ p_name pr = (if any_split train test valid then "dmcas_roc.json" else name).
Proof.
  unfold before_score_code.
  pose proof (statistics_files_requirements R est train test valid name
                (files ++ [ {| f_name := "model.pkl"; f_file := pickle_dumps R est;
                               f_role := Some "Python Pickle" |} ])) as Hreq.
  pose proof (statistics_files_name R est train test valid name
                (files ++ [ {| f_name := "model.pkl"; f_file := pickle_dumps R est;
                               f_role := Some "Python Pickle" |} ])) as Hname.
  destruct (statistics_files _ _ _ _ _ _ _) as [name' files1].
  cbn [fst snd] in Hreq, Hname.
  rewrite has_file_app in Hreq. cbn [has_file existsb f_name] in Hreq.
  replace (bool_decide ("model.pkl" = "requirements.txt")) with false in Hreq
    by reflexivity.
  rewrite !orb_false_r in Hreq.
  intros H. apply bind_ok_inv in H as ([m1 f1] & H1 & H2).
  injection H2 as <-. cbn [p_model p_files p_name fst snd].
  apply record_installed_packages_ok in H1 as (Hp & Hw & Hf & _).
  assert (Hrec : recorded_packages R record files1 = recorded_packages R record files).
  { unfold recorded_packages. by rewrite Hreq. }
  rewrite Hrec in *. rewrite props_of_insert_ne in Hp by done.
  repeat split; try done.
  intros packages Hr Hfiles Hpk. rewrite (Hf packages); rewrite ?Hreq; try done.
  apply in_or_app. right. by left.
Qed.

(** the files with which the estimator branch reaches the score-code block
    are the caller's and those of lines 460, 498 and 517 *)
Lemma before_score_code_files est name files data train test valid record env pr f :
  res (before_score_code R est name files data train test valid record env) = Ok pr ->
  In f (p_files pr) ->
  In f files \/ In (f_name f) generated_before_score_code.
Proof.
  unfold before_score_code.
  pose proof (statistics_files_made R est train test valid name
                (files ++ [ {| f_name := "model.pkl"; f_file := pickle_dumps R est;
                               f_role := Some "Python Pickle" |} ]) f) as Hstat.
  destruct (statistics_files _ _ _ _ _ _ _) as [name' files1].
  cbn [fst snd] in Hstat.
  intros H. apply bind_ok_inv in H as ([m1 f1] & H1 & H2).
  injection H2 as <-. cbn [p_files fst snd]. intros Hf.
  eapply record_installed_packages_made in Hf as [Hin | Hreq]; [| |exact H1].
  - destruct (Hstat Hin) as [Hin' | Hgen]; [|by right].
    apply in_app_iff in Hin' as [Hin' | [<- | []]]; [by left|].
    right. by left.
  - right. rewrite Hreq. unfold generated_before_score_code. cbn [In]. tauto.
Qed.

(** What the estimator branch hands over to the submission: the custom
    properties are those of the [ModelInfo] followed by one per recorded
    package of the form ['name==version']; the generated [requirements.txt]
    is among the files; the name is the one left by the statistics loop. *)
Lemma prepare_estimator_ok est name files data train test valid record env pr :
  res (prepare_estimator R est name files data train test valid record env) = Ok pr ->
  props_of (p_model pr)
  = props_of (mi_to_dict R (estimator_info R est name data train test valid))
    ++ env_properties (recorded_packages R record files)
  /\ Forall well_formed_package (recorded_packages R record files)
  /\ (forall packages,
        record = true -> has_file "requirements.txt" files = false ->
        installed_packages R = Some packages ->
        In (requirements_txt packages) (p_files pr))
  /\ p_name pr = (if any_split train test valid then "dmcas_roc.json" else name).
Proof.
  unfold prepare_estimator. intros H.
  apply bind_ok_inv in H as (pr0 & H0 & H).
  apply bind_ok_inv in H as ([m1 f1] & H1 & H2).
  injection H2 as <-. cbn [p_model p_files p_name fst snd].
  apply before_score_code_ok in H0 as (Hp & Hw & Hf & Hn).
  apply generate_score_code_ok in H1 as [Hp1 Hf1].
  rewrite Hp1. repeat split; try done.
  intros packages Hr Hfiles Hpk. apply Hf1. by apply Hf.
Qed.

End EstimatorResults.


(** ** Package inventory *)

Lemma split_go_no_separator sep s :
  forall cur,
    PyStr.contains sep s = false ->
    PyStr.split_go sep 0 cur s = [String.rev_app cur s].
Proof.
  induction s as [|c s IH]; intros cur; cbn [PyStr.contains PyStr.split_go].
  - intros _. reflexivity.
  - destruct (PyStr.startswith sep (String c s)); [discriminate|].
    intros H. rewrite IH by exact H. reflexivity.
Qed.

(** a string without the separator is a single piece *)
Lemma split_no_separator sep s :
  PyStr.contains sep s = false -> PyStr.split sep s = [s].
Proof. intros H. unfold PyStr.split. by rewrite split_go_no_separator. Qed.

Lemma rev_app_rev_app a :
  forall b c, String.rev_app (String.rev_app a b) c = String.rev_app b (a +:+ c).
Proof.
  induction a as [|x a IH]; intros b c; [reflexivity|].
  cbn [String.rev_app]. rewrite IH. reflexivity.
Qed.

Lemma rev_rev s : String.rev (String.rev s) = s.
Proof.
  unfold String.rev. rewrite rev_app_rev_app. cbn [String.rev_app].
  apply append_nil_r.
Qed.

Lemma split_go_name sep0 sep v n :
  forall cur,
    no_equals_sign n = true ->
    PyStr.split_go (String "=" sep0) 0 cur (n +:+ String "=" sep +:+ v)
    = PyStr.split_go (String "=" sep0) 0 (String.rev_app n cur)
        (String "=" sep +:+ v).
Proof.
  induction n as [|c n IH]; intros cur Hn; [reflexivity|].
  unfold no_equals_sign in Hn. cbn [all_chars] in Hn.
  apply andb_true_iff in Hn as [Hc Hn].
  apply negb_true_iff, bool_decide_eq_false in Hc.
  change (String c n +:+ String "=" sep +:+ v)
    with (String c (n +:+ String "=" sep +:+ v)).
  cbn [PyStr.split_go PyStr.startswith].
  destruct (ascii_dec "=" c) as [<-|_]; [done|].
  rewrite IH by exact Hn. reflexivity.
Qed.

(** a name without ['='], then ['=='], then a version without ['==']:
    the pieces are the name and the version *)
Lemma split_name_version n v :
  no_equals_sign n = true ->
  PyStr.contains "==" v = false ->
  PyStr.split "==" (n +:+ "==" +:+ v) = [n; v].
Proof.
  intros Hn Hv. unfold PyStr.split. rewrite split_go_name by exact Hn.
  change ("==" +:+ v) with (String "=" (String "=" v)).
  cbn [PyStr.split_go PyStr.startswith String.length Nat.sub].
  destruct (ascii_dec "=" "=") as [_|H]; [|done].
  rewrite split_go_no_separator by exact Hv.
  change (String.rev_app n "") with (String.rev n). by rewrite rev_rev.
Qed.

Lemma env_property_within_limits p : Forall within_limits (env_property p).
Proof.
  unfold env_property. destruct (PyStr.contains "==" p); [|constructor].
  destruct (PyStr.split "==" p) as [|n [|v [|]]]; try (by constructor).
  constructor; [apply _property_bounded | constructor].
Qed.

Lemma env_properties_within_limits packages :
  Forall within_limits (env_properties packages).
Proof.
  unfold env_properties. induction packages as [|p rest IH]; simpl.
  - constructor.
  - apply Forall_app. split; [apply env_property_within_limits | exact IH].
Qed.

Lemma env_properties_In p packages pr :
  In p packages -> In pr (env_property p) -> In pr (env_properties packages).
Proof.
  intros Hp Hpr. unfold env_properties. apply in_flat_map. eauto.
Qed.

Section Inventory.

Context {Data MI : Type}.
Variable R : registry Data MI.

(** C2, amended.  In a call to [register_model] with an estimator,
    [record_packages=True] and no caller-supplied [requirements.txt], let
    the estimator branch end normally.  Then the custom properties of the
    descriptor are those of the [ModelInfo] followed by the properties of
    the installed packages, in order: a package string without ['=='] gives
    no property, a string ['name==version'] (no ['='] in the name, no
    ['=='] in the version) gives the property [env_name] with value
    [version], both cut to the limits of [_property].  The generated
    [requirements.txt] is
    among the files and its text is all the installed-package strings joined
    by newlines, whether or not they contain ['==']. *)
Theorem package_inventory est name files data train test valid env packages pr :
  has_file "requirements.txt" files = false ->
  installed_packages R = Some packages ->
  res (prepare_estimator R est name files data train test valid true env) = Ok pr ->
  props_of (p_model pr)
  = props_of (mi_to_dict R (estimator_info R est name data train test valid))
    ++ env_properties packages
  /\ (forall p, In p packages -> PyStr.contains "==" p = false ->
        env_property p = [])
  /\ (forall p n v, In p packages -> PyStr.split "==" p = [n; v] ->
        In (_property ("env_" +:+ n) v) (props_of (p_model pr)))
  /\ (forall n v,
        no_equals_sign n = true -> PyStr.contains "==" v = false ->
        In (n +:+ "==" +:+ v) packages ->
        In (_property ("env_" +:+ n) v) (props_of (p_model pr)))
  /\ In (requirements_txt packages) (p_files pr)
  /\ f_file (requirements_txt packages) = PyStr.join (String "010"%char "") packages
  /\ Forall well_formed_package packages.
Proof.
  intros Hfiles Hpk Hres.
  apply prepare_estimator_ok in Hres as (Hp & Hw & Hf & _).
  assert (Hrec : recorded_packages R true files = packages).
  { unfold recorded_packages. by rewrite Hfiles, Hpk. }
  rewrite Hrec in *.
  assert (Hsplit : forall p n v, In p packages -> PyStr.split "==" p = [n; v] ->
            In (_property ("env_" +:+ n) v) (props_of (p_model pr))).
  { intros p n v Hin Hs. rewrite Hp. apply in_or_app. right.
    apply (env_properties_In p); [exact Hin|].
    unfold env_property. rewrite Hs.
    destruct (PyStr.contains "==" p) eqn:Hc; [by left|].
    apply split_no_separator in Hc. congruence. }
  split; [exact Hp|]. split; [|split; [|split; [|split; [|split]]]].
  - intros p _ Hc. unfold env_property. by rewrite Hc.
  - exact Hsplit.
  - intros n v Hn Hv Hin. apply (Hsplit _ n v Hin).
    by apply split_name_version.
  - by apply Hf.
  - reflexivity.
  - exact Hw.
Qed.

End Inventory.


(** ** Score code and the name of the model *)

Section Submission.

Context {Data MI : Type}.
Variable R : registry Data MI.

Lemma get_lower_confined P d k : confined P (get_lower d k).
Proof.
  unfold get_lower. destruct (d !! k) as [[]|]; auto with effects.
Qed.

Lemma _create_project_confined (P : event -> Prop) name model repo ivars ovars :
  (forall n r v p, P (ECreateProject n r v p)) ->
  (forall p, P (EUpdateProject p)) ->
  confined P (_create_project R name model repo ivars ovars).
Proof.
  intros Hc Hu. unfold _create_project.
  apply confined_bind; [apply get_lower_confined|]. intros function.
  apply confined_bind; [apply get_lower_confined|]. intros algorithm.
  apply confined_bind; [apply confined_call, Hc|]. intros project.
  destruct (fold_left _ _ _) as [project' []];
    [apply confined_call, Hu | apply confined_ret].
Qed.

Lemma pyget_filter_target_level (model : gmap string pyval) :
  pyget (filter (fun kv => kv.1 = "function" \/ kv.1 = "targetLevel") model)
    "targetLevel"
  = pyget model "targetLevel".
Proof.
  unfold pyget. destruct (model !! "targetLevel") as [v|] eqn:E.
  - by rewrite (map_lookup_filter_Some_2 _ _ _ v) by (done || by right).
  - rewrite (map_lookup_filter_None_2 _ model "targetLevel"); [done | by left].
Qed.

(** [_create_project] on a descriptor without a target level: the project
    is created with the target level that lines 148-154 infer from the
    function and the algorithm, both read in lower case *)
Lemma _create_project_target_level name model repo ivars ovars env f alg :
  model !! "function" = Some (PStr f) ->
  model !! "algorithm" = Some (PStr alg) ->
  pyget model "targetLevel" = PNone ->
  exists vars props rest,
    trace (_create_project R name model repo ivars ovars env)
    = ECreateProject name repo vars props :: rest
    /\ pyget props "targetLevel"
       = cp_target_level (PyStr.lower f) (PyStr.lower alg).
Proof.
  intros Hf Ha Ht. unfold _create_project, get_lower. rewrite Hf, Ha.
  erewrite (bind_run (ret _)) by reflexivity.
  erewrite (bind_run (ret _)) by reflexivity.
  cbn [res env_out trace app]. rewrite trace_bind_call.
  eexists _, _, _. split; [reflexivity|].
  match goal with
  | |- pyget (if bool_decide (pyget ?m _ = _) then _ else _) _ = _ =>
      assert (Hm : pyget m "targetLevel" = PNone)
  end.
  { repeat match goal with
           | |- context [match ?l with [] => _ | _ :: _ => _ end] => destruct l
           | |- context [if ?b then _ else _] => destruct b
           end;
      unfold pyget in *; rewrite ?lookup_insert_ne by done;
      fold (pyget (filter (fun kv => kv.1 = "function" \/ kv.1 = "targetLevel")
                     model) "targetLevel");
      by rewrite pyget_filter_target_level. }
  rewrite bool_decide_eq_true_2 by exact Hm.
  unfold pyget. by rewrite lookup_insert_eq.
Qed.

(** the submission looks the model up and creates the version under the
    name it was handed *)
Lemma submit_model_names pr project create repo version :
  confined (names_model (p_name pr)) (submit_model R pr project create repo version).
Proof.
  unfold submit_model.
  apply confined_bind.
  { destruct create; [|apply confined_ret].
    apply confined_bind; [by apply _create_project_confined|].
    intros; apply confined_ret. }
  intros proj. apply confined_bind.
  { destruct (replaces_version version); [|by apply confined_call].
    apply confined_bind; [by apply confined_call|].
    intros [m|]; [|apply confined_raise].
    apply confined_bind; [by apply confined_call|]. intros model.
    apply confined_bind; [by apply confined_call|]. intros; apply confined_ret. }
  intros [model|r]; [|apply confined_raise].
  apply confined_bind; [|intros; apply confined_ret].
  apply confined_for_each. intros f. by apply confined_call.
Qed.

Lemma before_score_code_run est name files data train test valid record env :
  before_score_code R est name files data train test valid record env
  = Outcome (res (before_score_code R est name files data train test valid
                    record env)) env [].
Proof.
  destruct (confined_nothing _ env
              (before_score_code_confined R _ est name files data train test valid
                 record)) as [Ht He].
  destruct (before_score_code _ _ _ _ _ _ _ _ _ _) as [r e t].
  simpl in *. by subst.
Qed.

(** the estimator branch when [from_model_info] raises [ValueError]: the
    state before the score-code block, and the warning *)
Lemma prepare_estimator_swallowed est name files data train test valid record
    env msg pr :
  from_model_info R (estimator_info R est name data train test valid)
  = Raise (ValueError msg) ->
  res (before_score_code R est name files data train test valid record env) = Ok pr ->
  prepare_estimator R est name files data train test valid record env
  = Outcome (Ok pr) env [EWarn score_code_warning].
Proof.
  intros Hfail Hpr. unfold prepare_estimator.
  pose proof (before_score_code_run est name files data train test valid record
                env) as Hrun.
  rewrite Hpr in Hrun. rewrite (bind_run _ _ _ _ _ _ Hrun).
  erewrite bind_run by (eapply generate_score_code_swallowed, Hfail).
  cbn [res env_out trace ret fst snd app]. by destruct pr.
Qed.

(** C9.  Let [register_model] be called on an estimator for which
    [from_model_info] raises [ValueError].  Then the score-code block
    (lines 519-565) ends normally: it records the warning and leaves the
    descriptor and the list of files as they were, so that no score-code
    file is added and neither ['inputVariables'] nor ['outputVariables'] is
    set.  The files at that point are the caller's, the pickle, the
    statistics and the requirements.  And the registration goes on: once
    the project and the repository are settled and the steps before the
    block are through, the call is the submission of that descriptor and
    those files (lines 573-604), its result is the result of the
    submission, and its trace is the lookups, the warning and the calls of
    the submission. *)
Theorem score_code_failure_is_swallowed (a : register_args Data) est msg env :
  a_model a = MEstimator est ->
  from_model_info R (estimator_info_of R a est) = Raise (ValueError msg) ->
  (forall model files,
     generate_score_code R (estimator_info_of R a est) model files env
     = Outcome (Ok (model, files)) env [EWarn score_code_warning])
  /\ (forall pr f,
        res (before_score_code_of R a est env) = Ok pr ->
        In f (p_files pr) ->
        In f (a_files a) \/ In (f_name f) generated_before_score_code)
  /\ (forall pr p repo t,
        res (before_score_code_of R a est env) = Ok pr ->
        res (lookup_project R (a_project a) env) = Ok p ->
        (p = None -> a_force a = true) ->
        find_repository R (a_repository a) env = Outcome (Ok repo) env t ->
        let o := submit_model R pr (a_project a)
                   (bool_decide (p = None) && a_force a) repo
                   (version_or_new (a_version a)) env in
        register_model R a env
        = Outcome (res o) (env_out o)
            (preamble_trace a ++ t ++ EWarn score_code_warning :: trace o)).
Proof.
  intros Hmodel Hfail. split; [|split].
  - intros model files. by eapply generate_score_code_swallowed.
  - intros pr f Hpr. by eapply before_score_code_files.
  - intros pr p repo t Hpr Hp Hforce Hfind o. subst o.
    rewrite (register_model_resolved R a env p repo t Hp Hforce Hfind).
    cbn [res env_out trace]. unfold register_resolved. rewrite Hmodel.
    rewrite (bind_run _ _ _ _ _ _
               (prepare_estimator_swallowed _ _ _ _ _ _ _ _ _ _ _ Hfail Hpr)).
    reflexivity.
Qed.

(** when a version is to be replaced and no project is created, the
    submission starts with the lookup, and the creation of the version
    follows if a model is found *)
Lemma submit_model_lookup pr project repo version env :
  replaces_version version = true ->
  exists rest,
    trace (submit_model R pr project false repo version env)
    = EGetModel (p_name pr) :: rest
    /\ (forall m, mr_get_model R (p_name pr) = Ok (Some m) ->
          exists rest', rest = ECreateModelVersion (p_name pr) :: rest').
Proof.
  intros Hv. unfold submit_model. rewrite Hv.
  erewrite (bind_run (ret _)) by reflexivity. cbn [app res env_out trace].
  rewrite trace_bind, trace_bind_call. cbn [app].
  eexists. split; [reflexivity|].
  intros m Hm. rewrite Hm. cbn [app]. rewrite trace_bind_call.
  cbn [app]. eexists. reflexivity.
Qed.

(** C10.  Let [register_model] be called on an estimator, with [train],
    [test] or [valid] given and a version other than ['new'].  The
    statistics loop has then left ['dmcas_roc.json'] in [name]: this is the
    name with which the estimator branch ends, and every lookup of a model
    and every creation of a version that the call records goes by it,
    whatever name the caller passed.  And when the project exists and the
    repository is found, the call does look the model up under that name,
    and creates the version under that name if the lookup finds a model. *)
Theorem statistics_loop_rebinds_name (a : register_args Data) est env :
  a_model a = MEstimator est ->
  any_split (a_train a) (a_test a) (a_valid a) = true ->
  replaces_version (version_or_new (a_version a)) = true ->
  let o := register_model R a env in
  (forall pr, prepared_by R a env pr -> p_name pr = "dmcas_roc.json")
  /\ Forall (names_model "dmcas_roc.json") (trace o)
  /\ (forall pr pn p repo,
        prepared_by R a env pr ->
        a_project a = Some pn -> mr_get_project R pn = Ok (Some p) ->
        res (find_repository R (a_repository a) env) = Ok repo ->
        In (EGetModel "dmcas_roc.json") (trace o)
        /\ (forall m, mr_get_model R "dmcas_roc.json" = Ok (Some m) ->
              In (ECreateModelVersion "dmcas_roc.json") (trace o))).
Proof.
  intros Hmodel Hsplit Hv o.
  assert (Hname : forall env' pr,
            res (prepare_estimator R est (a_name a) (a_files a) (data_argument R a)
                   (a_train a) (a_test a) (a_valid a) (a_record_packages a) env')
            = Ok pr -> p_name pr = "dmcas_roc.json").
  { intros env' pr H. apply prepare_estimator_ok in H as (_ & _ & _ & ->).
    by rewrite Hsplit. }
  split; [|split].
  - intros pr. unfold prepared_by. rewrite Hmodel. apply Hname.
  - subst o.
    assert (Hc : confined (names_model "dmcas_roc.json") (register_model R a));
      [|apply Hc].
    unfold register_model.
    apply confined_bind.
    { destruct (a_input a); [by apply confined_emit | apply confined_ret]. }
    intros _. apply confined_bind.
    { unfold lookup_project.
      destruct (a_project a); [by apply confined_call | apply confined_ret]. }
    intros p. destruct (_ && _); [apply confined_raise|].
    apply confined_bind; [by apply find_repository_confined|]. intros repo.
    unfold register_resolved. rewrite Hmodel.
    apply confined_bind_res.
    + eapply confined_weaken; [|apply prepare_estimator_confined].
      by intros [].
    + intros env' pr Hpr. rewrite <- (Hname env' pr Hpr). apply submit_model_names.
  - intros pr pn p repo Hpr Hp Hget Hrepo. subst o.
    assert (Hn : p_name pr = "dmcas_roc.json").
    { revert Hpr. unfold prepared_by. rewrite Hmodel. apply Hname. }
    destruct (find_repository_quiet R (a_repository a) env) as [_ He].
    destruct (find_repository R (a_repository a) env) as [r e t] eqn:Hfind.
    simpl in Hrepo, He. subst r e.
    rewrite (register_model_resolved R a env (Some p) repo t); try done.
    2:{ rewrite Hp. simpl. exact Hget. }
    destruct (register_resolved_prepared R a
                (bool_decide (Some p = None) && a_force a) repo env pr Hpr)
      as (tp & _ & ->).
    rewrite bool_decide_eq_false_2 by done. cbn [andb res env_out trace].
    destruct (submit_model_lookup pr (a_project a) repo
                (version_or_new (a_version a)) env Hv) as (rest & -> & Hrest).
    rewrite Hn in *. split.
    + rewrite !in_app_iff. right; right; right. by left.
    + intros m Hm. destruct (Hrest m Hm) as (rest' & ->).
      rewrite !in_app_iff. right; right; right. right. by left.
Qed.

End Submission.


(** ** The statements at work on the small installation *)

(** C2, as stated, fails: a package installed from a source tree, whose
    string has no ['=='], gives no custom property, but it is a line of the
    [requirements.txt] that is uploaded. *)
Lemma requirements_txt_lists_every_package :
  let R := demo_registry [] (Some demo_packages)
             (Raise (ValueError "no type information")) in
  let a := demo_args (MEstimator demo_estimator) "Iris" VNone false None in
  let p := "-e git+https://example.org/pkg.git#egg=pkg" in
  let o := register_model R a ∅ in
  a_record_packages a = true
  /\ has_file "requirements.txt" (a_files a) = false
  /\ In p demo_packages
  /\ length (PyStr.split "==" p) <> 2
  /\ properties_exclude (trace o) p
  /\ ~ manifest_excludes (trace o) p.
Proof.
  intros R a p o.
  split; [reflexivity|]. split; [reflexivity|].
  split; [right; left; reflexivity|]. split; [by vm_compute|]. split.
  - intros d project pr _ _ [].
  - intros H.
    apply (H (<["id" := PStr "m-1"]> ∅) (requirements_txt demo_packages)).
    + vm_compute. do 5 right. left. reflexivity.
    + reflexivity.
    + vm_compute. right. left. reflexivity.
Qed.

(** the theorem on the three packages of the small installation *)
Lemma package_inventory_witness :
  let R := demo_registry [] (Some demo_packages)
             (Raise (ValueError "no type information")) in
  has_file "requirements.txt" [] = false
  /\ installed_packages R = Some demo_packages
  /\ res (prepare_estimator R demo_estimator "my_model" [] tt None None None
            true ∅) = Ok demo_prepared
  /\ In (_property "env_numpy" "1.21.0") (props_of (p_model demo_prepared))
  /\ In (requirements_txt demo_packages) (p_files demo_prepared).
Proof.
  intros R.
  assert (H3 : res (prepare_estimator R demo_estimator "my_model" [] tt None None
                      None true ∅) = Ok demo_prepared)
    by (vm_compute; reflexivity).
  split; [reflexivity|]. split; [reflexivity|]. split; [exact H3|].
  destruct (package_inventory R demo_estimator "my_model" [] tt None None None ∅
              demo_packages demo_prepared eq_refl eq_refl H3)
    as (_ & _ & _ & Hin & Hreq & _).
  split; [|exact Hreq].
  apply (Hin "numpy" "1.21.0"); [reflexivity | reflexivity |].
  right; right; left; reflexivity.
Defined.

(** the theorem on a registration without data: the model is created and
    the warning recorded *)
Lemma score_code_failure_is_swallowed_witness :
  let R := demo_registry [] (Some demo_packages)
             (Raise (ValueError "no type information")) in
  let a := demo_args (MEstimator demo_estimator) "Iris" VNone false None in
  a_model a = MEstimator demo_estimator
  /\ from_model_info R (estimator_info_of R a demo_estimator)
     = Raise (ValueError "no type information")
  /\ res (register_model R a ∅) = Ok (<["id" := PStr "m-1"]> ∅)
  /\ In (EWarn score_code_warning) (trace (register_model R a ∅)).
Proof.
  intros R a.
  assert (H1 : a_model a = MEstimator demo_estimator) by reflexivity.
  assert (H2 : from_model_info R (estimator_info_of R a demo_estimator)
               = Raise (ValueError "no type information")) by reflexivity.
  split; [exact H1|]. split; [exact H2|].
  destruct (score_code_failure_is_swallowed R a demo_estimator
              "no type information" ∅ H1 H2) as (_ & _ & Hcall).
  assert (Hpr : res (before_score_code_of R a demo_estimator ∅) = Ok demo_prepared)
    by (vm_compute; reflexivity).
  assert (Hforce : Some demo_project = None -> a_force a = true) by discriminate.
  rewrite (Hcall demo_prepared (Some demo_project) demo_repository
             [EDefaultRepository] Hpr eq_refl Hforce eq_refl).
  split.
  - vm_compute. reflexivity.
  - cbn [trace]. rewrite !in_app_iff. right; right. by left.
Defined.

(** the theorem on a registration with training data, for the version
    [latest] of the model "my_model" *)
Lemma statistics_loop_rebinds_name_witness :
  let R := demo_registry ["dmcas_roc.json"] (Some demo_packages)
             (Raise (ValueError "no type information")) in
  let a := demo_args (MEstimator demo_estimator) "Iris" (VStr "latest") false
             (Some tt) in
  let o := register_model R a ∅ in
  a_model a = MEstimator demo_estimator
  /\ any_split (a_train a) (a_test a) (a_valid a) = true
  /\ replaces_version (version_or_new (a_version a)) = true
  /\ a_name a = "my_model"
  /\ Forall (names_model "dmcas_roc.json") (trace o).
Proof.
  intros R a o.
  assert (H1 : a_model a = MEstimator demo_estimator) by reflexivity.
  assert (H2 : any_split (a_train a) (a_test a) (a_valid a) = true) by reflexivity.
  assert (H3 : replaces_version (version_or_new (a_version a)) = true)
    by (vm_compute; reflexivity).
  split; [exact H1|]. split; [exact H2|]. split; [exact H3|].
  split; [reflexivity|].
  exact (proj1 (proj2 (statistics_loop_rebinds_name R a demo_estimator ∅ H1 H2 H3))).
Defined.

(** the same call, event by event: the model is looked up and the version
    created under the name of the last statistics file *)
Example rebound_name_trace :
  let R := demo_registry ["dmcas_roc.json"] (Some demo_packages)
             (Raise (ValueError "no type information")) in
  let a := demo_args (MEstimator demo_estimator) "Iris" (VStr "latest") false
             (Some tt) in
  firstn 5 (trace (register_model R a ∅))
  = [ EGetProject "Iris"; EDefaultRepository; EWarn score_code_warning;
      EGetModel "dmcas_roc.json"; ECreateModelVersion "dmcas_roc.json" ].
Proof. vm_compute. reflexivity. Qed.


(** ** [publish_model] *)

Lemma submissions_app t1 t2 : submissions (t1 ++ t2) = submissions t1 + submissions t2.
Proof. unfold submissions. by rewrite filter_app, length_app. Qed.

Lemma module_deletions_app t1 t2 :
  module_deletions (t1 ++ t2) = module_deletions t1 + module_deletions t2.
Proof. unfold module_deletions. by rewrite filter_app, length_app. Qed.

Lemma submissions_cons e t :
  submissions (e :: t) = (if is_submission e then 1 else 0) + submissions t.
Proof. unfold submissions. rewrite filter_cons. by destruct (is_submission e). Qed.

Lemma module_deletions_cons e t :
  module_deletions (e :: t)
  = (if is_module_deletion e then 1 else 0) + module_deletions t.
Proof.
  unfold module_deletions. rewrite filter_cons. by destruct (is_module_deletion e).
Qed.

Lemma settled_trace t :
  Forall settled t -> submissions t = 0 /\ module_deletions t = 0.
Proof.
  unfold submissions, module_deletions.
  induction 1 as [|e t [He1 He2] _ [IH1 IH2]]; [done|].
  rewrite !filter_cons. destruct (decide (is_submission e)) as [H|_];
    [by rewrite He1 in H|].
  destruct (decide (is_module_deletion e)) as [H|_]; [by rewrite He2 in H|].
  done.
Qed.

Section PublishFacts.

Variable P : publisher.

(** a request that went through is one submission, and no deletion *)
Lemma submit_request_ok model destination code max_retries replace attempt env j :
  res (submit_request P model destination code max_retries replace attempt env)
  = Ok j ->
  let t := trace (submit_request P model destination code max_retries replace
                    attempt env) in
  submissions t = 1 /\ module_deletions t = 0.
Proof.
  unfold submit_request, bind, call. destruct code as [c|]; simpl.
  - destruct (mp_publish_model P model destination c); simpl; [done|discriminate].
  - destruct (mp_get_destination P destination) as [d|]; simpl; [|discriminate].
    case_bool_decide; simpl;
      destruct (mm_publish_model P model destination replace _); simpl;
      done || discriminate.
Qed.

(** once no request is to be submitted, none is, and no module is deleted *)
Lemma conclude_publication_settled model j :
  confined settled (conclude_publication P model j).
Proof.
  unfold conclude_publication. destruct (job_is j "failed").
  { apply confined_bind; [by apply confined_call|]. intros; apply confined_raise. }
  destruct (negb _); [apply confined_raise|].
  apply confined_bind; [by apply confined_call|]. intros log.
  apply confined_bind; [apply confined_local|]. intros [url|]; [|apply confined_raise].
  apply confined_bind; [by apply confined_call|]. intros mh.
  destruct (PyStr.contains _ _); [by apply confined_call | apply confined_ret].
Qed.

(** the outcome of a failed job: the publishing log, raised as an error *)
Lemma conclude_publication_failed model j env :
  job_is j "failed" = true ->
  conclude_publication P model j env
  = Outcome
      (match job_publishing_log P j with
       | Ok log => Raise (publish_failure model log)
       | Raise e => Raise e
       end)
      env [ERequestLink j "publishingLog"].
Proof.
  intros H. unfold conclude_publication. rewrite H.
  unfold bind, call, raise. simpl. by destruct (job_publishing_log P j).
Qed.


End PublishFacts.



(** ** [update_model_performance]: the certificate setting *)

(** What lines 853-900 do to [SSLREQCERT], for a block that leaves the
    environment alone: the block runs under the overridden setting, and the
    saved value is written back only if the block ends normally and there
    was a value to save. *)
Lemma certificate_override_outcome {A} (verify : bool) (body : M A) (env : environ) :
  (forall env', env_out (body env') = env') ->
  let env1 : environ := if verify then env else <["SSLREQCERT" := "no"]> env in
  let o := certificate_override verify body env in
  res o = res (body env1)
  /\ trace o = trace (body env1)
  /\ env_out o
     = match res (body env1), env !! "SSLREQCERT" with
       | Ok _, Some v => <["SSLREQCERT" := v]> env1
       | _, _ => env1
       end.
Proof.
  intros Hbody env1 o. subst o env1.
  unfold certificate_override, bind, environ_get, environ_set, ret.
  destruct verify; cbn [negb res env_out trace app];
    match goal with |- context [body ?e] => specialize (Hbody e) end;
    destruct (body _) as [[x|e] env' t]; cbn [res env_out trace app] in *;
    subst env'; destruct (env !! "SSLREQCERT");
    cbn [res env_out trace app]; rewrite ?app_nil_r; done.
Qed.

(** the setting is restored when the block ends normally and the variable
    was set *)
Lemma certificate_override_restores {A} (verify : bool) (body : M A) (env : environ) v x :
  (forall env', env_out (body env') = env') ->
  env !! "SSLREQCERT" = Some v ->
  res (certificate_override verify body env) = Ok x ->
  env_out (certificate_override verify body env) = env.
Proof.
  intros Hbody Hv Hres.
  destruct (certificate_override_outcome verify body env Hbody) as (Hr & _ & He).
  rewrite He. rewrite <- Hr, Hres, Hv.
  destruct verify; [|rewrite insert_insert_eq]; by apply insert_id.
Qed.

(** nothing changes when the session verifies certificates *)
Lemma certificate_override_verified {A} (body : M A) (env : environ) :
  (forall env', env_out (body env') = env') ->
  env_out (certificate_override true body env) = env.
Proof.
  intros Hbody.
  destruct (certificate_override_outcome true body env Hbody) as (_ & _ & He).
  rewrite He. destruct (res (body env)); [|done].
  destruct (env !! "SSLREQCERT") eqn:E; [|done]. by apply insert_id.
Qed.

(** the override stays when the variable was unset, and when the block
    raises *)
Lemma certificate_override_left {A} (body : M A) (env : environ) :
  (forall env', env_out (body env') = env') ->
  env !! "SSLREQCERT" = None
  \/ (exists e, res (certificate_override false body env) = Raise e) ->
  env_out (certificate_override false body env) !! "SSLREQCERT" = Some "no".
Proof.
  intros Hbody H.
  destruct (certificate_override_outcome false body env Hbody) as (Hr & _ & He).
  rewrite He. destruct H as [-> | [e Hres]].
  - destruct (res (body _)); apply lookup_insert_eq.
  - rewrite <- Hr, Hres. apply lookup_insert_eq.
Qed.

Lemma restores_confined {A} P v (m : M A) : confined P m -> restores v m.
Proof. intros H env x _ _. apply H. Qed.

Lemma restores_bind {A B} v (m : M A) (f : A -> M B) :
  restores v m -> (forall a, restores v (f a)) -> restores v (bind m f).
Proof.
  intros Hm Hf env x Hv. unfold bind.
  destruct (res (m env)) as [a|e] eqn:E; cbn [res env_out]; [|discriminate].
  intros Hx. specialize (Hm env a Hv E). rewrite Hm in *. by eapply Hf.
Qed.

Section PerformanceFacts.

Variable W : monitoring.

Lemma upload_performance_table_confined caslib table_prefix model_id label :
  confined (fun _ => True)
    (upload_performance_table W caslib table_prefix model_id label).
Proof.
  unfold upload_performance_table.
  apply confined_bind; [by apply confined_call|]. intros _.
  apply confined_bind; [by apply confined_call|]. intros tables.
  apply confined_bind; [by apply confined_call|].
  intros [tbl|]; [apply confined_ret | apply confined_raise].
Qed.

(** the block of lines 861-896 does not touch the environment; the session
    is closed on the way out, whether the block raises or not *)
Lemma with_session_confined {A} url (body : M A) :
  confined (fun _ => True) body ->
  confined (fun _ => True)
    (with_session (call (ECASConnect url) (cas_connect W url)) body).
Proof.
  intros Hbody. unfold with_session.
  apply confined_bind; [by apply confined_call|]. intros _ env.
  destruct (Hbody env) as [Ht He]. cbn [trace env_out]. split; [|done].
  apply Forall_app. split; [done | by repeat constructor].
Qed.

(** Where C1 holds: a call to [update_model_performance] that ends normally
    and had found [SSLREQCERT] set leaves it at the value it had. *)
Lemma update_model_performance_restores columns model label refresh v :
  restores v (update_model_performance W columns model label refresh).
Proof.
  unfold update_model_performance, attr, get_lower.
  repeat first
    [ match goal with
      | |- restores _ (certificate_override _ _) =>
          intros env x Hv Hx;
          eapply certificate_override_restores; [|exact Hv|exact Hx];
          intros env'; apply with_session_confined;
          apply upload_performance_table_confined
      end
    | apply restores_bind; [|intros ?]
    | match goal with
      | |- restores _ (call _ _) =>
          by apply (restores_confined (fun _ => True)), confined_call
      | |- restores _ (ret _) =>
          apply (restores_confined (fun _ => True)), confined_ret
      | |- restores _ (raise _) =>
          apply (restores_confined (fun _ => True)), confined_raise
      | |- restores _ (match ?x with _ => _ end) => destruct x
      end ].
Qed.

End PerformanceFacts.

(** C1 fails on the code.  The session does not verify certificates in
    either call.  In the first, [SSLREQCERT] is unset before the call and
    the upload succeeds: after the call the variable is set, to ['no'].  In
    the second, the variable is ['demand'] before the call and the upload
    raises: the call raises and the variable is left at ['no'].  (With the
    variable set and an upload that succeeds, it is restored.) *)
Theorem sslreqcert_not_restored :
  let tables := Some ["PREFIX_3_Q1_model1"; "PREFIX_7_Q2_model1"] in
  let unset : environ := ∅ in
  let demand : environ := <["SSLREQCERT" := "demand"]> ∅ in
  let succeeding := demo_monitoring false tables (Ok (Some "tbl")) in
  let failing := demo_monitoring false tables (Raise (OtherError "SWATError")) in
  let o1 := update_model_performance succeeding demo_columns "my_model" "Q3" None unset in
  let o2 := update_model_performance failing demo_columns "my_model" "Q3" None demand in
  let o3 := update_model_performance succeeding demo_columns "my_model" "Q3" None demand in
  (res o1 = Ok "tbl"
   /\ unset !! "SSLREQCERT" = None
   /\ env_out o1 !! "SSLREQCERT" = Some "no")
  /\ (res o2 = Raise (OtherError "SWATError")
      /\ demand !! "SSLREQCERT" = Some "demand"
      /\ env_out o2 !! "SSLREQCERT" = Some "no")
  /\ (res o3 = Ok "tbl" /\ env_out o3 = demand).
Proof. vm_compute. repeat split. Qed.


(** ** [update_model_performance]: the sequence number of the table *)

Lemma fold_left_max (l : list Z) :
  forall x,
    let r := fold_left Z.max l x in
    (r = x \/ In r l) /\ (x <= r)%Z /\ Forall (fun y => (y <= r)%Z) l.
Proof.
  induction l as [|y l IH]; intros x; simpl.
  - split; [by left|]. split; [lia | constructor].
  - destruct (IH (Z.max x y)) as (Hin & Hle & Hall). split; [|split].
    + destruct Hin as [Hr | Hr]; [|by auto].
      rewrite Hr. destruct (Z.max_spec x y) as [[_ ->] | [_ ->]]; auto.
    + lia.
    + constructor; [lia | exact Hall].
Qed.

(** [Series.max()] is an element of the series, and the largest *)
Lemma series_max_spec (l : list Z) :
  match series_max l with
  | None => l = []
  | Some mx => In mx l /\ Forall (fun y => (y <= mx)%Z) l
  end.
Proof.
  destruct l as [|x l]; simpl; [reflexivity|].
  destruct (fold_left_max l x) as (Hin & Hle & Hall). split.
  - destruct Hin as [-> | Hin]; auto.
  - by constructor.
Qed.

Lemma sequence_numbers_In table_prefix model_id names k :
  In k (sequence_numbers table_prefix model_id names) <->
  exists name digits,
    In name names
    /\ Regex.extract (table_regex table_prefix model_id) name = Some digits
    /\ k = int_of_digits digits.
Proof.
  unfold sequence_numbers. rewrite in_map_iff. split.
  - intros (digits & <- & Hin). apply list_elem_of_In in Hin.
    apply list_elem_of_omap in Hin as (o & Ho & Hid).
    apply list_elem_of_In, in_map_iff in Ho as (name & <- & Hname).
    exists name, digits. by simpl in Hid.
  - intros (name & digits & Hname & Hex & ->). exists digits. split; [done|].
    apply list_elem_of_In, list_elem_of_omap.
    exists (Some digits). split; [|done].
    apply list_elem_of_In, in_map_iff. eauto.
Qed.

(** *** The pattern of line 850 on the names that line 883 builds *)

Lemma rounds_S {B} step (k : string -> option string -> option B) n s cap :
  Regex.rounds step k (S n) s cap
  = match
      step s cap
        (fun s' cap' =>
           if (String.length s' <? String.length s)%nat
           then Regex.rounds step k n s' cap' else None)
    with
    | Some b => Some b
    | None => k s cap
    end.
Proof. reflexivity. Qed.

Lemma m_Any_cons {B} d s cap (k : string -> option string -> option B) :
  Regex.m Regex.Any (String d s) cap k
  = if bool_decide (d = Regex.newline) then None else k s cap.
Proof. reflexivity. Qed.

Lemma m_Digit_cons {B} d s cap (k : string -> option string -> option B) :
  Regex.m Regex.Digit (String d s) cap k
  = if Regex.is_digit d then k s cap else None.
Proof. reflexivity. Qed.

Lemma m_Seq {B} r1 r2 s cap (k : string -> option string -> option B) :
  Regex.m (Regex.Seq r1 r2) s cap k
  = Regex.m r1 s cap (fun s' cap' => Regex.m r2 s' cap' k).
Proof. reflexivity. Qed.

Lemma m_Chr_cons {B} c d s cap (k : string -> option string -> option B) :
  Regex.m (Regex.Chr c) (String d s) cap k
  = if Regex.same_char c d then k s cap else None.
Proof. reflexivity. Qed.

Lemma m_Group {B} r s cap (k : string -> option string -> option B) :
  Regex.m (Regex.Group r) s cap k
  = Regex.m r s cap
      (fun s' _ =>
         k s' (Some (PyStr.take (String.length s - String.length s') s))).
Proof. reflexivity. Qed.

Lemma m_Star {B} r s cap (k : string -> option string -> option B) :
  Regex.m (Regex.Star r) s cap k
  = Regex.rounds (Regex.m r) k (String.length s) s cap.
Proof. reflexivity. Qed.

Lemma length_lt_cons d s : (String.length s <? String.length (String d s))%nat = true.
Proof. apply Nat.ltb_lt. simpl. lia. Qed.

Lemma m_Lit {B} lit :
  forall s cap (k : string -> option string -> option B),
    Regex.m (Regex.Lit lit) (lit +:+ s) cap k = k s cap.
Proof.
  induction lit as [|c lit IH]; intros s cap k; [reflexivity|].
  rewrite append_cons. cbn [Regex.Lit Regex.m]. unfold Regex.same_char.
  rewrite bool_decide_eq_true_2 by reflexivity. apply IH.
Qed.

(** a literal leaves the text of the group as it is *)
Lemma m_Lit_range lit :
  forall s cap,
    Regex.m (Regex.Lit lit) s cap (fun _ c => Some c) = None
    \/ Regex.m (Regex.Lit lit) s cap (fun _ c => Some c) = Some cap.
Proof.
  induction lit as [|c lit IH]; intros s cap; [by right|].
  cbn [Regex.Lit Regex.m]. destruct s as [|d s]; [by left|].
  destruct (Regex.same_char c d); [apply IH | by left].
Qed.

(** [\d*] in front of a text that does not start with a digit: the preferred
    match takes all the digits *)
Lemma rounds_digits {B} (k : string -> option string -> option B) rest cap v :
  (forall k' : string -> option string -> option B,
     Regex.m Regex.Digit rest cap k' = None) ->
  k rest cap = Some v ->
  forall ds n,
    all_chars Regex.is_digit ds = true ->
    String.length (ds +:+ rest) <= n ->
    Regex.rounds (Regex.m Regex.Digit) k n (ds +:+ rest) cap = Some v.
Proof.
  intros Hstop Hk. induction ds as [|d ds IH]; intros n Hds Hn.
  - rewrite append_nil. destruct n; [exact Hk|].
    by rewrite rounds_S, Hstop.
  - cbn [all_chars] in Hds. apply andb_true_iff in Hds as [Hd Hds].
    rewrite append_cons in Hn |- *. cbn [String.length] in Hn.
    destruct n as [|n]; [lia|].
    rewrite rounds_S, m_Digit_cons, Hd, length_lt_cons.
    rewrite IH by (done || lia). reflexivity.
Qed.

Lemma rounds_any_range {B} (k : string -> option string -> option B) cap v :
  (forall s, k s cap = None \/ k s cap = Some v) ->
  forall n s,
    Regex.rounds (Regex.m Regex.Any) k n s cap = None
    \/ Regex.rounds (Regex.m Regex.Any) k n s cap = Some v.
Proof.
  intros Hk. induction n as [|n IH]; intros s; [apply Hk|].
  rewrite rounds_S. destruct s as [|d s]; [apply Hk|].
  rewrite m_Any_cons, length_lt_cons.
  destruct (bool_decide (d = Regex.newline)); [apply Hk|].
  destruct (IH s) as [-> | ->]; [apply Hk | by right].
Qed.

(** [.*] in front of a line: some way of matching lets the rest of the
    pattern succeed if the rest succeeds after the line *)
Lemma rounds_any_some {B} (k : string -> option string -> option B) cap b :
  k b cap <> None ->
  forall a n,
    one_line a = true ->
    String.length (a +:+ b) <= n ->
    Regex.rounds (Regex.m Regex.Any) k n (a +:+ b) cap <> None.
Proof.
  intros Hk. induction a as [|c a IH]; intros n Ha Hn.
  - rewrite append_nil. destruct n; [exact Hk|].
    rewrite rounds_S. destruct (Regex.m _ _ _ _); [discriminate | exact Hk].
  - unfold one_line in Ha. cbn [all_chars] in Ha.
    apply andb_true_iff in Ha as [Hc Ha].
    rewrite append_cons in Hn |- *. cbn [String.length] in Hn.
    destruct n as [|n]; [lia|].
    rewrite rounds_S, m_Any_cons, length_lt_cons.
    destruct (bool_decide (c = Regex.newline)); [discriminate|].
    specialize (IH n Ha ltac:(lia)).
    destruct (Regex.rounds _ _ _ _ _); [discriminate | done].
Qed.

Lemma length_append s1 s2 :
  String.length (s1 +:+ s2) = String.length s1 + String.length s2.
Proof.
  induction s1 as [|c s1 IH]; [reflexivity|].
  rewrite append_cons. cbn [String.length]. by rewrite IH.
Qed.

Lemma take_append s1 s2 : PyStr.take (String.length s1) (s1 +:+ s2) = s1.
Proof.
  induction s1 as [|c s1 IH]; [by destruct s2|].
  rewrite append_cons. cbn [String.length PyStr.take]. by rewrite IH.
Qed.

(** A table name built as line 883 builds it is matched by the pattern of
    line 850 at its first character, and the group is its sequence
    number. *)
Lemma table_name_extract table_prefix model_id digits label :
  is_number digits = true ->
  one_line label = true ->
  Regex.extract (table_regex table_prefix model_id)
    (table_prefix +:+ "_" +:+ digits +:+ "_" +:+ label +:+ "_" +:+ model_id)
  = Some digits.
Proof.
  intros Hnum Hlabel. unfold is_number in Hnum.
  apply andb_true_iff in Hnum as [Hne Hds].
  destruct digits as [|d ds]; [discriminate|]. clear Hne.
  cbn [all_chars] in Hds. apply andb_true_iff in Hds as [Hd Hds].
  set (tail := label +:+ "_" +:+ model_id).
  set (group := String d ds).
  assert (Hmatch :
    Regex.m (table_regex table_prefix model_id)
      (table_prefix +:+ "_" +:+ group +:+ "_" +:+ tail) None
      (fun _ cap => Some cap) = Some (Some group)).
  { unfold table_regex. rewrite m_Seq, m_Lit. cbv beta.
    rewrite m_Seq, append_cons, append_nil, m_Chr_cons.
    change (Regex.same_char "_" "_") with true. cbv beta iota.
    rewrite m_Seq, m_Group. unfold Regex.Plus. rewrite m_Seq.
    unfold group at 1. rewrite append_cons, m_Digit_cons, Hd. cbv beta.
    rewrite m_Star. apply rounds_digits.
    - intros k'. rewrite append_cons. reflexivity.
    - cbv beta.
      replace (PyStr.take _ _) with group.
      2:{ unfold group. rewrite !append_cons, append_nil. cbn [String.length].
          rewrite length_append. cbn [String.length].
          replace (S (String.length ds + S (String.length tail))
                   - S (String.length tail))
            with (S (String.length ds)) by lia.
          cbn [PyStr.take]. f_equal. symmetry. apply take_append. }
      rewrite m_Seq, append_cons, append_nil, m_Chr_cons.
      change (Regex.same_char "_" "_") with true. cbv beta iota.
      rewrite m_Seq, m_Star.
      set (k := fun (s' : string) (cap' : option string) =>
                  Regex.m (Regex.Seq (Regex.Chr "_") (Regex.Lit model_id)) s' cap'
                    (fun _ cap => Some cap)).
      assert (Hrange : forall s, k s (Some group) = None
                                 \/ k s (Some group) = Some (Some group)).
      { intros s. unfold k. rewrite m_Seq. destruct s as [|c s]; [by left|].
        rewrite m_Chr_cons.
        destruct (Regex.same_char "_" c); [apply m_Lit_range | by left]. }
      assert (Hend : k ("_" +:+ model_id) (Some group) <> None).
      { unfold k. rewrite m_Seq, append_cons, append_nil, m_Chr_cons.
        change (Regex.same_char "_" "_") with true. cbv beta iota.
        pose proof (m_Lit (B := option string) model_id "" (Some group)
                      (fun _ cap => Some cap)) as H.
        rewrite append_nil_r in H. by rewrite H. }
      destruct (rounds_any_range k (Some group) (Some group) Hrange
                  (String.length tail) tail) as [Hnone | Hsome]; [|exact Hsome].
      exfalso. revert Hnone. unfold tail.
      by apply rounds_any_some.
    - exact Hds.
    - reflexivity. }
  unfold Regex.extract.
  destruct (table_prefix +:+ "_" +:+ group +:+ "_" +:+ tail) eqn:E;
    cbn [Regex.search]; by rewrite Hmatch.
Qed.

(** *** Decimal numerals *)

Lemma pretty_N_char_digit y :
  (y < 10)%N ->
  Regex.is_digit (pretty_N_char y) = true
  /\ digit_value (pretty_N_char y) = Z.of_N y.
Proof.
  intros Hy.
  assert (y = 0 \/ y = 1 \/ y = 2 \/ y = 3 \/ y = 4 \/ y = 5 \/ y = 6 \/ y = 7
          \/ y = 8 \/ y = 9)%N as H by lia.
  repeat (destruct H as [-> | H]; [by split|]). by subst.
Qed.

(** the numeral of [x] in front of [s] reads as [x] followed by [s] *)
Lemma pretty_N_go_read x :
  exists p : Z,
    forall acc s,
      int_of_digits_go acc (pretty_N_go x s)
      = int_of_digits_go (acc * p + Z.of_N x) s.
Proof.
  induction (N.lt_wf_0 x) as [x _ IH].
  assert (x = 0 \/ 0 < x)%N as [-> | Hx] by lia.
  - exists 1%Z. intros acc s. rewrite pretty_N_go_0. f_equal. lia.
  - destruct (IH (x `div` 10)%N) as [p Hp]; [by apply N.div_lt|].
    exists (10 * p)%Z. intros acc s.
    rewrite pretty_N_go_step by done. rewrite Hp. cbn [int_of_digits_go].
    destruct (pretty_N_char_digit (x `mod` 10)) as [_ ->];
      [by apply N.mod_lt|].
    f_equal. pose proof (N.div_mod x 10 ltac:(done)) as Hdm. lia.
Qed.

Lemma pretty_N_go_digits x :
  forall s,
    all_chars Regex.is_digit s = true ->
    all_chars Regex.is_digit (pretty_N_go x s) = true.
Proof.
  induction (N.lt_wf_0 x) as [x _ IH]; intros s Hs.
  assert (x = 0 \/ 0 < x)%N as [-> | Hx] by lia.
  - by rewrite pretty_N_go_0.
  - rewrite pretty_N_go_step by done. apply IH; [by apply N.div_lt|].
    cbn [all_chars]. rewrite Hs.
    by destruct (pretty_N_char_digit (x `mod` 10)) as [-> _];
      [apply N.mod_lt|].
Qed.

Lemma pretty_N_go_nonempty x :
  forall s, s <> "" -> pretty_N_go x s <> "".
Proof.
  induction (N.lt_wf_0 x) as [x _ IH]; intros s Hs.
  assert (x = 0 \/ 0 < x)%N as [-> | Hx] by lia.
  - by rewrite pretty_N_go_0.
  - rewrite pretty_N_go_step by done. apply IH; [by apply N.div_lt | done].
Qed.

(** the numeral that [format] prints for a sequence number is a number, and
    [int] reads it back *)
Lemma pretty_sequence (n : Z) :
  (0 <= n)%Z ->
  is_number (pretty n) = true /\ int_of_digits (pretty n) = n.
Proof.
  intros Hn. destruct n as [|q|q]; [by split | | lia].
  unfold pretty, pretty_Z, pretty, pretty_positive, pretty, pretty_N.
  rewrite decide_False by done. split.
  - unfold is_number. apply andb_true_iff. split.
    + apply negb_true_iff, bool_decide_eq_false.
      rewrite pretty_N_go_step by done. by apply pretty_N_go_nonempty.
    + by apply pretty_N_go_digits.
  - unfold int_of_digits. destruct (pretty_N_go_read (N.pos q)) as [p Hp].
    rewrite Hp. cbn [int_of_digits_go]. lia.
Qed.

(** *** The next sequence number *)

Section SequenceNumber.

Variable W : monitoring.

Lemma upload_performance_table_name caslib table_prefix model_id label env tables :
  cas_setsessopt W = Ok tt ->
  cas_tableinfo W caslib = Ok tables ->
  In (ECASUpload
        (performance_table_name table_prefix
           (next_sequence table_prefix model_id tables) label model_id) caslib)
     (trace (upload_performance_table W caslib table_prefix model_id label env)).
Proof.
  intros Hopt Hinfo. unfold upload_performance_table.
  rewrite (bind_call_ok _ _ tt) by exact Hopt. cbn [trace].
  rewrite (bind_call_ok _ _ tables) by exact Hinfo. cbn [trace].
  rewrite trace_bind_call. right. right. by left.
Qed.


End SequenceNumber.


(** A table that [update_model_performance] created earlier, and that is
    still listed, has a sequence number below the next one: no sequence
    number of a listed table of the model is used again. *)
Lemma next_sequence_fresh table_prefix model_id label n names :
  (0 <= n)%Z ->
  one_line label = true ->
  In (performance_table_name table_prefix n label model_id) names ->
  (n < next_sequence table_prefix model_id (Some names))%Z.
Proof.
  intros Hn Hlabel Hin.
  destruct (pretty_sequence n Hn) as [Hnum Hread].
  assert (Hseq : In n (sequence_numbers table_prefix model_id names)).
  { apply sequence_numbers_In. eexists _, (pretty n). split; [exact Hin|].
    split; [|by rewrite Hread].
    unfold performance_table_name. by apply table_name_extract. }
  unfold next_sequence.
  pose proof (series_max_spec (sequence_numbers table_prefix model_id names))
    as Hmax.
  destruct (series_max _) as [mx|].
  - destruct Hmax as [_ Hall]. rewrite Forall_forall in Hall.
    apply list_elem_of_In in Hseq. specialize (Hall n Hseq). simpl in Hall. lia.
  - rewrite Hmax in Hseq. destruct Hseq.
Qed.


(** * Further properties *)

(** ** [register_model]: the lookups and the dispatch *)

Section RegisterLookups.

Context {Data MI : Type}.
Variable R : registry Data MI.

(** lines 388-409, case by case *)
Lemma find_repository_run repository env :
  find_repository R repository env
  = Outcome
      (match repository_answer R repository with
       | Ok (Some r) => Ok r
       | Ok None => Raise (repository_not_found repository)
       | Raise (HTTPError code) =>
           if bool_decide (code = 403%Z) then Raise repository_forbidden
           else Raise (HTTPError code)
       | Raise e => Raise e
       end)
      env [repository_lookup repository].
Proof.
  unfold find_repository, repository_answer, repository_lookup, repository_not_found,
    repository_forbidden, bind, try_except, call.
  destruct repository as [r|]; cbn [res env_out trace];
    match goal with
    | |- context [mr_get_repository R r] => destruct (mr_get_repository R r) as [[o|]|e]
    | |- context [mr_default_repository R] => destruct (mr_default_repository R) as [[o|]|e]
    end; cbn; try reflexivity;
    destruct e; cbn; try reflexivity; case_bool_decide; reflexivity.
Qed.

(** once the project is settled, the call is the lookup of the repository
    and the dispatch, after the warning and the lookup of the project *)
Lemma register_model_after_project (a : register_args Data) env p :
  res (lookup_project R (a_project a) env) = Ok p ->
  (p = None -> a_force a = true) ->
  let o := bind (find_repository R (a_repository a))
             (register_resolved R a (bool_decide (p = None) && a_force a)) env in
  register_model R a env
  = Outcome (res o) (env_out o) (preamble_trace a ++ trace o).
Proof.
  intros Hp Hforce o. subst o. unfold register_model, preamble_trace.
  assert (Hgate : bool_decide (p = None)
                  && negb (bool_decide (p = None) && a_force a) = false).
  { case_bool_decide; [rewrite Hforce by done|]; reflexivity. }
  apply lookup_project_run in Hp.
  assert (Hw : exists m : M unit,
             m env
             = Outcome (Ok tt) env
                 (match a_input a with
                  | Some _ => [EWarn deprecation_warning]
                  | None => []
                  end)
             /\ match a_input a with
                | Some _ => warn deprecation_warning
                | None => ret tt
                end = m).
  { destruct (a_input a); eexists; (split; [|reflexivity]); reflexivity. }
  destruct Hw as (m & Hm & ->).
  rewrite (bind_run _ _ _ _ _ _ Hm). rewrite (bind_run _ _ _ _ _ _ Hp).
  rewrite Hgate. cbn [res env_out trace].
  by rewrite <- !app_assoc.
Qed.

Lemma preamble_trace_quiet (a : register_args Data) :
  Forall quiet (preamble_trace a).
Proof.
  unfold preamble_trace. destruct (a_input a), (a_project a); repeat constructor.
Qed.

(** [register_model] up to the dispatch, whatever the lookups answer *)
Lemma register_model_run (a : register_args Data) env :
  register_model R a env
  = match project_answer R (a_project a) with
    | Raise e => Outcome (Raise e) env (preamble_trace a)
    | Ok p =>
        if bool_decide (p = None) && negb (a_force a)
        then Outcome (Raise (project_not_found (a_project a))) env (preamble_trace a)
        else
          let o := bind (find_repository R (a_repository a))
                     (register_resolved R a (bool_decide (p = None) && a_force a))
                     env in
          Outcome (res o) (env_out o) (preamble_trace a ++ trace o)
    end.
Proof.
  destruct (project_answer R (a_project a)) as [p|e] eqn:Hp.
  - destruct (bool_decide (p = None) && negb (a_force a)) eqn:Hgate.
    + apply andb_true_iff in Hgate as [Hnone Hforce].
      apply negb_true_iff in Hforce. apply bool_decide_eq_true in Hnone. subst p.
      unfold register_model, preamble_trace, project_answer, project_not_found in *.
      rewrite Hforce.
      destruct (a_project a) as [pn|], (a_input a); cbn; rewrite ?Hp; reflexivity.
    + apply register_model_after_project.
      * unfold project_answer in Hp. destruct (a_project a); cbn; [done|].
        by injection Hp as <-.
      * intros ->. rewrite bool_decide_eq_true_2 in Hgate by done.
        cbn in Hgate. by apply negb_false_iff in Hgate.
  - unfold register_model, preamble_trace, project_answer in *.
    destruct (a_project a) as [pn|]; [|discriminate].
    destruct (a_input a); cbn; rewrite Hp; reflexivity.
Qed.

(** a dispatch that is confined to [P] makes a call that is confined to
    [P], for a [P] that holds of warnings and lookups *)
Lemma register_model_confined (P : event -> Prop) (a : register_args Data) env :
  (forall msg, P (EWarn msg)) ->
  (forall pn, P (EGetProject pn)) ->
  P EDefaultRepository -> (forall r, P (EGetRepository r)) ->
  (forall create repo, confined P (register_resolved R a create repo)) ->
  Forall P (trace (register_model R a env))
  /\ env_out (register_model R a env) = env.
Proof.
  intros Hw Hp Hd Hr Hres. rewrite register_model_run.
  assert (Hpre : Forall P (preamble_trace a)).
  { unfold preamble_trace. destruct (a_input a), (a_project a); repeat constructor; auto. }
  destruct (project_answer R (a_project a)) as [p|e]; [|done].
  destruct (_ && negb _); [done|]. cbn [res env_out trace].
  destruct (confined_bind P (find_repository R (a_repository a))
              (register_resolved R a (bool_decide (p = None) && a_force a))
              (find_repository_confined R P _ Hd Hr) (fun repo => Hres _ repo) env)
    as [Ht He].
  split; [|done]. by apply Forall_app.
Qed.

(** the call never ends normally when the dispatch never does *)
Lemma register_model_fails (a : register_args Data) env :
  (forall create repo env', exists e,
      res (register_resolved R a create repo env') = Raise e) ->
  exists e, res (register_model R a env) = Raise e.
Proof.
  intros Hres. rewrite register_model_run.
  destruct (project_answer R (a_project a)) as [p|e]; [|by eexists].
  destruct (_ && negb _); [by eexists|]. cbn [res].
  unfold bind. destruct (res (find_repository R (a_repository a) env)) as [repo|e];
    cbn [res]; [|by eexists].
  apply Hres.
Qed.

(** X1.  When the lookup of the repository fails, [register_model] fails
    with it and has changed nothing on the server, even if [force=True] and
    the project is missing: an HTTP error 403 becomes [AuthorizationError]
    (lines 393-401), any other exception of the lookup is raised as it is
    (line 402), and a repository that is not found gives the [ValueError]
    of line 406 or 409.  The calls made are the lookup of the project, if
    one is named, and the lookup of the repository. *)
Theorem register_model_repository_failure (a : register_args Data) env p :
  project_answer R (a_project a) = Ok p ->
  (p = None -> a_force a = true) ->
  let answer := repository_answer R (a_repository a) in
  let o := register_model R a env in
  (answer = Raise (HTTPError 403) -> res o = Raise repository_forbidden)
  /\ (forall e, answer = Raise e -> e <> HTTPError 403 -> res o = Raise e)
  /\ (answer = Ok None -> res o = Raise (repository_not_found (a_repository a)))
  /\ ((forall r, answer <> Ok (Some r)) ->
      trace o = preamble_trace a ++ [repository_lookup (a_repository a)]
      /\ no_remote_mutation (trace o)
      /\ env_out o = env).
Proof.
  intros Hp Hforce answer o. subst answer o.
  rewrite register_model_run, Hp.
  assert (Hgate : bool_decide (p = None) && negb (a_force a) = false).
  { case_bool_decide; [rewrite Hforce by done|]; reflexivity. }
  rewrite Hgate. cbn zeta. unfold bind. rewrite find_repository_run.
  cbn [res env_out trace].
  destruct (repository_answer R (a_repository a)) as [[r|]|e] eqn:Hanswer.
  - split; [discriminate|]. split; [discriminate|]. split; [discriminate|].
    intros Hnot. by destruct (Hnot r).
  - cbn [res env_out trace].
    split; [discriminate|]. split; [discriminate|]. split; [reflexivity|].
    intros _. split; [reflexivity|]. split; [|reflexivity].
    apply Forall_app. split; [apply preamble_trace_quiet|].
    destruct (a_repository a); repeat constructor.
  - assert (Hquiet : no_remote_mutation
                       (preamble_trace a ++ [repository_lookup (a_repository a)])).
    { apply Forall_app. split; [apply preamble_trace_quiet|].
      destruct (a_repository a); repeat constructor. }
    assert (Hcases :
              (exists code, e = HTTPError code /\ code = 403%Z)
              \/ (e <> HTTPError 403
                  /\ match e with
                     | HTTPError code =>
                         if bool_decide (code = 403%Z)
                         then Raise repository_forbidden
                         else Raise (HTTPError code)
                     | _ => Raise e
                     end = @Raise restobj e)).
    { destruct e; try (right; split; [discriminate | reflexivity]).
      destruct (decide (code = 403%Z)) as [->|Hne]; [left; by eexists|].
      right. split; [congruence|]. by rewrite bool_decide_eq_false_2. }
    destruct Hcases as [(code & -> & ->) | [Hne Heq]].
    + cbn [res env_out trace bool_decide decide_rel].
      split; [reflexivity|]. split; [by intros e' [= <-] Hne|].
      split; [discriminate|]. intros _.
      split; [reflexivity | split; [exact Hquiet | reflexivity]].
    + rewrite Heq. cbn [res env_out trace].
      split; [by intros [= ->]|]. split; [by intros e' [= <-] _|].
      split; [discriminate|]. intros _.
      split; [reflexivity | split; [exact Hquiet | reflexivity]].
Qed.

(** X2.  A model that is neither a CAS table, nor an estimator, nor a
    dictionary is refused: the call never ends normally, it changes nothing
    on the server and leaves the environment alone; when the project and
    the repository are settled, the exception is the [TypeError] of lines
    569-571. *)
Theorem register_model_unsupported_model (a : register_args Data) env repr :
  a_model a = MOther repr ->
  let o := register_model R a env in
  (exists e, res o = Raise e)
  /\ no_remote_mutation (trace o)
  /\ env_out o = env
  /\ (forall p repo,
        project_answer R (a_project a) = Ok p ->
        (p = None -> a_force a = true) ->
        repository_answer R (a_repository a) = Ok (Some repo) ->
        res o = Raise (unsupported_model repr)).
Proof.
  intros Hmodel o. subst o.
  assert (Hres : forall create repo,
             register_resolved R a create repo = raise (unsupported_model repr)).
  { intros. unfold register_resolved. by rewrite Hmodel. }
  split; [|split; [|split]].
  - apply register_model_fails. intros. rewrite Hres. by eexists.
  - apply (register_model_confined quiet); try done.
    intros. rewrite Hres. apply confined_raise.
  - apply (register_model_confined quiet); try done.
    intros. rewrite Hres. apply confined_raise.
  - intros p repo Hp Hforce Hrepo. rewrite register_model_run, Hp.
    assert (Hgate : bool_decide (p = None) && negb (a_force a) = false).
    { case_bool_decide; [rewrite Hforce by done|]; reflexivity. }
    rewrite Hgate. cbn zeta. unfold bind. rewrite find_repository_run, Hrepo.
    cbn [res env_out trace]. by rewrite Hres.
Qed.

Lemma register_castable_confined (P : event -> Prop) table name project create
    repo version data :
  (forall n r v p, P (ECreateProject n r v p)) ->
  (forall p, P (EUpdateProject p)) ->
  (forall n p z v, P (EImportModelFromZip n p z v)) ->
  confined P (register_castable R table name project create repo version data).
Proof.
  intros Hc Hu Hi. unfold register_castable. apply confined_bind.
  - destruct create; [|apply confined_ret].
    apply confined_bind.
    + destruct (zip_input_vars _); [|apply confined_ret].
      destruct (forallb _ _); [apply confined_ret | apply confined_raise].
    + intros invar. apply confined_bind; [by apply _create_project_confined|].
      intros; apply confined_ret.
  - intros. by apply confined_call.
Qed.

(** X3.  For a CAS table, [register_model] sends the package made from the
    table and nothing else of a model: no file is uploaded, not even those
    of the [files] argument, and no descriptor is submitted, so that the
    call is the same whatever [files], [train], [test], [valid] and
    [record_packages] are.  With a project that exists and a repository
    that is found, the call is one import of the package under the name of
    the project, for the version ['new'] by default (line 447). *)
Theorem register_model_castable (a : register_args Data) env table :
  a_model a = MCASTable table ->
  let o := register_model R a env in
  Forall sends_no_model (trace o)
  /\ (forall a', same_table_arguments a a' -> register_model R a' env = o)
  /\ (forall p repo,
        project_answer R (a_project a) = Ok (Some p) ->
        repository_answer R (a_repository a) = Ok (Some repo) ->
        let zip := create_package R table (data_argument R a) in
        let version := version_or_new (a_version a) in
        o = Outcome
              (mr_import_model_from_zip R (a_name a) (ByName (a_project a)) zip
                 version)
              env
              (preamble_trace a
               ++ [repository_lookup (a_repository a);
                   EImportModelFromZip (a_name a) (ByName (a_project a)) zip
                     version])).
Proof.
  intros Hmodel o. subst o. split; [|split].
  - apply (register_model_confined sends_no_model); try done.
    intros create repo. unfold register_resolved. rewrite Hmodel.
    by apply register_castable_confined.
  - intros a' (Hm & Hn & Hp & Hr & Hi & Hv & Hf & Hd).
    rewrite !register_model_run.
    assert (Hpre : preamble_trace a' = preamble_trace a).
    { unfold preamble_trace. by rewrite Hi, Hp. }
    assert (Hres : forall create repo,
               register_resolved R a' create repo = register_resolved R a create repo).
    { intros. unfold register_resolved, data_argument.
      by rewrite Hm, Hmodel, Hn, Hp, Hi, Hv, Hd. }
    rewrite Hpre, Hp, Hf, Hr.
    destruct (project_answer R (a_project a)) as [q|]; [|reflexivity].
    destruct (_ && negb _); [reflexivity|]. cbn zeta.
    unfold bind. destruct (find_repository R (a_repository a) env) as [[repo|] env' t];
      cbn [res env_out trace]; [|reflexivity].
    by rewrite Hres.
  - intros p repo Hp Hrepo zip version. subst zip version.
    rewrite register_model_run, Hp. cbn [bool_decide decide_rel andb].
    rewrite bool_decide_eq_false_2 by done. cbn [andb].
    assert (Hfind : find_repository R (a_repository a) env
                    = Outcome (Ok repo) env [repository_lookup (a_repository a)]).
    { by rewrite find_repository_run, Hrepo. }
    cbn zeta. rewrite (bind_run _ _ _ _ _ _ Hfind).
    unfold register_resolved. rewrite Hmodel.
    unfold register_castable, bind, ret, call. cbn [res env_out trace app].
    reflexivity.
Qed.

End RegisterLookups.

(** *** The [version] argument *)

Lemma lower_char_n c :
  PyStr.lower_char c = "n"%char -> is_numeral_char c = false.
Proof.
  destruct c as [[] [] [] [] [] [] [] []]; vm_compute; congruence.
Qed.

Lemma numeral_not_new s :
  all_chars is_numeral_char s = true -> PyStr.lower s <> "new".
Proof.
  destruct s as [|c s]; [discriminate|]. cbn [all_chars PyStr.lower].
  intros Hc [= Hn _]. apply andb_true_iff in Hc as [Hc _].
  apply lower_char_n in Hn. congruence.
Qed.

Lemma all_chars_impl (p q : ascii -> bool) s :
  (forall c, p c = true -> q c = true) ->
  all_chars p s = true -> all_chars q s = true.
Proof.
  intros H. induction s as [|c s IH]; [done|]. cbn [all_chars].
  rewrite !andb_true_iff. intros [Hc Hs]. auto.
Qed.

(** the numeral of an integer holds digits and at most a sign *)
Lemma pretty_Z_numeral (z : Z) : all_chars is_numeral_char (pretty z) = true.
Proof.
  assert (Hpos : forall q : positive,
             all_chars is_numeral_char (pretty (Z.pos q)) = true).
  { intros q. destruct (pretty_sequence (Z.pos q)) as [Hnum _]; [lia|].
    unfold is_number in Hnum. apply andb_true_iff in Hnum as [_ Hd].
    eapply all_chars_impl; [|exact Hd].
    intros c Hc. unfold is_numeral_char. by rewrite Hc. }
  destruct z as [|q|q]; [reflexivity | apply Hpos |].
  change (pretty (Z.neg q)) with ("-" +:+ pretty (Z.pos q)).
  rewrite append_cons, append_nil. cbn [all_chars]. by rewrite Hpos.
Qed.

(** X4.  What [register_model] makes of [version] (lines 374 and 577): it
    creates a new model exactly when the argument is [None], [0], the empty
    string, or a string that reads ['new'] in lower case; any other string
    and any other integer ask for the replacement of an existing version. *)
Theorem version_interpretation (v : pyversion) :
  replaces_version (version_or_new v) = false <->
  v = VNone \/ v = VInt 0
  \/ exists s, v = VStr s /\ (s = "" \/ PyStr.lower s = "new").
Proof.
  unfold replaces_version. rewrite bool_decide_eq_false.
  destruct v as [|s|z].
  - split; [by left|]. intros _ H. by apply H.
  - destruct s as [|c s].
    + split; [|intros _ H; by apply H]. intros _. right; right. eauto.
    + cbn [version_or_new str_version]. split.
      * intros H. right; right. exists (String c s). split; [done|]. right.
        by destruct (decide (PyStr.lower (String c s) = "new")).
      * intros [H | [H | (s' & [= <-] & [H | H])]]; try done. by intros Hn.
  - destruct z as [|q|q].
    + split; [by (right; left)|]. intros _ H. by apply H.
    + cbn [version_or_new str_version]. split.
      * intros H. destruct H. apply numeral_not_new, pretty_Z_numeral.
      * by intros [H | [H | (s' & H & _)]].
    + cbn [version_or_new str_version]. split.
      * intros H. destruct H. apply numeral_not_new, pretty_Z_numeral.
      * by intros [H | [H | (s' & H & _)]].
Qed.

(** *** Examples of the lookups and the dispatch *)

(** a repository that does not exist, with [force=True] and a project that
    does not exist either *)
Lemma register_model_repository_failure_witness :
  let R := demo_registry [] None (Raise (ValueError "no type information")) in
  let a := demo_request (MDict demo_dict) (Some "Unknown") (Some "Nowhere") VNone
             true [] in
  let o := register_model R a ∅ in
  project_answer R (a_project a) = Ok None
  /\ a_force a = true
  /\ res o = Raise (ValueError "Unable to find repository 'Nowhere'")
  /\ trace o = [EGetProject "Unknown"; EGetRepository "Nowhere"]
  /\ no_remote_mutation (trace o).
Proof.
  intros R a o.
  assert (H1 : project_answer R (a_project a) = Ok None) by reflexivity.
  assert (H2 : (None : option restobj) = None -> a_force a = true) by reflexivity.
  split; [exact H1|]. split; [reflexivity|].
  destruct (register_model_repository_failure R a ∅ None H1 H2)
    as (_ & _ & Hnone & Hrest).
  split; [exact (Hnone eq_refl)|].
  destruct Hrest as (Ht & Hm & _); [discriminate|].
  split; [exact Ht | exact Hm].
Defined.

(** a model given as a file name *)
Lemma register_model_unsupported_model_witness :
  let R := demo_registry [] None (Raise (ValueError "no type information")) in
  let a := demo_request (MOther "model.pkl") (Some "Iris") None VNone false [] in
  let o := register_model R a ∅ in
  a_model a = MOther "model.pkl"
  /\ res o
     = Raise (TypeError "Expected an instance of '{}' but received 'model.pkl'.")
  /\ no_remote_mutation (trace o).
Proof.
  intros R a o.
  assert (H1 : a_model a = MOther "model.pkl") by reflexivity.
  split; [exact H1|].
  destruct (register_model_unsupported_model R a ∅ "model.pkl" H1)
    as (_ & Hm & _ & Hres).
  split; [|exact Hm].
  apply (Hres (Some demo_project) demo_repository); [reflexivity | done | reflexivity].
Defined.

(** a CAS table registered with two files: neither is uploaded *)
Lemma register_model_castable_witness :
  let R := demo_registry [] None (Raise (ValueError "no type information")) in
  let a := demo_request (MCASTable "astore") (Some "Iris") None VNone false
             [demo_readme; demo_notes] in
  let o := register_model R a ∅ in
  a_model a = MCASTable "astore"
  /\ a_files a = [demo_readme; demo_notes]
  /\ Forall sends_no_model (trace o)
  /\ res o = Ok (<["name" := PStr "my_model"]> ∅).
Proof.
  intros R a o.
  assert (H1 : a_model a = MCASTable "astore") by reflexivity.
  split; [exact H1|]. split; [reflexivity|].
  destruct (register_model_castable R a ∅ "astore" H1) as (Hsend & _ & Hrun).
  split; [exact Hsend|].
  specialize (Hrun demo_project demo_repository eq_refl eq_refl).
  cbv zeta in Hrun. fold o in Hrun. rewrite Hrun. reflexivity.
Defined.


(** * The limits of the platform on the descriptor of an estimator *)

Lemma append_property_lookup model pr env model' k :
  k <> "properties" ->
  res (append_property model pr env) = Ok model' -> model' !! k = model !! k.
Proof.
  intros Hk. unfold append_property.
  destruct (model !! "properties") as [[]|]; try discriminate.
  intros [= <-]. by rewrite lookup_insert_ne.
Qed.

Lemma record_package_lookup model p env model' k :
  k <> "properties" ->
  res (record_package model p env) = Ok model' -> model' !! k = model !! k.
Proof.
  intros Hk. unfold record_package.
  destruct (PyStr.contains "==" p); [|by intros [= <-]].
  destruct (PyStr.split "==" p) as [|n [|v [|]]]; try discriminate.
  by apply append_property_lookup.
Qed.

Lemma record_packages_lookup packages k :
  k <> "properties" ->
  forall model env model',
    res (record_packages model packages env) = Ok model' ->
    model' !! k = model !! k.
Proof.
  intros Hk. induction packages as [|p rest IH]; intros model env model'; simpl.
  - by intros [= <-].
  - intros H. apply bind_ok_inv in H as (m1 & H1 & H2).
    apply IH in H2. rewrite H2. by eapply record_package_lookup.
Qed.

Section DescriptorLimits.

Context {Data MI : Type}.
Variable R : registry Data MI.

Lemma record_installed_packages_lookup record model files env model' files' k :
  k <> "properties" ->
  res (record_installed_packages R record model files env) = Ok (model', files') ->
  model' !! k = model !! k.
Proof.
  intros Hk. unfold record_installed_packages.
  destruct (record && negb _); [|by intros [= <- _]].
  destruct (installed_packages R) as [packages|]; [|by intros [= <- _]].
  simpl. intros H. apply bind_ok_inv in H as (m1 & H1 & H2).
  injection H2 as <- _.
  apply (record_packages_lookup packages k Hk) in H1. rewrite H1.
  destruct (model !! "properties"); [done|]. by rewrite lookup_insert_ne.
Qed.

Lemma generate_score_code_lookup mi model files env model' files' k :
  k <> "inputVariables" -> k <> "outputVariables" ->
  res (generate_score_code R mi model files env) = Ok (model', files') ->
  model' !! k = model !! k.
Proof.
  intros Hi Ho. unfold generate_score_code.
  repeat match goal with
         | |- context [match ?r with Ok _ => _ | Raise _ => _ end] =>
             destruct r
         end;
    try (intros H; apply except_ValueError_ok in H; by injection H as -> _).
  intros [= <- _]. by rewrite !lookup_insert_ne.
Qed.

(** the estimator branch leaves the description of the [ModelInfo] as it
    is *)
Lemma prepare_estimator_description est name files data train test valid record env pr :
  res (prepare_estimator R est name files data train test valid record env) = Ok pr ->
  p_model pr !! "description"
  = mi_to_dict R (estimator_info R est name data train test valid) !! "description".
Proof.
  unfold prepare_estimator. intros H.
  apply bind_ok_inv in H as (pr0 & H0 & H).
  apply bind_ok_inv in H as ([m1 f1] & H1 & H2).
  injection H2 as <-. cbn [p_model fst].
  apply generate_score_code_lookup with (k := "description") in H1; [|done|done].
  rewrite H1. clear H1. revert H0. unfold before_score_code.
  destruct (statistics_files _ _ _ _ _ _ _) as [name' files1].
  intros H. apply bind_ok_inv in H as ([m2 f2] & H1 & H2).
  injection H2 as <-. cbn [p_model fst].
  apply record_installed_packages_lookup with (k := "description") in H1; [|done].
  rewrite H1. by rewrite lookup_insert_ne.
Qed.

(** the only descriptor that the submission sends to [create_model] is the
    one that it was given *)
Lemma submit_model_descriptor pr project create repo version :
  confined (creates_only (p_model pr)) (submit_model R pr project create repo version).
Proof.
  unfold submit_model.
  apply confined_bind.
  { destruct create; [|apply confined_ret].
    apply confined_bind; [by apply _create_project_confined|].
    intros; apply confined_ret. }
  intros proj. apply confined_bind.
  { destruct (replaces_version version); [|by apply confined_call].
    apply confined_bind; [by apply confined_call|].
    intros [m|]; [|apply confined_raise].
    apply confined_bind; [by apply confined_call|]. intros model.
    apply confined_bind; [by apply confined_call|]. intros; apply confined_ret. }
  intros [model|r]; [|apply confined_raise].
  apply confined_bind; [|intros; apply confined_ret].
  apply confined_for_each. intros f. by apply confined_call.
Qed.

(** with the [ModelInfo] of the specification, what the estimator branch
    hands over is within the limits *)
Lemma prepare_estimator_within_limits est name files data train test valid record env pr :
  model_info_per_spec R ->
  res (prepare_estimator R est name files data train test valid record env) = Ok pr ->
  p_model pr !! "description" = Some (PStr (spec_description est))
  /\ props_of (p_model pr)
     = spec_properties est ++ env_properties (recorded_packages R record files)
  /\ descriptor_within_limits (p_model pr).
Proof.
  intros Hspec Hres.
  destruct (Hspec est name data train test valid) as [Hd Hp].
  pose proof (prepare_estimator_description _ _ _ _ _ _ _ _ _ _ Hres) as Hdesc.
  apply prepare_estimator_ok in Hres as (Hprops & _).
  rewrite Hd in Hdesc. unfold props_of at 2 in Hprops. rewrite Hp in Hprops.
  split; [exact Hdesc|]. split; [exact Hprops|]. split.
  - exists (spec_description est). split; [exact Hdesc|]. apply take_length.
  - rewrite Hprops. apply Forall_app. split.
    + apply Forall_map. apply Forall_forall. intros kv _. split; apply take_length.
    + apply env_properties_within_limits.
Qed.

(** with the [ModelInfo] of the specification, every descriptor that the
    registration of an estimator sends to [create_model] is within the
    limits *)
Lemma register_estimator_within_limits (a : register_args Data) est env :
  model_info_per_spec R ->
  a_model a = MEstimator est ->
  Forall (fun e => forall d project,
            e = ECreateModel d project ->
            d !! "description" = Some (PStr (spec_description est))
            /\ descriptor_within_limits d)
         (trace (register_model R a env)).
Proof.
  intros Hspec Hest.
  apply (register_model_confined R _ a env); try discriminate.
  intros create repo. unfold register_resolved. rewrite Hest.
  apply confined_bind_res.
  - eapply confined_weaken; [|apply prepare_estimator_confined].
    intros [] Hw; done.
  - intros env' pr Hres.
    eapply confined_weaken; [|apply submit_model_descriptor].
    intros e He d project ->. cbn [creates_only] in He. subst d.
    apply (prepare_estimator_within_limits _ _ _ _ _ _ _ _ _ _ Hspec) in Hres
      as (Hd & _ & Hl).
    by split.
Qed.

(** C7.  Every custom property made by [_property] has a name of at most 60
    characters and a value of at most 512 characters; they are the name and
    the value given, cut at these lengths, and unchanged if they are within
    them.  The descriptor that [_sklearn_to_dict] derives from an estimator
    has as its description the text of the estimator cut at 1024 characters,
    and one such property per parameter: the description and the properties
    of the specification.  In [register_model], the properties that the
    estimator branch adds to the descriptor of the [ModelInfo] (one per
    recorded package) are all within the limits.  When the [ModelInfo] is
    the one of the specification, the descriptor that the estimator branch
    produces has the description of the specification, of at most 1024
    characters, and has as custom properties those of the specification
    followed by those of the recorded packages, each with a name of at most
    60 characters and a value of at most 512 characters; and every
    descriptor that the registration of an estimator sends to
    [create_model] is within these limits. *)
Theorem generated_properties_within_limits :
  (forall k v,
      within_limits (_property k v)
      /\ (exists rest, k = prop_name (_property k v) +:+ rest)
      /\ (exists rest, v = prop_value (_property k v) +:+ rest)
      /\ (String.length k <= 60 -> prop_name (_property k v) = k)
      /\ (String.length v <= 512 -> prop_value (_property k v) = v))
  /\ (forall tool model,
        exists d l,
          _sklearn_to_dict tool model !! "description" = Some (PStr d)
          /\ d = PyStr.take 1024 (est_repr model)
          /\ d = spec_description model
          /\ String.length d <= 1024
          /\ _sklearn_to_dict tool model !! "properties" = Some (PProps l)
          /\ l = map (fun kv => _property kv.1 kv.2) (est_params model)
          /\ l = spec_properties model
          /\ Forall within_limits l)
  /\ (forall est name files data train test valid record env pr,
        res (prepare_estimator R est name files data train test valid record env)
        = Ok pr ->
        exists added,
          props_of (p_model pr)
          = props_of (mi_to_dict R (estimator_info R est name data train test valid))
            ++ added
          /\ Forall within_limits added)
  /\ (model_info_per_spec R ->
      (forall est name files data train test valid record env pr,
          res (prepare_estimator R est name files data train test valid record env)
          = Ok pr ->
          p_model pr !! "description" = Some (PStr (spec_description est))
          /\ String.length (spec_description est) <= 1024
          /\ props_of (p_model pr)
             = spec_properties est
               ++ env_properties (recorded_packages R record files)
          /\ Forall within_limits (props_of (p_model pr)))
      /\ (forall a est env d project,
            a_model a = MEstimator est ->
            In (ECreateModel d project) (trace (register_model R a env)) ->
            d !! "description" = Some (PStr (spec_description est))
            /\ String.length (spec_description est) <= 1024
            /\ Forall within_limits (props_of d))).
Proof.
  split; [|split; [|split]].
  - intros k v. split; [apply _property_bounded|].
    split; [apply take_prefix|]. split; [apply take_prefix|].
    split; apply take_short.
  - intros tool model. eexists _, _.
    split; [apply _sklearn_to_dict_description|]. split; [reflexivity|].
    split; [reflexivity|]. split; [apply take_length|].
    split; [apply _sklearn_to_dict_properties|]. split; [reflexivity|].
    split; [reflexivity|].
    apply Forall_map. apply Forall_forall. intros kv _. apply _property_bounded.
  - intros est name files data train test valid record env pr Hres.
    apply prepare_estimator_ok in Hres as (Hp & _).
    eexists. split; [exact Hp|]. apply env_properties_within_limits.
  - intros Hspec. split.
    + intros est name files data train test valid record env pr Hres.
      apply (prepare_estimator_within_limits _ _ _ _ _ _ _ _ _ _ Hspec) in Hres
        as (Hd & Hp & _ & Hl).
      split; [exact Hd|]. split; [apply take_length|]. by split.
    + intros a est env d project Hest Hin.
      pose proof (register_estimator_within_limits a est env Hspec Hest) as Hall.
      rewrite Forall_forall in Hall. apply list_elem_of_In in Hin.
      destruct (Hall _ Hin d project eq_refl) as (Hd & _ & Hl).
      split; [exact Hd|]. split; [apply take_length|exact Hl].
Qed.

End DescriptorLimits.

(** the [ModelInfo] of the small installation is the one of the
    specification *)
Lemma demo_registry_per_spec models packages pymas :
  model_info_per_spec (demo_registry models packages pymas).
Proof.
  intros est name data train test valid.
  unfold estimator_info. cbn [demo_registry mi_to_dict mi_set_variables mi_set_name mi_new].
  rewrite !lookup_insert_ne by done.
  split; [apply _sklearn_to_dict_description | apply _sklearn_to_dict_properties].
Qed.

(** the theorem on the registration of the estimator of the small
    installation: the descriptor sent to [create_model] has the text of the
    estimator as its description, and two properties of the estimator and
    two of the packages, all within the limits *)
Lemma generated_properties_within_limits_witness :
  let R := demo_registry [] (Some demo_packages)
             (Raise (ValueError "no type information")) in
  let a := demo_args (MEstimator demo_estimator) "Iris" VNone false None in
  model_info_per_spec R
  /\ a_model a = MEstimator demo_estimator
  /\ In (ECreateModel (p_model demo_prepared) (ByName (Some "Iris")))
        (trace (register_model R a ∅))
  /\ p_model demo_prepared !! "description"
     = Some (PStr "LogisticRegression(C=1.0)")
  /\ length (props_of (p_model demo_prepared)) = 4
  /\ Forall within_limits (props_of (p_model demo_prepared)).
Proof.
  intros R a.
  assert (H1 : model_info_per_spec R) by apply demo_registry_per_spec.
  assert (H2 : a_model a = MEstimator demo_estimator) by reflexivity.
  assert (H3 : In (ECreateModel (p_model demo_prepared) (ByName (Some "Iris")))
                  (trace (register_model R a ∅))).
  { vm_compute. do 3 right. left. reflexivity. }
  split; [exact H1|]. split; [exact H2|]. split; [exact H3|].
  destruct (generated_properties_within_limits R) as (_ & _ & _ & Hspec).
  destruct (Hspec H1) as [_ Hsent].
  destruct (Hsent a demo_estimator ∅ _ _ H2 H3) as (Hd & _ & Hl).
  split; [exact Hd|]. split; [reflexivity|exact Hl].
Defined.


(** ** [register_model]: the submission (lines 573-604) *)

Section SubmissionFacts.

Context {Data MI : Type}.
Variable R : registry Data MI.

Ltac trace_eq :=
  f_equal; repeat (progress (rewrite <- ?app_assoc; cbn [app])); reflexivity.

Lemma bind_then_ret {A B} (m : M A) (b : B) env :
  bind m (fun _ => ret b) env
  = Outcome (match res (m env) with Ok _ => Ok b | Raise e => Raise e end)
      (env_out (m env)) (trace (m env)).
Proof.
  unfold bind. destruct (m env) as [[a|e] env' t]; cbn; by rewrite ?app_nil_r.
Qed.

Lemma upload_all_ok m files env :
  Forall (fun f => mr_add_model_content R m f = Ok tt) files ->
  upload_all R m files env = Outcome (Ok tt) env (uploads m files).
Proof.
  unfold upload_all. induction 1 as [|f files Hf _ IH]; [reflexivity|].
  cbn [for_each]. rewrite (bind_call_ok _ _ tt) by exact Hf.
  unfold upload_all, uploads in *. by rewrite IH.
Qed.

Lemma upload_all_fail m done f rest e env :
  Forall (fun f => mr_add_model_content R m f = Ok tt) done ->
  mr_add_model_content R m f = Raise e ->
  upload_all R m (done ++ f :: rest) env
  = Outcome (Raise e) env (uploads m (done ++ [f])).
Proof.
  intros Hdone Hf. unfold upload_all.
  induction Hdone as [|g done Hg _ IH]; cbn [app for_each].
  - unfold bind, call. rewrite Hf. reflexivity.
  - rewrite (bind_call_ok _ _ tt) by exact Hg.
    unfold upload_all, uploads in *. by rewrite IH.
Qed.

Lemma upload_all_confined P m files :
  (forall f, P (EAddModelContent m f)) -> confined P (upload_all R m files).
Proof. intros H. apply confined_for_each. intros. by apply confined_call. Qed.

(** the creation of a new model, lines 589-604 *)
Lemma submit_model_new pr project repo version env :
  replaces_version version = false ->
  submit_model R pr project false repo version env
  = match mr_create_model R (p_model pr) (ByName project) with
    | Raise e => Outcome (Raise e) env [ECreateModel (p_model pr) (ByName project)]
    | Ok (NotRestObj r) =>
        Outcome (Raise (not_a_restobj r)) env
          [ECreateModel (p_model pr) (ByName project)]
    | Ok (IsRestObj m) =>
        let o := upload_all R m (p_files pr) env in
        Outcome (match res o with Ok _ => Ok m | Raise e => Raise e end)
          (env_out o) (ECreateModel (p_model pr) (ByName project) :: trace o)
    end.
Proof.
  intros Hv. unfold submit_model. rewrite Hv.
  rewrite (bind_run _ _ env (ByName project) env [] eq_refl).
  cbn [res env_out trace app].
  destruct (mr_create_model R (p_model pr) (ByName project)) as [[m|r]|e].
  - rewrite (bind_call_ok _ _ (IsRestObj m)) by reflexivity.
    cbn [res env_out trace]. fold (upload_all R m (p_files pr)).
    by rewrite bind_then_ret.
  - reflexivity.
  - reflexivity.
Qed.

(** the replacement of a version, lines 577-604 *)
Lemma submit_model_replace pr project repo version env existing m :
  replaces_version version = true ->
  mr_get_model R (p_name pr) = Ok (Some existing) ->
  mr_create_model_version R (p_name pr) = Ok (IsRestObj m) ->
  mr_delete_model_contents R (IsRestObj m) = Ok tt ->
  submit_model R pr project false repo version env
  = let o := upload_all R m (p_files pr) env in
    Outcome (match res o with Ok _ => Ok m | Raise e => Raise e end)
      (env_out o)
      (EGetModel (p_name pr) :: ECreateModelVersion (p_name pr)
         :: EDeleteModelContents (IsRestObj m) :: trace o).
Proof.
  intros Hv Hget Hnew Hdel. unfold submit_model. rewrite Hv.
  rewrite (bind_run _ _ env (ByName project) env [] eq_refl).
  cbn [res env_out trace app].
  assert (Hstep :
            bind (call (EGetModel (p_name pr)) (mr_get_model R (p_name pr)))
              (fun model_obj =>
                 match model_obj with
                 | None =>
                     raise (ValueError
                       ("Unable to update version '" +:+ str_version version
                        +:+ "' of model '" +:+ p_name pr +:+ ".  Model not found."))
                 | Some _ =>
                     do model <-
                       call (ECreateModelVersion (p_name pr))
                         (mr_create_model_version R (p_name pr));
                     call (EDeleteModelContents model)
                       (mr_delete_model_contents R model) ;;
                     ret model
                 end) env
            = Outcome (Ok (IsRestObj m)) env
                [EGetModel (p_name pr); ECreateModelVersion (p_name pr);
                 EDeleteModelContents (IsRestObj m)]).
  { rewrite (bind_call_ok _ _ (Some existing)) by exact Hget.
    rewrite (bind_call_ok _ _ (IsRestObj m)) by exact Hnew.
    rewrite (bind_call_ok _ _ tt) by exact Hdel. reflexivity. }
  rewrite (bind_run _ _ _ _ _ _ Hstep). cbn [res env_out trace app].
  fold (upload_all R m (p_files pr)). by rewrite bind_then_ret.
Qed.

Lemma submit_model_confined (P : event -> Prop) pr project create repo version :
  (forall n r v p, P (ECreateProject n r v p)) ->
  (forall p, P (EUpdateProject p)) ->
  (forall n, P (EGetModel n)) ->
  (forall n, P (ECreateModelVersion n)) ->
  (forall m, P (EDeleteModelContents m)) ->
  (forall m f, P (EAddModelContent m f)) ->
  (replaces_version version = false -> forall d p, P (ECreateModel d p)) ->
  confined P (submit_model R pr project create repo version).
Proof.
  intros Hc Hu Hg Hv Hd Ha Hm. unfold submit_model.
  apply confined_bind.
  { destruct create; [|apply confined_ret].
    apply confined_bind; [by apply _create_project_confined|].
    intros; apply confined_ret. }
  intros project'. apply confined_bind.
  { destruct (replaces_version version).
    - apply confined_bind; [by apply confined_call|].
      intros [existing|]; [|apply confined_raise].
      apply confined_bind; [by apply confined_call|]. intros model.
      apply confined_bind; [by apply confined_call|]. intros; apply confined_ret.
    - apply confined_call. by apply Hm. }
  intros [m|r]; [|apply confined_raise].
  apply confined_bind; [|intros; apply confined_ret].
  apply confined_for_each. intros. by apply confined_call.
Qed.

(** the state of [name], [model] and [files] at line 573, and the trace of
    warnings that led to it *)
Lemma register_model_prepared (a : register_args Data) env p repo pr :
  project_answer R (a_project a) = Ok (Some p) ->
  repository_answer R (a_repository a) = Ok (Some repo) ->
  prepared_by R a env pr ->
  exists tp,
    Forall warning tp
    /\ let o := submit_model R pr (a_project a) false repo
                 (version_or_new (a_version a)) env in
       register_model R a env
       = Outcome (res o) (env_out o)
           (preamble_trace a ++ repository_lookup (a_repository a) :: tp ++ trace o).
Proof.
  intros Hp Hrepo Hpr.
  destruct (register_resolved_prepared R a false repo env pr Hpr) as (tp & Htp & Hrun).
  exists tp. split; [exact Htp|]. cbn zeta in *.
  rewrite register_model_run, Hp.
  rewrite bool_decide_eq_false_2 by done. cbn [andb]. cbn zeta.
  assert (Hfind : find_repository R (a_repository a) env
                  = Outcome (Ok repo) env [repository_lookup (a_repository a)]).
  { by rewrite find_repository_run, Hrepo. }
  rewrite (bind_run _ _ _ _ _ _ Hfind). rewrite Hrun. reflexivity.
Qed.

(** X5.  The creation of a new model, for a dictionary or an estimator, a
    project that exists and a repository that is found.  After the lookups
    and the warnings of the estimator branch, the descriptor is submitted
    once, under the project as the caller named it; then the files are
    uploaded to the model that the repository returned, each once and in
    the order of the list, and that model is the result.  The first upload
    that fails ends the call with its exception: the files before it have
    been uploaded, those after it are not, and nothing is undone.  A result
    of [create_model] that is not a [RestObj] gives the [TypeError] of
    lines 592-595, before any upload. *)
Theorem register_model_uploads (a : register_args Data) env p repo pr :
  project_answer R (a_project a) = Ok (Some p) ->
  repository_answer R (a_repository a) = Ok (Some repo) ->
  prepared_by R a env pr ->
  replaces_version (version_or_new (a_version a)) = false ->
  exists tp,
    Forall warning tp
    /\ let o := register_model R a env in
       let before :=
         preamble_trace a ++ repository_lookup (a_repository a) :: tp
         ++ [ECreateModel (p_model pr) (ByName (a_project a))] in
       let created := mr_create_model R (p_model pr) (ByName (a_project a)) in
       let uploaded m f := mr_add_model_content R m f = Ok tt in
       (forall m,
          created = Ok (IsRestObj m) ->
          Forall (uploaded m) (p_files pr) ->
          o = Outcome (Ok m) env (before ++ uploads m (p_files pr)))
       /\ (forall m done f rest e,
             created = Ok (IsRestObj m) ->
             p_files pr = done ++ f :: rest ->
             Forall (uploaded m) done ->
             mr_add_model_content R m f = Raise e ->
             o = Outcome (Raise e) env (before ++ uploads m (done ++ [f])))
       /\ (forall r,
             created = Ok (NotRestObj r) ->
             o = Outcome (Raise (not_a_restobj r)) env before).
Proof.
  intros Hp Hrepo Hpr Hv.
  destruct (register_model_prepared a env p repo pr Hp Hrepo Hpr) as (tp & Htp & Hrun).
  exists tp. split; [exact Htp|]. cbn zeta in *. rewrite Hrun.
  rewrite submit_model_new by exact Hv. split; [|split].
  - intros m -> Hall. cbn zeta. rewrite upload_all_ok by exact Hall.
    cbn [res env_out trace]. trace_eq.
  - intros m done f rest e -> -> Hall Hf. cbn zeta.
    rewrite (upload_all_fail _ _ _ _ e) by done.
    cbn [res env_out trace]. trace_eq.
  - intros r ->. cbn [res env_out trace]. trace_eq.
Qed.

(** X6.  The replacement of a version (a [version] other than ['new']).
    The descriptor of the model is never submitted, whatever the model and
    the answers of the repository: only files reach it.  For a dictionary
    or an estimator, a project that exists and a model that is found, the
    call makes a new version of the model, deletes the contents of that
    version, and uploads the files to it, in this order; the result is the
    new version. *)
Theorem register_model_replaces_version (a : register_args Data) env :
  replaces_version (version_or_new (a_version a)) = true ->
  let o := register_model R a env in
  Forall (fun e => is_create_model e = false) (trace o)
  /\ (forall p repo pr existing m,
        project_answer R (a_project a) = Ok (Some p) ->
        repository_answer R (a_repository a) = Ok (Some repo) ->
        prepared_by R a env pr ->
        mr_get_model R (p_name pr) = Ok (Some existing) ->
        mr_create_model_version R (p_name pr) = Ok (IsRestObj m) ->
        mr_delete_model_contents R (IsRestObj m) = Ok tt ->
        Forall (fun f => mr_add_model_content R m f = Ok tt) (p_files pr) ->
        exists tp,
          Forall warning tp
          /\ o = Outcome (Ok m) env
                   (preamble_trace a ++ repository_lookup (a_repository a) :: tp
                    ++ [EGetModel (p_name pr); ECreateModelVersion (p_name pr);
                        EDeleteModelContents (IsRestObj m)]
                    ++ uploads m (p_files pr))).
Proof.
  intros Hv o. subst o. split.
  - apply (register_model_confined R (fun e => is_create_model e = false));
      try done.
    intros create repo. unfold register_resolved.
    assert (Hsub : forall pr,
               confined (fun e => is_create_model e = false)
                 (submit_model R pr (a_project a) create repo
                    (version_or_new (a_version a)))).
    { intros pr. apply submit_model_confined; try done. congruence. }
    destruct (a_model a) as [table|est|d|r].
    + by apply register_castable_confined.
    + apply confined_bind; [|intros; apply Hsub].
      eapply confined_weaken; [|apply prepare_estimator_confined].
      by intros [].
    + apply Hsub.
    + apply confined_raise.
  - intros p repo pr existing m Hp Hrepo Hpr Hget Hnew Hdel Hall.
    destruct (register_model_prepared a env p repo pr Hp Hrepo Hpr)
      as (tp & Htp & Hrun).
    exists tp. split; [exact Htp|]. cbn zeta in *. rewrite Hrun.
    rewrite (submit_model_replace _ _ _ _ _ existing m) by done.
    cbn zeta. rewrite upload_all_ok by exact Hall. reflexivity.
Qed.

End SubmissionFacts.

(** three files, of which the repository refuses the second: the first two
    uploads are made, the third is not, and the model stays *)
Lemma register_model_uploads_witness :
  let R := with_uploads
             (demo_registry [] None (Raise (ValueError "no type information")))
             (refusing "notes.txt") in
  let a := demo_request (MDict demo_dict) (Some "Iris") None VNone false
             [demo_readme; demo_notes; demo_license] in
  let pr := Prepared "my_model" demo_dict [demo_readme; demo_notes; demo_license] in
  let m : restobj := <["id" := PStr "m-1"]> ∅ in
  let o := register_model R a ∅ in
  project_answer R (a_project a) = Ok (Some demo_project)
  /\ repository_answer R (a_repository a) = Ok (Some demo_repository)
  /\ prepared_by R a ∅ pr
  /\ replaces_version (version_or_new (a_version a)) = false
  /\ res o = Raise (HTTPError 413)
  /\ In (EAddModelContent m demo_readme) (trace o)
  /\ In (EAddModelContent m demo_notes) (trace o).
Proof.
  intros R a pr m o.
  assert (H1 : project_answer R (a_project a) = Ok (Some demo_project))
    by reflexivity.
  assert (H2 : repository_answer R (a_repository a) = Ok (Some demo_repository))
    by reflexivity.
  assert (H3 : prepared_by R a ∅ pr) by reflexivity.
  assert (H4 : replaces_version (version_or_new (a_version a)) = false)
    by reflexivity.
  repeat (split; [assumption|]).
  destruct (register_model_uploads R a ∅ demo_project demo_repository pr H1 H2 H3 H4)
    as (tp & _ & _ & Hfail & _).
  specialize (Hfail m [demo_readme] demo_notes [demo_license] (HTTPError 413)
                eq_refl eq_refl).
  fold o in Hfail. rewrite Hfail.
  - split; [reflexivity|]. cbn [trace].
    split; apply in_or_app; right; cbn [uploads map app In]; auto.
  - by repeat constructor.
  - reflexivity.
Defined.

(** the version [latest] of a model that the repository holds *)
Lemma register_model_replaces_version_witness :
  let R := demo_registry ["my_model"] None (Raise (ValueError "no type information")) in
  let a := demo_request (MDict demo_dict) (Some "Iris") None (VStr "latest") false
             [demo_readme] in
  let o := register_model R a ∅ in
  replaces_version (version_or_new (a_version a)) = true
  /\ Forall (fun e => is_create_model e = false) (trace o)
  /\ res o = Ok (<["name" := PStr "my_model"]> ∅).
Proof.
  intros R a o.
  assert (H1 : replaces_version (version_or_new (a_version a)) = true)
    by (vm_compute; reflexivity).
  split; [exact H1|].
  destruct (register_model_replaces_version R a ∅ H1) as [Hnone Hrun].
  split; [exact Hnone|].
  assert (Hall : Forall (fun f => mr_add_model_content R (<["name" := PStr "my_model"]> ∅) f
                               = Ok tt) [demo_readme])
    by (by repeat constructor).
  destruct (Hrun demo_project demo_repository (Prepared "my_model" demo_dict [demo_readme])
              (<["name" := PStr "my_model"]> ∅) (<["name" := PStr "my_model"]> ∅)
              eq_refl eq_refl eq_refl eq_refl eq_refl eq_refl Hall)
    as (tp & _ & Heq).
  fold o in Heq. by rewrite Heq.
Defined.


(** ** [register_model]: the branch of an estimator (lines 457-565) *)

Lemma partition_by_out (l : list mas_var) :
  filter (fun v => mv_out v = false) l ++ filter (fun v => mv_out v = true) l ≡ₚ l.
Proof.
  induction l as [|v l IH]; [done|].
  destruct (mv_out v) eqn:E.
  - rewrite filter_cons_False by congruence.
    rewrite (filter_cons_True (fun v => mv_out v = true)) by done.
    rewrite <- Permutation_middle. by constructor.
  - rewrite filter_cons_True by done.
    rewrite (filter_cons_False (fun v => mv_out v = true)) by congruence.
    cbn [app]. by constructor.
Qed.

Lemma named_app name l1 l2 : named name (l1 ++ l2) = named name l1 ++ named name l2.
Proof. apply filter_app. Qed.

Lemma named_absent name l :
  Forall (fun f => f_name f <> name) l -> named name l = [].
Proof.
  induction 1 as [|f l Hf _ IH]; [done|].
  unfold named in *. by rewrite filter_cons_False.
Qed.

Lemma has_file_true name files :
  has_file name files = true <-> exists f, In f files /\ f_name f = name.
Proof.
  unfold has_file. rewrite existsb_exists. split.
  - intros (f & Hin & Hf). exists f. split; [done|]. by apply bool_decide_eq_true in Hf.
  - intros (f & Hin & Hf). exists f. split; [done|]. by apply bool_decide_eq_true.
Qed.

Lemma has_file_snoc name files f :
  f_name f <> name -> has_file name (files ++ [f]) = has_file name files.
Proof.
  intros Hf. rewrite has_file_app. cbn [has_file existsb].
  rewrite bool_decide_eq_false_2 by done. by rewrite !orb_false_r.
Qed.

Section EstimatorFacts.

Context {Data MI : Type}.
Variable R : registry Data MI.

(** X7.  When the PyMAS module and its three score codes are made, the
    block of lines 519-555 appends the three score-code files after the
    files it found, in the order package code, EP code, Python wrapper, and
    records every variable of the module in the descriptor exactly once:
    under [inputVariables] when it is not an output, under
    [outputVariables] when it is, each list in the order of the module.
    The rest of the descriptor stays, and no warning is given. *)
Theorem score_code_generated mi model files env mas code code_cas code_python :
  from_model_info R mi = Ok mas ->
  score_code mas = Ok code ->
  score_code_cas mas = Ok code_cas ->
  score_code_python mas = Ok code_python ->
  exists model' ins outs,
    generate_score_code R mi model files env
    = Outcome (Ok (model', files ++ score_code_files code code_cas code_python))
        env []
    /\ model' !! "inputVariables" = Some (PVars (map mv_metadata ins))
    /\ model' !! "outputVariables" = Some (PVars (map mv_metadata outs))
    /\ ins ++ outs ≡ₚ mas_variables mas
    /\ Forall (fun v => mv_out v = false) ins
    /\ Forall (fun v => mv_out v = true) outs
    /\ sublist ins (mas_variables mas)
    /\ sublist outs (mas_variables mas)
    /\ (forall k, k <> "inputVariables" -> k <> "outputVariables" ->
          model' !! k = model !! k).
Proof.
  intros Hmas H1 H2 H3.
  eexists _, (filter (fun v => mv_out v = false) (mas_variables mas)),
    (filter (fun v => mv_out v = true) (mas_variables mas)).
  split; [|split; [|split; [|split; [|split; [|split; [|split; [|split]]]]]]].
  - unfold generate_score_code. rewrite Hmas, H1, H2, H3.
    unfold ret, score_code_files. by rewrite <- !app_assoc.
  - rewrite lookup_insert_ne by done. apply lookup_insert_eq.
  - apply lookup_insert_eq.
  - apply partition_by_out.
  - apply Forall_forall. intros v Hv. by apply list_elem_of_filter in Hv as [? _].
  - apply Forall_forall. intros v Hv. by apply list_elem_of_filter in Hv as [? _].
  - apply sublist_filter.
  - apply sublist_filter.
  - intros k Hi Ho. by rewrite !lookup_insert_ne by done.
Qed.

(** X8.  The [try] of line 520 does not undo what the block did before the
    exception.  If the second or the third score code raises [ValueError],
    the files appended so far stay in the list that is uploaded, while the
    descriptor gets no variables: the block ends normally with the warning
    of lines 561-565. *)
Theorem partial_score_code_is_kept mi model files env mas code msg :
  from_model_info R mi = Ok mas ->
  score_code mas = Ok code ->
  let run := generate_score_code R mi model files env in
  let kept code_cas :=
    firstn 2 (score_code_files code code_cas "") in
  (score_code_cas mas = Raise (ValueError msg) ->
     run = Outcome (Ok (model, files ++ firstn 1 (score_code_files code "" "")))
             env [EWarn score_code_warning])
  /\ (forall code_cas,
        score_code_cas mas = Ok code_cas ->
        score_code_python mas = Raise (ValueError msg) ->
        run = Outcome (Ok (model, files ++ kept code_cas)) env
                [EWarn score_code_warning]).
Proof.
  intros Hmas H1 run kept. subst run kept. unfold generate_score_code.
  rewrite Hmas, H1. split.
  - intros ->. reflexivity.
  - intros code_cas -> ->. cbn [firstn score_code_files].
    by rewrite <- !app_assoc.
Qed.

(** *** Failures of the branch *)

(** an exception other than [ValueError], raised by [from_model_info], ends
    the branch *)
Lemma prepare_estimator_raises est name files data train test valid record env pr e :
  res (before_score_code R est name files data train test valid record env) = Ok pr ->
  from_model_info R (estimator_info R est name data train test valid) = Raise e ->
  (forall msg, e <> ValueError msg) ->
  res (prepare_estimator R est name files data train test valid record env) = Raise e.
Proof.
  intros Hpr Hmas He. unfold prepare_estimator.
  pose proof (before_score_code_run R est name files data train test valid record env)
    as Hb.
  rewrite Hpr in Hb. rewrite (bind_run _ _ _ _ _ _ Hb). cbn [res].
  unfold bind, generate_score_code. rewrite Hmas.
  destruct e; try reflexivity. by destruct (He msg).
Qed.

(** a package string that has ['=='] but is not of the form
    ['name==version'] ends the branch *)
Lemma prepare_estimator_malformed est name files data train test valid env packages p :
  has_file "requirements.txt" files = false ->
  installed_packages R = Some packages ->
  In p packages ->
  ~ well_formed_package p ->
  exists e,
    res (prepare_estimator R est name files data train test valid true env) = Raise e.
Proof.
  intros Hfile Hpk Hin Hbad.
  destruct (res (prepare_estimator R est name files data train test valid true env))
    as [pr|e] eqn:E; [|by eexists].
  apply prepare_estimator_ok in E as (_ & Hwf & _).
  unfold recorded_packages in Hwf. rewrite Hfile, Hpk in Hwf. cbn in Hwf.
  rewrite Forall_forall in Hwf. destruct Hbad. apply Hwf. by apply list_elem_of_In.
Qed.

(** X9.  Whatever exception ends the estimator branch, [register_model]
    has changed nothing on the server when it raises it: the branch calls
    no service, and it comes before the creation of the project (line 574)
    and of the model.  (The two lemmas above give such exceptions: one
    that [from_model_info] raises and the [try] of line 520 lets through,
    and the failure of line 513 on a package string with two ['=='].)  With
    the project and the repository settled, the exception of the branch is
    the one that the call raises. *)
Theorem estimator_failure_changes_nothing (a : register_args Data) est env e :
  a_model a = MEstimator est ->
  res (prepare_estimator_of R a est env) = Raise e ->
  let o := register_model R a env in
  (exists e', res o = Raise e')
  /\ no_remote_mutation (trace o)
  /\ env_out o = env
  /\ (forall p repo,
        project_answer R (a_project a) = Ok p ->
        (p = None -> a_force a = true) ->
        repository_answer R (a_repository a) = Ok (Some repo) ->
        res o = Raise e).
Proof.
  intros Hmodel Hfail o. subst o. unfold prepare_estimator_of in Hfail.
  rewrite register_model_run.
  destruct (project_answer R (a_project a)) as [p|e0] eqn:Hp.
  2:{ cbn [res env_out trace]. split; [by eexists|]. split; [|split; [done|]].
      - apply preamble_trace_quiet.
      - discriminate. }
  destruct (bool_decide (p = None) && negb (a_force a)) eqn:Hgate.
  { cbn [res env_out trace]. split; [by eexists|]. split; [|split; [done|]].
    - apply preamble_trace_quiet.
    - intros q repo [= <-] Hforce _. exfalso.
      apply andb_true_iff in Hgate as [Hnone Hnot].
      apply bool_decide_eq_true in Hnone. rewrite Hforce in Hnot by done.
      discriminate. }
  assert (Hrun : forall create repo,
             register_resolved R a create repo env
             = Outcome (Raise e) env
                 (trace (prepare_estimator_of R a est env))).
  { intros create repo. unfold register_resolved. rewrite Hmodel.
    unfold bind, prepare_estimator_of. rewrite Hfail.
    destruct (prepare_estimator_confined R est (a_name a) (a_files a)
                (data_argument R a) (a_train a) (a_test a) (a_valid a)
                (a_record_packages a) env) as [_ He].
    by rewrite He. }
  assert (Hquiet : Forall quiet (trace (prepare_estimator_of R a est env))).
  { destruct (prepare_estimator_confined R est (a_name a) (a_files a)
                (data_argument R a) (a_train a) (a_test a) (a_valid a)
                (a_record_packages a) env) as [Ht _].
    eapply Forall_impl; [exact Ht | apply warning_quiet]. }
  assert (Hlookup : Forall quiet [repository_lookup (a_repository a)]).
  { destruct (a_repository a); repeat constructor. }
  pose proof (find_repository_run R (a_repository a) env) as Hfind.
  set (found := match repository_answer R (a_repository a) with
                | Ok (Some r) => Ok r
                | Ok None => Raise (repository_not_found (a_repository a))
                | Raise (HTTPError code) =>
                    if bool_decide (code = 403%Z) then Raise repository_forbidden
                    else Raise (HTTPError code)
                | Raise e => Raise e
                end) in Hfind.
  assert (Hfound : forall repo,
             repository_answer R (a_repository a) = Ok (Some repo) ->
             found = Ok repo).
  { intros repo Hrepo. subst found. by rewrite Hrepo. }
  cbn zeta. destruct found as [repo|e1].
  - rewrite (bind_run _ _ _ _ _ _ Hfind), Hrun. cbn [res env_out trace].
    split; [by eexists|]. split; [|split; [done|]].
    + apply Forall_app. split; [apply preamble_trace_quiet|].
      apply Forall_app. by split.
    + reflexivity.
  - unfold bind. rewrite Hfind. cbn [res env_out trace].
    split; [by eexists|]. split; [|split; [done|]].
    + apply Forall_app. split; [apply preamble_trace_quiet | exact Hlookup].
    + intros q repo _ _ Hrepo. by specialize (Hfound repo Hrepo).
Qed.

(** *** The files that the branch makes *)

Lemma statistics_files_generated est train test valid name files :
  exists made,
    (statistics_files R est train test valid name files).2 = files ++ made
    /\ Forall (fun f => In (f_name f) optional_files
                       /\ has_file (f_name f) files = false) made.
Proof.
  unfold statistics_files.
  destruct (any_split train test valid); [|exists []; by rewrite app_nil_r].
  cbn [fold_left fst snd].
  destruct (has_file "dmcas_lift.json" files) eqn:E1;
    destruct (has_file "dmcas_fitstat.json" files) eqn:E2;
    destruct (has_file "dmcas_roc.json" files) eqn:E3;
    repeat (progress (rewrite ?has_file_snoc by (cbn [f_name]; discriminate);
                      rewrite ?E1, ?E2, ?E3; cbn [negb fst snd]));
    rewrite <- ?app_assoc; cbn [app];
    eexists; (split; [try reflexivity; by rewrite app_nil_r|]);
    repeat first
      [ apply Forall_nil_2
      | apply Forall_cons_2;
        [split; [cbn [f_name optional_files In]; auto 6
                | cbn [f_name]; assumption]|] ].
Qed.

Lemma record_installed_packages_files record model files env model' files' :
  res (record_installed_packages R record model files env) = Ok (model', files') ->
  files' = files
  \/ has_file "requirements.txt" files = false
     /\ exists packages, files' = files ++ [requirements_txt packages].
Proof.
  unfold record_installed_packages.
  destruct (has_file "requirements.txt" files); rewrite ?andb_false_r; cbn [negb].
  { intros [= _ <-]. by left. }
  rewrite andb_true_r. destruct record; [|intros [= _ <-]; by left].
  destruct (installed_packages R) as [packages|]; [|intros [= _ <-]; by left].
  intros H. apply bind_ok_inv in H as (m1 & _ & H). injection H as _ <-.
  right. split; [done|]. by exists packages.
Qed.

(** X10.  The files with which the estimator branch reaches the score-code
    block are the caller's files, unchanged and first, then the pickle of
    the model, which is always added (line 460), then the statistics files
    and [requirements.txt] that the branch made.  The branch makes none of
    these under a name that a file of the caller bears (lines 488 and 501):
    for each such name the files of that name are the caller's alone. *)
Theorem caller_files_take_precedence est name files data train test valid record
    env pr :
  res (before_score_code R est name files data train test valid record env) = Ok pr ->
  exists made,
    p_files pr = files ++ pickle_file R est :: made
    /\ Forall (fun f => In (f_name f) optional_files
                        /\ has_file (f_name f) files = false) made
    /\ (forall n,
          n <> "model.pkl" -> has_file n files = true ->
          named n (p_files pr) = named n files).
Proof.
  intros Hpr.
  assert (Hshape : exists made,
             p_files pr = files ++ pickle_file R est :: made
             /\ Forall (fun f => In (f_name f) optional_files
                                 /\ has_file (f_name f) files = false) made).
  { unfold before_score_code in Hpr.
    destruct (statistics_files_generated est train test valid name
                (files ++ [pickle_file R est])) as (made & Hmade & Hall).
    fold (pickle_file R est) in Hpr.
    destruct (statistics_files _ _ _ _ _ _ _) as [name' files1].
    cbn [snd] in Hmade. subst files1.
    apply bind_ok_inv in Hpr as ([m1 f1] & Hrec & Hret).
    injection Hret as <-. cbn [p_files snd].
    assert (Hweak : forall f,
               has_file (f_name f) (files ++ [pickle_file R est]) = false ->
               has_file (f_name f) files = false).
    { intros f. rewrite has_file_app. by intros [? _]%orb_false_iff. }
    apply record_installed_packages_files in Hrec as [-> | [Hno (packages & ->)]].
    - exists made. rewrite <- app_assoc. split; [done|].
      eapply Forall_impl; [exact Hall|]. intros f [? ?]. auto.
    - exists (made ++ [requirements_txt packages]).
      rewrite <- !app_assoc. split; [done|]. apply Forall_app. split.
      + eapply Forall_impl; [exact Hall|]. intros f [? ?]. auto.
      + apply Forall_cons_2; [|apply Forall_nil_2]. split.
        * cbn [f_name requirements_txt optional_files In]. auto 6.
        * cbn [f_name requirements_txt]. rewrite !has_file_app in Hno.
          apply orb_false_iff in Hno as [Hno _].
          by apply orb_false_iff in Hno as [Hno _]. }
  destruct Hshape as (made & Hfiles & Hall). exists made.
  split; [exact Hfiles|]. split; [exact Hall|].
  intros n Hpkl Hn. rewrite Hfiles, named_app.
  assert (Hnone : named n (pickle_file R est :: made) = []).
  { apply named_absent. constructor; [cbn [f_name pickle_file]; congruence|].
    eapply Forall_impl; [exact Hall|]. intros f [_ Hf] Heq.
    rewrite Heq in Hf. congruence. }
  by rewrite Hnone, app_nil_r.
Qed.

End EstimatorFacts.

(** *** Examples of the branch *)

(** the score code of a module with two inputs and one output *)
Lemma score_code_generated_witness :
  let mas := demo_module (Ok "ds2 score;") in
  let R := demo_registry [] None (Ok mas) in
  from_model_info R demo_dict = Ok mas
  /\ score_code mas = Ok "package score;"
  /\ score_code_cas mas = Ok "ds2 score;"
  /\ score_code_python mas = Ok "def score(x1, x2): pass"
  /\ exists model' outs,
       res (generate_score_code R demo_dict demo_dict [demo_readme] ∅)
       = Ok (model',
             demo_readme
               :: score_code_files "package score;" "ds2 score;"
                    "def score(x1, x2): pass")
       /\ model' !! "outputVariables" = Some (PVars (map mv_metadata outs))
       /\ Forall (fun v => mv_out v = true) outs.
Proof.
  intros mas R. repeat (split; [reflexivity|]).
  destruct (score_code_generated R demo_dict demo_dict [demo_readme] ∅ mas
              "package score;" "ds2 score;" "def score(x1, x2): pass"
              eq_refl eq_refl eq_refl eq_refl)
    as (model' & ins & outs & Hrun & _ & Hout & _ & _ & Houts & _).
  exists model', outs. rewrite Hrun. by split.
Defined.

(** a module whose code for CAS cannot be made: the package code is
    uploaded all the same *)
Lemma partial_score_code_is_kept_witness :
  let mas := demo_module (Raise (ValueError "no type information")) in
  let R := demo_registry [] None (Ok mas) in
  from_model_info R demo_dict = Ok mas
  /\ score_code mas = Ok "package score;"
  /\ score_code_cas mas = Raise (ValueError "no type information")
  /\ generate_score_code R demo_dict demo_dict [demo_readme] ∅
     = Outcome
         (Ok (demo_dict,
              [ demo_readme;
                {| f_name := "dmcas_packagescorecode.sas";
                   f_file := "package score;"; f_role := Some "Score Code" |} ]))
         ∅ [EWarn score_code_warning].
Proof.
  intros mas R. repeat (split; [reflexivity|]).
  destruct (partial_score_code_is_kept R demo_dict demo_dict [demo_readme] ∅ mas
              "package score;" "no type information" eq_refl eq_refl)
    as [Hcas _].
  exact (Hcas eq_refl).
Defined.

(** an installed package whose string has two ['==']: the call fails before
    the project, which does not exist, is created *)
Lemma estimator_failure_changes_nothing_witness :
  let R := demo_registry [] (Some ["scikit-learn==1.0.2"; "pkg==1.0==beta"])
             (Ok (demo_module (Ok "ds2 score;"))) in
  let a := demo_request (MEstimator demo_estimator) (Some "Unknown") None VNone
             true [] in
  let e := ValueError "too many values to unpack (expected 2)" in
  let o := register_model R a ∅ in
  a_model a = MEstimator demo_estimator
  /\ res (prepare_estimator_of R a demo_estimator ∅) = Raise e
  /\ a_force a = true
  /\ res o = Raise e
  /\ no_remote_mutation (trace o).
Proof.
  intros R a e o.
  assert (H1 : a_model a = MEstimator demo_estimator) by reflexivity.
  assert (H2 : res (prepare_estimator_of R a demo_estimator ∅) = Raise e)
    by (vm_compute; reflexivity).
  split; [exact H1|]. split; [exact H2|]. split; [reflexivity|].
  destruct (estimator_failure_changes_nothing R a demo_estimator ∅ e H1 H2)
    as (_ & Hquiet & _ & Hres).
  split; [|exact Hquiet].
  apply (Hres None demo_repository); reflexivity.
Defined.

(** a caller who brings the ROC statistics: the branch makes the two other
    statistics files and leaves that one alone *)
Lemma caller_files_take_precedence_witness :
  let R := demo_registry [] None (Raise (ValueError "no type information")) in
  exists pr,
    res (before_score_code R demo_estimator "my_model" [demo_roc] tt (Some tt)
           None None true ∅) = Ok pr
    /\ named "dmcas_roc.json" (p_files pr) = [demo_roc].
Proof.
  intros R.
  assert (H : exists pr,
             res (before_score_code R demo_estimator "my_model" [demo_roc] tt
                    (Some tt) None None true ∅) = Ok pr)
    by (eexists; vm_compute; reflexivity).
  destruct H as [pr H]. exists pr. split; [exact H|].
  destruct (caller_files_take_precedence R demo_estimator "my_model" [demo_roc] tt
              (Some tt) None None true ∅ pr H) as (made & _ & _ & Hnamed).
  rewrite Hnamed; [reflexivity | discriminate | reflexivity].
Defined.


(** ** [_create_project] (lines 107-172) *)

Lemma bind_ret {A B} (a : A) (f : A -> M B) env : bind (ret a) f env = f a env.
Proof. unfold bind, ret. cbn. by destruct (f a env). Qed.

Lemma get_lower_text d k s : text_lower d k = Some s -> get_lower d k = ret s.
Proof.
  unfold text_lower, get_lower. destruct (d !! k) as [[]|]; congruence.
Qed.

Lemma listed_vars d k l : listed d k = Some l -> vars_of (pyget d k) = l.
Proof.
  unfold listed, pyget. destruct (d !! k) as [[]|]; cbn; congruence.
Qed.

Lemma get_lower_raises d k env :
  text_lower d k = None ->
  get_lower d k env = Outcome (Raise (AttributeError "lower")) env [].
Proof.
  unfold text_lower, get_lower. by destruct (d !! k) as [[]|].
Qed.

Lemma filter_keys_lookup (model : gmap string pyval) k :
  filter (fun kv => kv.1 = "function" \/ kv.1 = "targetLevel") model !! k
  = if decide (k = "function" \/ k = "targetLevel") then model !! k else None.
Proof.
  destruct (decide (k = "function" \/ k = "targetLevel")) as [Hk|Hk].
  - destruct (model !! k) as [v|] eqn:E.
    + by apply map_lookup_filter_Some_2.
    + apply map_lookup_filter_None_2. by left.
  - apply map_lookup_filter_None_2. right. by intros v _.
Qed.

Lemma pyget_insert k v (d : gmap string pyval) : pyget (<[k := v]> d) k = v.
Proof. unfold pyget. by rewrite lookup_insert_eq. Qed.

Lemma pyget_insert_ne k k' v (d : gmap string pyval) :
  k <> k' -> pyget (<[k := v]> d) k' = pyget d k'.
Proof. intros H. unfold pyget. by rewrite lookup_insert_ne. Qed.

(** what lines 163-167 make of the created project *)
Lemma cp_reconcile_spec project properties :
  let r := cp_reconcile project properties in
  variables_agree r.1 properties
  /\ (forall k, k <> "predictionVariable" -> k <> "eventProbabilityVariable" ->
        r.1 !! k = project !! k)
  /\ (variables_agree project properties -> r = (project, false))
  /\ (~ variables_agree project properties -> r.2 = true).
Proof.
  unfold cp_reconcile, variables_agree. cbn [fold_left fst snd].
  rewrite !bool_decide_not.
  destruct (bool_decide (pyget project "predictionVariable"
                         = pyget properties "predictionVariable")) eqn:E1;
    cbn [negb fst snd].
  - apply bool_decide_eq_true in E1.
    destruct (bool_decide (pyget project "eventProbabilityVariable"
                           = pyget properties "eventProbabilityVariable")) eqn:E2;
      cbn [negb fst snd].
    + apply bool_decide_eq_true in E2. split; [done|]. split; [done|].
      split; [done|]. intros H. by destruct H.
    + apply bool_decide_eq_false in E2.
      rewrite pyget_insert, pyget_insert_ne by done. split; [done|].
      split; [intros; by rewrite lookup_insert_ne|].
      split; [by intros [_ ?] | done].
  - apply bool_decide_eq_false in E1. rewrite pyget_insert_ne by done.
    destruct (bool_decide (pyget project "eventProbabilityVariable"
                           = pyget properties "eventProbabilityVariable")) eqn:E2;
      cbn [negb fst snd].
    + apply bool_decide_eq_true in E2.
      rewrite pyget_insert, pyget_insert_ne by done. split; [done|].
      split; [intros; by rewrite lookup_insert_ne|].
      split; [by intros [? _] | done].
    + apply bool_decide_eq_false in E2.
      rewrite pyget_insert, pyget_insert_ne, pyget_insert by done. split; [done|].
      split; [intros; by rewrite !lookup_insert_ne|].
      split; [by intros [? _] | done].
Qed.

(** the keyword arguments, key by key *)
Lemma cp_properties_lookup model f alg outputs k :
  cp_properties model f alg outputs !! k
  = if decide (k = "targetLevel")
    then Some (if bool_decide (pyget model "targetLevel" = PNone)
               then cp_target_level f alg
               else pyget model "targetLevel")
    else if decide (k = "predictionVariable")
    then match outputs with
         | v :: _ =>
             if bool_decide (f = "prediction") then Some (PStr (var_name v))
             else None
         | [] => None
         end
    else if decide (k = "eventProbabilityVariable")
    then match outputs with
         | v :: _ =>
             if bool_decide (f = "prediction") then None
             else Some (PStr (var_name v))
         | [] => None
         end
    else if decide (k = "function") then model !! k else None.
Proof.
  unfold cp_properties.
  set (base := filter (fun kv => kv.1 = "function" \/ kv.1 = "targetLevel") model).
  assert (Hbase : forall j, base !! j
                  = if decide (j = "function" \/ j = "targetLevel")
                    then model !! j else None)
    by (intros; apply filter_keys_lookup).
  set (withvar := match outputs with
                  | [] => base
                  | v :: _ =>
                      if bool_decide (f = "prediction")
                      then <["predictionVariable" := PStr (var_name v)]> base
                      else <["eventProbabilityVariable" := PStr (var_name v)]> base
                  end).
  assert (Hwith : forall j,
             withvar !! j
             = if decide (j = "predictionVariable")
               then match outputs with
                    | v :: _ =>
                        if bool_decide (f = "prediction")
                        then Some (PStr (var_name v)) else None
                    | [] => None
                    end
               else if decide (j = "eventProbabilityVariable")
               then match outputs with
                    | v :: _ =>
                        if bool_decide (f = "prediction") then None
                        else Some (PStr (var_name v))
                    | [] => None
                    end
               else base !! j).
  { intros j. subst withvar.
    destruct (decide (j = "predictionVariable")) as [->|H1];
      [|destruct (decide (j = "eventProbabilityVariable")) as [->|H2]];
      destruct outputs as [|v outputs']; try apply Hbase;
      destruct (bool_decide (f = "prediction"));
      rewrite ?lookup_insert_eq, ?lookup_insert_ne by done;
      try reflexivity; apply Hbase. }
  assert (Hlevel : pyget withvar "targetLevel" = pyget model "targetLevel").
  { unfold pyget at 1. rewrite Hwith. rewrite !decide_False by done.
    fold (pyget base "targetLevel"). apply pyget_filter_target_level. }
  rewrite Hlevel.
  destruct (decide (k = "targetLevel")) as [->|Hk].
  - destruct (bool_decide (pyget model "targetLevel" = PNone)) eqn:E.
    + by rewrite lookup_insert_eq.
    + rewrite Hwith. rewrite !decide_False by done. rewrite Hbase.
      rewrite decide_True by auto. apply bool_decide_eq_false in E.
      unfold pyget in *. by destruct (model !! "targetLevel").
  - assert (Hgoal : withvar !! k
                    = if decide (k = "predictionVariable")
                      then match outputs with
                           | v :: _ =>
                               if bool_decide (f = "prediction")
                               then Some (PStr (var_name v)) else None
                           | [] => None
                           end
                      else if decide (k = "eventProbabilityVariable")
                      then match outputs with
                           | v :: _ =>
                               if bool_decide (f = "prediction") then None
                               else Some (PStr (var_name v))
                           | [] => None
                           end
                      else if decide (k = "function") then model !! k else None).
    { rewrite Hwith.
      destruct (decide (k = "predictionVariable")); [done|].
      destruct (decide (k = "eventProbabilityVariable")); [done|].
      rewrite Hbase.
      destruct (decide (k = "function")) as [->|]; [by rewrite decide_True by auto|].
      rewrite decide_False; [done|]. by intros [?|?]. }
    destruct (bool_decide (pyget model "targetLevel" = PNone));
      rewrite ?lookup_insert_ne by done; exact Hgoal.
Qed.

Section CreateProject.

Context {Data MI : Type}.
Variable R : registry Data MI.

(** [_create_project], in its steps *)
Lemma _create_project_steps name model repo ivars ovars :
  _create_project R name model repo ivars ovars
  = (do function <- get_lower model "function";
     do algorithm <- get_lower model "algorithm";
     let variables :=
       cp_variables ivars model "inputVariables"
       ++ cp_variables ovars model "outputVariables" in
     let properties :=
       cp_properties model function algorithm
         (cp_variables ovars model "outputVariables") in
     do project <-
       call (ECreateProject name repo variables properties)
            (mr_create_project R name repo variables properties);
     let '(project, needs_update) := cp_reconcile project properties in
     if needs_update
     then call (EUpdateProject project) (mr_update_project R project)
     else ret project).
Proof. reflexivity. Qed.

(** X11.  The request that [_create_project] sends for a descriptor whose
    function and algorithm are strings or missing, and whose lists of
    variables are lists or missing.  The variables are the
    inputs followed by the outputs, each list being the argument if it is
    not empty and that of the descriptor otherwise.  The keyword arguments
    are the function of the descriptor, a target level (that of the
    descriptor, or the inferred one if it is missing or [None]), and, if
    there is an output variable, the name of the first one, as
    [predictionVariable] for the function ['prediction'] (in any case of
    letters) and as [eventProbabilityVariable] for any other; never both,
    and nothing else.  The creation is the first call, and at most one
    call, an update of the project, follows it. *)
Theorem create_project_request name model repo ivars ovars env f alg mi mo :
  text_lower model "function" = Some f ->
  text_lower model "algorithm" = Some alg ->
  listed model "inputVariables" = Some mi ->
  listed model "outputVariables" = Some mo ->
  let inputs := match ivars with [] => mi | _ => ivars end in
  let outputs := match ovars with [] => mo | _ => ovars end in
  exists props rest,
    trace (_create_project R name model repo ivars ovars env)
    = ECreateProject name repo (inputs ++ outputs) props :: rest
    /\ props !! "function" = model !! "function"
    /\ props !! "targetLevel"
       = Some (if bool_decide (pyget model "targetLevel" = PNone)
               then cp_target_level f alg
               else pyget model "targetLevel")
    /\ props !! "predictionVariable"
       = match outputs with
         | v :: _ =>
             if bool_decide (f = "prediction") then Some (PStr (var_name v))
             else None
         | [] => None
         end
    /\ props !! "eventProbabilityVariable"
       = match outputs with
         | v :: _ =>
             if bool_decide (f = "prediction") then None
             else Some (PStr (var_name v))
         | [] => None
         end
    /\ (forall k, ~ In k project_keys -> props !! k = None)
    /\ (rest = [] \/ exists project, rest = [EUpdateProject project]).
Proof.
  intros Hf Halg Hmi Hmo inputs outputs. rewrite _create_project_steps.
  rewrite (get_lower_text _ _ _ Hf), bind_ret.
  rewrite (get_lower_text _ _ _ Halg), bind_ret.
  cbn zeta.
  replace (cp_variables ivars model "inputVariables") with inputs
    by (unfold cp_variables; rewrite (listed_vars _ _ _ Hmi); reflexivity).
  replace (cp_variables ovars model "outputVariables") with outputs
    by (unfold cp_variables; rewrite (listed_vars _ _ _ Hmo); reflexivity).
  rewrite trace_bind_call.
  eexists _, _. split; [reflexivity|].
  split; [|split; [|split; [|split; [|split]]]].
  - by rewrite cp_properties_lookup.
  - by rewrite cp_properties_lookup.
  - by rewrite cp_properties_lookup.
  - by rewrite cp_properties_lookup.
  - intros k Hk. unfold project_keys in Hk. cbn [In] in Hk.
    rewrite cp_properties_lookup.
    rewrite !decide_False; [done | | | |]; intros ->; apply Hk; auto.
  - destruct (mr_create_project R _ _ _ _) as [project|e]; [|by left].
    destruct (cp_reconcile _ _) as [project' []]; [right; by eexists | by left].
Qed.

(** X12.  Whether [_create_project] updates the project it created (lines
    160-172), for a descriptor whose lists of variables are lists or
    missing and a call that reaches the creation.  If the project that [mr.create_project] returned reads the
    prediction variable and the event-probability variable as they were
    asked for, it is returned with no further call.  Otherwise one update
    follows, of the project in which both variables read as asked for and
    everything else is as the service returned it, and the result of the
    update is the result. *)
Theorem create_project_update name model repo ivars ovars env vars props rest
    project :
  listed model "inputVariables" <> None ->
  listed model "outputVariables" <> None ->
  trace (_create_project R name model repo ivars ovars env)
  = ECreateProject name repo vars props :: rest ->
  mr_create_project R name repo vars props = Ok project ->
  let o := _create_project R name model repo ivars ovars env in
  (variables_agree project props -> rest = [] /\ res o = Ok project)
  /\ (~ variables_agree project props ->
      exists project',
        rest = [EUpdateProject project']
        /\ res o = mr_update_project R project'
        /\ variables_agree project' props
        /\ (forall k,
              k <> "predictionVariable" -> k <> "eventProbabilityVariable" ->
              project' !! k = project !! k)).
Proof.
  intros _ _. rewrite _create_project_steps.
  destruct (text_lower model "function") as [f|] eqn:Hf.
  2:{ unfold bind at 1. by rewrite (get_lower_raises _ _ _ Hf). }
  rewrite (get_lower_text _ _ _ Hf), bind_ret.
  destruct (text_lower model "algorithm") as [alg|] eqn:Halg.
  2:{ unfold bind at 1. by rewrite (get_lower_raises _ _ _ Halg). }
  rewrite (get_lower_text _ _ _ Halg), bind_ret.
  cbn zeta. rewrite trace_bind_call.
  intros [= <- <- Hrest] Hcreate. rewrite (bind_call_ok _ _ project) by exact Hcreate.
  rewrite Hcreate in Hrest. cbn [res].
  destruct (cp_reconcile_spec project
              (cp_properties model f alg (cp_variables ovars model "outputVariables")))
    as (Hagree & Hkeep & Hsame & Hdiff).
  destruct (cp_reconcile _ _) as [project' needs] eqn:Hrec. cbn [fst snd] in *.
  split.
  - intros Hyes. specialize (Hsame Hyes). injection Hsame as -> ->.
    split; [by rewrite <- Hrest|]. reflexivity.
  - intros Hno. specialize (Hdiff Hno). subst needs.
    exists project'. split; [by rewrite <- Hrest|]. split; [reflexivity|]. by split.
Qed.

End CreateProject.

(** *** Examples of [_create_project] *)

(** a logistic regression with one output: the project is asked for as a
    binary classification with the event probability in [P_1] *)
Lemma create_project_request_witness :
  let R := demo_registry [] None (Raise (ValueError "no type information")) in
  text_lower demo_dict "function" = Some "classification"
  /\ text_lower demo_dict "algorithm" = Some "logistic regression"
  /\ exists props rest,
       trace (_create_project R (Some "Iris2") demo_dict demo_repository []
                [demo_output] ∅)
       = ECreateProject (Some "Iris2") demo_repository [demo_output] props :: rest
       /\ props !! "targetLevel" = Some (PStr "Binary")
       /\ props !! "eventProbabilityVariable" = Some (PStr "P_1")
       /\ props !! "predictionVariable" = None.
Proof.
  intros R.
  assert (H1 : text_lower demo_dict "function" = Some "classification")
    by reflexivity.
  assert (H2 : text_lower demo_dict "algorithm" = Some "logistic regression")
    by reflexivity.
  split; [exact H1|]. split; [exact H2|].
  destruct (create_project_request R (Some "Iris2") demo_dict demo_repository []
              [demo_output] ∅ _ _ [] [] H1 H2 eq_refl eq_refl)
    as (props & rest & Ht & _ & Hlevel & Hpred & Hevent & _).
  exists props, rest. split; [exact Ht|].
  split; [exact Hlevel|]. split; [exact Hevent | exact Hpred].
Defined.

(** the service returns a project without the event-probability variable:
    the project is updated with it *)
Lemma create_project_update_witness :
  let R := demo_registry [] None (Raise (ValueError "no type information")) in
  let props := cp_properties demo_dict "classification" "logistic regression"
                 [demo_output] in
  let project : restobj := <["name" := PStr "Iris2"]> ∅ in
  let project' : restobj :=
    <["eventProbabilityVariable" := PStr "P_1"]> project in
  let o := _create_project R (Some "Iris2") demo_dict demo_repository []
             [demo_output] ∅ in
  trace o
  = [ ECreateProject (Some "Iris2") demo_repository [demo_output] props;
      EUpdateProject project' ]
  /\ mr_create_project R (Some "Iris2") demo_repository [demo_output] props
     = Ok project
  /\ ~ variables_agree project props
  /\ exists updated,
       res o = mr_update_project R updated
       /\ variables_agree updated props.
Proof.
  intros R props project project' o.
  assert (H1 : trace o
               = [ ECreateProject (Some "Iris2") demo_repository [demo_output] props;
                   EUpdateProject project' ])
    by (vm_compute; reflexivity).
  assert (H2 : mr_create_project R (Some "Iris2") demo_repository [demo_output] props
               = Ok project) by reflexivity.
  assert (H3 : ~ variables_agree project props).
  { intros [_ H]. vm_compute in H. discriminate. }
  split; [exact H1|]. split; [exact H2|]. split; [exact H3|].
  assert (H0 : listed demo_dict "inputVariables" <> None
               /\ listed demo_dict "outputVariables" <> None)
    by (split; vm_compute; discriminate).
  destruct (create_project_update R (Some "Iris2") demo_dict demo_repository []
              [demo_output] ∅ _ _ _ _ (proj1 H0) (proj2 H0) H1 H2) as [_ Hupdate].
  destruct (Hupdate H3) as (updated & _ & Hres & Hagree & _).
  exists updated. split; [exact Hres | exact Hagree].
Defined.


(** ** [publish_model] (lines 607-724) *)

Lemma submissions_bind {A B} (m : M A) (f : A -> M B) env :
  submissions (trace (bind m f env))
  = submissions (trace (m env))
    + match res (m env) with
      | Ok a => submissions (trace (f a (env_out (m env))))
      | Raise _ => 0
      end.
Proof.
  rewrite trace_bind, submissions_app. by destruct (res (m env)).
Qed.

Lemma module_deletions_bind {A B} (m : M A) (f : A -> M B) env :
  module_deletions (trace (bind m f env))
  = module_deletions (trace (m env))
    + match res (m env) with
      | Ok a => module_deletions (trace (f a (env_out (m env))))
      | Raise _ => 0
      end.
Proof.
  rewrite trace_bind, module_deletions_app. by destruct (res (m env)).
Qed.

Lemma env_out_bind {A B} (m : M A) (f : A -> M B) env :
  env_out (bind m f env)
  = match res (m env) with
    | Ok a => env_out (f a (env_out (m env)))
    | Raise _ => env_out (m env)
    end.
Proof. unfold bind. by destruct (res (m env)). Qed.

Section PublishExtras.

Variable P : publisher.

(** a request, whatever becomes of it, is at most one submission and no
    deletion *)
Lemma submit_request_count model destination code max_retries replace attempt env :
  let o := submit_request P model destination code max_retries replace attempt env in
  submissions (trace o) <= 1 /\ module_deletions (trace o) = 0 /\ env_out o = env.
Proof.
  assert (Hnil : submissions [] = 0 /\ module_deletions [] = 0) by done.
  destruct Hnil as [Hs Hd].
  unfold submit_request, bind, call. destruct code as [c|]; cbn [res env_out trace app].
  - destruct (mp_publish_model P model destination c); cbn [res env_out trace app];
      rewrite ?submissions_cons, ?module_deletions_cons, ?Hs, ?Hd;
      cbn [is_submission is_module_deletion]; repeat split; lia.
  - destruct (mp_get_destination P destination) as [d|]; cbn [res env_out trace app];
      [|rewrite ?submissions_cons, ?module_deletions_cons, ?Hs, ?Hd;
        cbn [is_submission is_module_deletion]; repeat split; lia].
    case_bool_decide; cbn [res env_out trace app];
      destruct (mm_publish_model P model destination replace _);
      cbn [res env_out trace app];
      rewrite ?submissions_cons, ?module_deletions_cons, ?Hs, ?Hd;
      cbn [is_submission is_module_deletion]; repeat split; lia.
Qed.

(** the deletion of the module and the second request *)
Lemma resubmission_count model destination code max_retries replace name env :
  let o := (call (EDeleteModule name) (mas_delete_module P name) ;;
            submit_request P model destination code max_retries replace 1) env in
  submissions (trace o) <= 1 /\ module_deletions (trace o) = 1 /\ env_out o = env.
Proof.
  assert (Hnil : submissions [] = 0 /\ module_deletions [] = 0) by done.
  destruct Hnil as [Hs0 Hd0].
  destruct (submit_request_count model destination code max_retries replace 1 env)
    as (Hs2 & Hd2 & He2).
  cbn zeta. rewrite submissions_bind, module_deletions_bind, env_out_bind.
  cbn [call res env_out trace].
  rewrite submissions_cons, module_deletions_cons, Hs0, Hd0, Hd2, He2.
  cbn [is_submission is_module_deletion].
  destruct (mas_delete_module P name) as [[]|e]; repeat split; lia.
Qed.

(** X13.  Whatever the services answer, a call to [publish_model] submits
    at most two publishing requests and deletes at most one module; a
    second request is submitted only after a deletion, and without
    [replace] nothing is deleted and at most one request is submitted.  The
    call leaves the environment alone. *)
Theorem publish_model_bounds model destination code max_retries replace env :
  let o := publish_model P model destination code max_retries replace env in
  submissions (trace o) <= 2
  /\ module_deletions (trace o) <= 1
  /\ (module_deletions (trace o) = 0 -> submissions (trace o) <= 1)
  /\ (replace = false -> module_deletions (trace o) = 0)
  /\ env_out o = env.
Proof.
  intros o. subst o. unfold publish_model.
  assert (Hnil : submissions [] = 0 /\ module_deletions [] = 0) by done.
  destruct Hnil as [Hs0 Hd0].
  rewrite submissions_bind, module_deletions_bind, env_out_bind.
  destruct (submit_request_count model destination code max_retries replace 0 env)
    as (Hs1 & Hd1 & He1).
  rewrite Hd1, He1.
  destruct (res (submit_request P model destination code max_retries replace 0 env))
    as [j|e]; [|repeat split; lia].
  destruct (job_is j "completed" && negb (is_mas j)).
  { cbn [call res env_out trace].
    rewrite submissions_cons, module_deletions_cons, Hs0, Hd0.
    cbn [is_submission is_module_deletion]. repeat split; lia. }
  rewrite submissions_bind, module_deletions_bind, env_out_bind.
  assert (Htail : forall j' env',
             submissions (trace (conclude_publication P model j' env')) = 0
             /\ module_deletions (trace (conclude_publication P model j' env')) = 0
             /\ env_out (conclude_publication P model j' env') = env').
  { intros j' env'. destruct (conclude_publication_settled P model j' env')
      as [Ht He]. by destruct (settled_trace _ Ht). }
  destruct (job_is j "failed" && replace && is_mas j) eqn:Hagain.
  - assert (Hreplace : replace = true).
    { apply andb_true_iff in Hagain as [Hagain _].
      by apply andb_true_iff in Hagain as [_ ?]. }
    destruct (resubmission_count model destination code max_retries replace
                (job_publish_name j) env) as (Hs2 & Hd2 & He2).
    rewrite Hd2, He2.
    destruct (res ((call (EDeleteModule (job_publish_name j))
                      (mas_delete_module P (job_publish_name j)) ;;
                    submit_request P model destination code max_retries replace 1)
                     env)) as [j2|e2].
    + destruct (Htail j2 env) as (-> & -> & ->).
      repeat split; try lia. congruence.
    + repeat split; try lia. congruence.
  - cbn [ret res env_out trace]. rewrite Hs0, Hd0.
    destruct (Htail j env) as (-> & -> & ->).
    repeat split; lia.
Qed.


End PublishExtras.

(** *** The publishing log *)

Lemma lstrip_split chars log :
  exists pre,
    log = pre +:+ PyStr.lstrip chars log
    /\ all_chars (fun c => PyStr.mem_char c chars) pre = true.
Proof.
  induction log as [|c log (pre & Hpre & Hall)]; [by exists ""|].
  cbn [PyStr.lstrip]. destruct (PyStr.mem_char c chars) eqn:E.
  - exists (String c pre). rewrite append_cons, <- Hpre. split; [done|].
    cbn [all_chars]. by rewrite E, Hall.
  - by exists "".
Qed.

Lemma lstrip_head chars log c rest :
  PyStr.lstrip chars log = String c rest -> PyStr.mem_char c chars = false.
Proof.
  induction log as [|d log IH]; [discriminate|]. cbn [PyStr.lstrip].
  destruct (PyStr.mem_char d chars) eqn:E; [exact IH|]. by intros [= <- _].
Qed.

Lemma lstrip_chars chars pre s :
  all_chars (fun c => PyStr.mem_char c chars) pre = true ->
  PyStr.lstrip chars (pre +:+ s) = PyStr.lstrip chars s.
Proof.
  induction pre as [|c pre IH]; [by rewrite append_nil|].
  cbn [all_chars]. intros [Hc Hpre]%andb_true_iff.
  rewrite append_cons. cbn [PyStr.lstrip]. rewrite Hc. auto.
Qed.

(** X15.  Line 707 strips from the head of the publishing log every
    character that occurs in ['SUCCESS==='], not the prefix ['SUCCESS===']:
    what is left is a tail of the log that is empty or begins with a
    character other than [S], [U], [C], [E] and [=].  So a log
    ['SUCCESS===' + msg] gives [msg] back exactly when [msg] is empty or
    begins with such a character; otherwise the head of [msg] is stripped
    too.  It is the stripped text that is searched for the URL of the
    module: when none is found in it, the call raises the exception of
    line 714 after the one request for the log. *)
Theorem success_prefix_is_stripped :
  (forall log, exists pre,
      log = pre +:+ PyStr.lstrip success_chars log
      /\ all_chars (fun c => PyStr.mem_char c success_chars) pre = true)
  /\ (forall log c rest,
        PyStr.lstrip success_chars log = String c rest ->
        PyStr.mem_char c success_chars = false)
  /\ (forall msg,
        PyStr.lstrip success_chars (success_chars +:+ msg) = msg <->
        msg = ""
        \/ exists c rest,
             msg = String c rest /\ PyStr.mem_char c success_chars = false)
  /\ PyStr.lstrip success_chars "SUCCESS===Successfully published"
     = "uccessfully published"
  /\ (forall P model j env log,
        job_is j "failed" = false ->
        job_is j "completed" = true ->
        job_publishing_log P j = Ok log ->
        _parse_module_url P (PyStr.lstrip success_chars log) = Ok None ->
        conclude_publication P model j env
        = Outcome (Raise no_module_url) env [ERequestLink j "publishingLog"]).
Proof.
  split; [intros; apply lstrip_split|]. split; [apply lstrip_head|].
  split; [|split; [reflexivity|]].
  - intros msg. rewrite lstrip_chars by reflexivity. split.
    + intros H. destruct msg as [|c rest]; [by left|]. right.
      exists c, rest. split; [done|]. by apply (lstrip_head _ _ _ _ H).
    + intros [-> | (c & rest & -> & Hc)]; [done|].
      cbn [PyStr.lstrip]. by rewrite Hc.
  - intros P model j env log Hf Hc Hlog Hurl. unfold conclude_publication.
    rewrite Hf, Hc. cbn [negb].
    rewrite (bind_call_ok _ _ log) by exact Hlog.
    unfold success_chars in Hurl. unfold bind, local. rewrite Hurl.
    reflexivity.
Qed.




(** ** [update_model_performance] (lines 727-906) *)

Lemma bind_raise {A B} e (f : A -> M B) env :
  bind (raise e) f env = Outcome (Raise e) env [].
Proof. reflexivity. Qed.

Lemma bind_call {A B} e (r : result A) (f : A -> M B) env :
  bind (call e r) f env
  = match r with
    | Ok a =>
        Outcome (res (f a env)) (env_out (f a env)) (e :: trace (f a env))
    | Raise x => Outcome (Raise x) env [e]
    end.
Proof. unfold bind, call. by destruct r. Qed.

Lemma attr_text (o : restobj) k s : o !! k = Some (PStr s) -> attr o k = ret s.
Proof. unfold attr. by intros ->. Qed.

Lemma attr_missing (o : restobj) k :
  (forall s, o !! k <> Some (PStr s)) -> attr o k = raise (AttributeError k).
Proof.
  intros H. unfold attr. destruct (o !! k) as [[]|]; try done. by destruct (H s).
Qed.

Lemma get_lower_missing d k :
  text_lower d k = None -> get_lower d k = raise (AttributeError "lower").
Proof.
  unfold text_lower, get_lower. by destruct (d !! k) as [[]|].
Qed.

Lemma bind_ret_inner {A B C} (a : A) (f : A -> M B) (g : B -> M C) env :
  bind (bind (ret a) f) g env = bind (f a) g env.
Proof.
  unfold bind at 1 3. rewrite bind_ret. reflexivity.
Qed.

Section PerformanceExtras.

Variable W : monitoring.

Ltac stopped :=
  left; rewrite ?bind_raise; cbn [res env_out trace raise];
  eexists _, _; split; [reflexivity | repeat constructor].

(** Either the call stops at the checks of lines 760-821, or the
    definition is found and the call goes on with the data. *)
Lemma update_model_performance_cases columns model label refresh env :
  let o := update_model_performance W columns model label refresh env in
  stops_at_checks o env
  \/ exists model_obj project pd pid,
       definition_found W model model_obj project pd
       /\ model_obj !! "projectId" = Some (PStr pid)
       /\ let o' := monitor_data W columns label (default true refresh) model_obj
                      pd env in
          o = Outcome (res o') (env_out o')
                ([EGetModel model; EGetProject pid; EListPerformanceDefinitions]
                 ++ trace o').
Proof.
  cbn zeta. unfold update_model_performance.
  destruct (swat_available W) eqn:Hswat; cbn [negb]; [|stopped].
  rewrite bind_call.
  destruct (pm_get_model W model) as [[model_obj|]|e0] eqn:Hmodel; [|stopped|stopped].
  destruct (model_obj !! "projectId") as [vpid|] eqn:Hpid;
    [|rewrite (attr_missing model_obj "projectId") by (by rewrite Hpid); stopped].
  destruct vpid as [|pid| |];
    try (rewrite (attr_missing model_obj "projectId") by (by rewrite Hpid); stopped).
  rewrite (attr_text _ _ _ Hpid), bind_ret, bind_call.
  destruct (pm_get_project W pid) as [[project|]|e1] eqn:Hproject;
    [|stopped|stopped].
  destruct (text_lower project "function") as [f|] eqn:Hf;
    [|rewrite (get_lower_missing _ _ Hf); stopped].
  rewrite (get_lower_text _ _ _ Hf), bind_ret.
  case_bool_decide as Hfin; cbn [negb]; [|stopped].
  destruct (text_lower project "targetLevel") as [tl|] eqn:Htl;
    [|rewrite (get_lower_missing _ _ Htl); stopped].
  rewrite (get_lower_text _ _ _ Htl), bind_ret.
  case_bool_decide as Htlin; cbn [negb]; [|stopped].
  destruct (bool_decide (default (PStr "") (project !! "predictionVariable") = PStr "")
            && bool_decide (f = "prediction")) eqn:Hpred; [stopped|].
  destruct (bool_decide
              (default (PStr "") (project !! "eventProbabilityVariable") = PStr "")
            && bool_decide (f = "classification")) eqn:Hevent; [stopped|].
  rewrite bind_call.
  destruct (mm_list_performance_definitions W) as [defs|e2] eqn:Hdefs; [|stopped].
  destruct defs as [|d defs]; [rewrite bind_ret; stopped|].
  destruct (project !! "id") as [vid|] eqn:Hid;
    [|rewrite (attr_missing project "id") by (by rewrite Hid); stopped].
  destruct vid as [|id| |];
    try (rewrite (attr_missing project "id") by (by rewrite Hid); stopped).
  rewrite (attr_text _ _ _ Hid), bind_ret_inner, bind_ret.
  destruct (find (fun p => PyStr.contains id (pd_project_id p)) (d :: defs))
    as [pd|] eqn:Hfind; [|stopped].
  right. exists model_obj, project, pd, pid. split; [|split; [exact Hpid|]].
  - split; [exact Hswat|]. split; [exact Hmodel|]. split; [by exists pid|].
    split.
    + exists f, tl. split; [done|]. split; [by apply list_elem_of_In|].
      split; [done|]. split; [by apply list_elem_of_In|]. split.
      * intros -> Hempty. rewrite !bool_decide_eq_true_2 in Hpred by done.
        discriminate.
      * intros -> Hempty. rewrite !bool_decide_eq_true_2 in Hevent by done.
        discriminate.
    + by exists (d :: defs), id.
  - cbn [res env_out trace app]. reflexivity.
Qed.

(** *** The block of lines 853-906 *)

Lemma with_session_run {A} url (body : M A) env :
  (forall env', env_out (body env') = env') ->
  with_session (call (ECASConnect url) (cas_connect W url)) body env
  = match cas_connect W url with
    | Ok _ =>
        Outcome (res (body env)) env
          (ECASConnect url :: trace (body env) ++ [ECASClose])
    | Raise e => Outcome (Raise e) env [ECASConnect url]
    end.
Proof.
  intros Hbody. unfold with_session. rewrite bind_call.
  destruct (cas_connect W url); [|reflexivity].
  cbn [res env_out trace]. by rewrite Hbody.
Qed.

Lemma upload_performance_table_env caslib table_prefix model_id label env :
  env_out (upload_performance_table W caslib table_prefix model_id label env) = env.
Proof. apply (upload_performance_table_confined W). Qed.

(** the session of a performance definition: the block of lines 861-896 *)
Lemma session_env pd model_id label env :
  env_out
    (with_session (call (ECASConnect (cas_url W pd)) (cas_connect W (cas_url W pd)))
       (upload_performance_table W (pd_data_library pd) (pd_data_prefix pd)
          model_id label) env) = env.
Proof.
  apply (with_session_confined W), upload_performance_table_confined.
Qed.

Lemma monitor_upload_run pd model_id label refresh env :
  let env1 : environ :=
    if sess_verify (current_session W) then env
    else <["SSLREQCERT" := "no"]> env in
  let b :=
    with_session (call (ECASConnect (cas_url W pd)) (cas_connect W (cas_url W pd)))
      (upload_performance_table W (pd_data_library pd) (pd_data_prefix pd)
         model_id label) env1 in
  monitor_upload W pd model_id label refresh env
  = match res b with
    | Raise e => Outcome (Raise e) env1 (trace b)
    | Ok tbl =>
        let env2 : environ :=
          match env !! "SSLREQCERT" with
          | Some v => <["SSLREQCERT" := v]> env1
          | None => env1
          end in
        if refresh
        then Outcome
               (match mm_execute_performance_definition W (pd_obj pd) with
                | Ok _ => Ok tbl
                | Raise e => Raise e
                end)
               env2 (trace b ++ [EExecutePerformanceDefinition (pd_obj pd)])
        else Outcome (Ok tbl) env2 (trace b)
    end.
Proof.
  intros env1 b. unfold monitor_upload.
  destruct (certificate_override_outcome (sess_verify (current_session W))
              (with_session
                 (call (ECASConnect (cas_url W pd)) (cas_connect W (cas_url W pd)))
                 (upload_performance_table W (pd_data_library pd) (pd_data_prefix pd)
                    model_id label))
              env (fun env' => session_env pd model_id label env'))
    as (Hr & Ht & He).
  fold env1 in Hr, Ht, He. fold b in Hr, Ht, He.
  unfold bind at 1. rewrite Hr, Ht, He.
  destruct (res b) as [tbl|e]; [|reflexivity].
  destruct refresh.
  - rewrite bind_call. destruct (mm_execute_performance_definition W (pd_obj pd));
      cbn [res env_out trace ret]; by rewrite ?app_nil_r.
  - rewrite bind_ret. cbn [res env_out trace ret]. by rewrite app_nil_r.
Qed.

Lemma upload_performance_table_run caslib table_prefix model_id label env :
  upload_performance_table W caslib table_prefix model_id label env
  = match cas_setsessopt W with
    | Raise e => Outcome (Raise e) env [ECASSetSessOpt]
    | Ok _ =>
        match cas_tableinfo W caslib with
        | Raise e => Outcome (Raise e) env [ECASSetSessOpt; ECASTableInfo caslib]
        | Ok tables =>
            let name :=
              performance_table_name table_prefix
                (next_sequence table_prefix model_id tables) label model_id in
            Outcome
              (match cas_upload W name caslib with
               | Raise e => Raise e
               | Ok None =>
                   Raise (RuntimeError "Unable to upload performance data to CAS.")
               | Ok (Some tbl) => Ok tbl
               end)
              env [ECASSetSessOpt; ECASTableInfo caslib; ECASUpload name caslib]
        end
    end.
Proof.
  unfold upload_performance_table. rewrite bind_call.
  destruct (cas_setsessopt W) as [[]|e]; [|reflexivity].
  rewrite bind_call. destruct (cas_tableinfo W caslib) as [tables|e]; [|reflexivity].
  cbn zeta. rewrite bind_call.
  destruct (cas_upload W _ caslib) as [[tbl|]|e]; reflexivity.
Qed.

(** the trace of the session: the connection first; and if the connection
    is made, the end of the session last *)
Lemma session_trace pd model_id label env :
  let b :=
    with_session (call (ECASConnect (cas_url W pd)) (cas_connect W (cas_url W pd)))
      (upload_performance_table W (pd_data_library pd) (pd_data_prefix pd)
         model_id label) env in
  exists middle,
    Forall in_session middle
    /\ ((exists e, cas_connect W (cas_url W pd) = Raise e
                  /\ b = Outcome (Raise e) env [ECASConnect (cas_url W pd)])
        \/ (cas_connect W (cas_url W pd) = Ok tt
            /\ trace b = ECASConnect (cas_url W pd) :: middle ++ [ECASClose]
            /\ forall tbl,
                 res b = Ok tbl ->
                 exists name,
                   In (ECASUpload name (pd_data_library pd)) middle
                   /\ cas_upload W name (pd_data_library pd) = Ok (Some tbl))).
Proof.
  cbn zeta.
  rewrite with_session_run by (intros; apply upload_performance_table_env).
  destruct (cas_connect W (cas_url W pd)) as [[]|e].
  2:{ exists []. split; [constructor|]. left. by exists e. }
  rewrite upload_performance_table_run.
  destruct (cas_setsessopt W) as [[]|e1].
  2:{ eexists. split; [|right; split; [done|]; split; [reflexivity|]].
      - by repeat constructor.
      - discriminate. }
  destruct (cas_tableinfo W (pd_data_library pd)) as [tables|e2].
  2:{ eexists. split; [|right; split; [done|]; split; [reflexivity|]].
      - by repeat constructor.
      - discriminate. }
  cbn zeta. eexists. split; [|right; split; [done|]; split; [reflexivity|]].
  - by repeat constructor.
  - cbn [res]. intros tbl Hres. eexists. split; [right; right; by left|].
    destruct (cas_upload W _ _) as [[tbl'|]|e3]; by inversion Hres.
Qed.

Lemma not_cas_lookup e : is_lookup e -> ~ is_cas e.
Proof. destruct e; cbn; tauto. Qed.

(** what the data step does to the environment *)
Lemma monitor_data_env columns label refresh model_obj pd env :
  let o := monitor_data W columns label refresh model_obj pd env in
  env_out o = env
  \/ (sess_verify (current_session W) = false
      /\ env_out o = <["SSLREQCERT" := "no"]> env
      /\ In (ECASConnect (cas_url W pd)) (trace o)
      /\ (forall v tbl, env !! "SSLREQCERT" = Some v -> res o <> Ok tbl)).
Proof.
  cbn zeta. unfold monitor_data.
  destruct (negb _); [by left|]. destruct (negb _); [by left|].
  destruct (model_obj !! "id") as [vid|] eqn:Hid;
    [|rewrite (attr_missing model_obj "id") by (by rewrite Hid); by left].
  destruct vid as [|model_id| |];
    try (rewrite (attr_missing model_obj "id") by (by rewrite Hid); by left).
  rewrite (attr_text _ _ _ Hid), bind_ret, monitor_upload_run. cbn zeta.
  set (env1 := if sess_verify (current_session W) then env
               else <["SSLREQCERT" := "no"]> env).
  destruct (session_trace pd model_id label env1) as (middle & _ & Hb).
  cbn zeta in Hb.
  set (b := with_session _ _ env1) in *.
  assert (Hconnect : In (ECASConnect (cas_url W pd)) (trace b)).
  { destruct Hb as [(e & _ & ->) | (_ & -> & _)]; by left. }
  assert (Henv2 : forall v, env !! "SSLREQCERT" = Some v ->
                            <["SSLREQCERT" := v]> env1 = env).
  { intros v Hv. subst env1. destruct (sess_verify _); [by apply insert_id|].
    rewrite insert_insert_eq. by apply insert_id. }
  destruct (sess_verify (current_session W)) eqn:Hverify.
  - left. subst env1.
    destruct (res b); [|reflexivity].
    destruct refresh; cbn [env_out];
      (destruct (env !! "SSLREQCERT") as [v|] eqn:Hv; [by apply Henv2 | done]).
  - destruct (res b) as [tbl|e] eqn:Hres.
    + destruct (env !! "SSLREQCERT") as [v|] eqn:Hv.
      * left. destruct refresh; cbn [env_out]; by apply Henv2.
      * right. split; [done|]. subst env1.
        destruct refresh; cbn [env_out trace res];
          (split; [done|]); (split; [|discriminate]);
          rewrite ?in_app_iff; auto.
    + right. split; [done|]. cbn [env_out trace res]. subst env1.
      split; [done|]. split; [done|]. discriminate.
Qed.

(** X16.  What a call to [update_model_performance] does to the
    environment of the process.  It leaves every variable but [SSLREQCERT]
    alone, and [SSLREQCERT] is as it was or is ['no'].  Nothing changes if
    the session verifies certificates, or if the call does not come to open
    a CAS session, or if the variable was set before and the call ends
    normally. *)
Theorem update_model_performance_environment columns model label refresh env :
  let o := update_model_performance W columns model label refresh env in
  (env_out o = env \/ env_out o = <["SSLREQCERT" := "no"]> env)
  /\ (forall k, k <> "SSLREQCERT" -> env_out o !! k = env !! k)
  /\ (sess_verify (current_session W) = true -> env_out o = env)
  /\ (Forall (fun e => ~ is_cas e) (trace o) -> env_out o = env)
  /\ (forall v tbl,
        env !! "SSLREQCERT" = Some v -> res o = Ok tbl -> env_out o = env).
Proof.
  intros o.
  assert (Hcases :
            env_out o = env
            \/ (sess_verify (current_session W) = false
                /\ env_out o = <["SSLREQCERT" := "no"]> env
                /\ (exists url, In (ECASConnect url) (trace o)))).
  { subst o.
    destruct (update_model_performance_cases columns model label refresh env)
      as [(e & t & -> & _) | (mo & pr & pd & pid & _ & _ & ->)]; [by left|].
    cbn [env_out trace].
    destruct (monitor_data_env columns label (default true refresh) mo pd env)
      as [He | (Hv & He & Hin & _)]; [by left|].
    right. split; [done|]. split; [done|]. exists (cas_url W pd).
    apply in_or_app. by right. }
  split; [|split; [|split; [|split]]].
  - destruct Hcases as [? | (_ & ? & _)]; auto.
  - intros k Hk. destruct Hcases as [-> | (_ & -> & _)]; [done|].
    by rewrite lookup_insert_ne.
  - intros Hverify. destruct Hcases as [? | (Hno & _)]; [done | congruence].
  - intros Hnone. destruct Hcases as [? | (_ & _ & url & Hin)]; [done|].
    rewrite Forall_forall in Hnone. apply list_elem_of_In in Hin.
    by destruct (Hnone _ Hin).
  - intros v tbl Hv Hres.
    exact (update_model_performance_restores W columns model label refresh v env tbl
             Hv Hres).
Qed.

(** *** The checks and the data *)

Lemma missing_columns_In expected columns c :
  In c (missing_columns expected columns) <-> In c expected /\ ~ In c columns.
Proof.
  unfold missing_columns. rewrite <- !list_elem_of_In, list_elem_of_filter.
  tauto.
Qed.

Lemma missing_columns_nil expected columns :
  missing_columns expected columns = [] <-> columns_present expected columns.
Proof.
  unfold columns_present. split.
  - intros Hnil c Hc. destruct (decide (c ∈ columns)) as [H|H];
      [by apply list_elem_of_In|].
    assert (Hin : In c (missing_columns expected columns)).
    { apply missing_columns_In. split; [done|]. by rewrite <- list_elem_of_In. }
    rewrite Hnil in Hin. destruct Hin.
  - intros Hall. destruct (missing_columns expected columns) as [|c l] eqn:E; [done|].
    assert (Hin : In c (missing_columns expected columns)) by (rewrite E; by left).
    apply missing_columns_In in Hin as [Hc Hnot]. destruct Hnot. by apply Hall.
Qed.

(** the data step stops at the columns or at the id of the model, or goes
    on to the upload *)
Lemma monitor_data_cases columns label refresh model_obj pd env :
  let o := monitor_data W columns label refresh model_obj pd env in
  (exists e, o = Outcome (Raise e) env [])
  \/ (columns_present (pd_input_variables pd) columns
      /\ (pd_score_execution_required pd = false ->
          columns_present (pd_output_variables pd) columns)
      /\ exists model_id,
           model_obj !! "id" = Some (PStr model_id)
           /\ o = monitor_upload W pd model_id label refresh env).
Proof.
  cbn zeta. unfold monitor_data.
  case_bool_decide as Hin; cbn [negb]; [|left; by eexists].
  case_bool_decide as Hout; cbn [negb]; [|left; by eexists].
  destruct (model_obj !! "id") as [vid|] eqn:Hid;
    [|rewrite (attr_missing model_obj "id") by (by rewrite Hid); left; by eexists].
  destruct vid as [|model_id| |];
    try (rewrite (attr_missing model_obj "id") by (by rewrite Hid); left; by eexists).
  right. split; [by apply missing_columns_nil|]. split.
  - intros Hreq. rewrite Hreq in Hout. by apply missing_columns_nil.
  - exists model_id. split; [done|]. by rewrite (attr_text _ _ _ Hid), bind_ret.
Qed.

(** the call stops at a check, with lookups behind it, or uploads *)
Lemma update_model_performance_shape columns model label refresh env :
  let o := update_model_performance W columns model label refresh env in
  (Forall is_lookup (trace o) /\ exists e, res o = Raise e)
  \/ exists model_obj project pd model_id pre,
       definition_found W model model_obj project pd
       /\ columns_present (pd_input_variables pd) columns
       /\ (pd_score_execution_required pd = false ->
           columns_present (pd_output_variables pd) columns)
       /\ model_obj !! "id" = Some (PStr model_id)
       /\ Forall is_lookup pre
       /\ let m := monitor_upload W pd model_id label (default true refresh) env in
          o = Outcome (res m) (env_out m) (pre ++ trace m).
Proof.
  cbn zeta.
  destruct (update_model_performance_cases columns model label refresh env)
    as [(e & t & -> & Ht) | (mo & pr & pd & pid & Hfound & Hpid & ->)].
  { left. split; [done | by eexists]. }
  destruct (monitor_data_cases columns label (default true refresh) mo pd env)
    as [(e & ->) | (Hin & Hout & model_id & Hid & ->)].
  - left. cbn [res trace]. split; [by repeat constructor | by eexists].
  - right.
    exists mo, pr, pd, model_id,
      [EGetModel model; EGetProject pid; EListPerformanceDefinitions].
    split; [done|]. split; [done|]. split; [done|]. split; [done|].
    split; [by repeat constructor | reflexivity].
Qed.

(** with the definition found, the call is the data step after the three
    lookups *)
Lemma update_model_performance_found columns model label refresh env model_obj
    project pd :
  definition_found W model model_obj project pd ->
  exists pid,
    model_obj !! "projectId" = Some (PStr pid)
    /\ update_model_performance W columns model label refresh env
       = let o' := monitor_data W columns label (default true refresh) model_obj
                     pd env in
         Outcome (res o') (env_out o')
           ([EGetModel model; EGetProject pid; EListPerformanceDefinitions]
            ++ trace o').
Proof.
  intros (Hswat & Hmodel & (pid & Hpid & Hproject)
          & (f & tl & Hf & Hfin & Htl & Htlin & Hpred & Hevent)
          & (defs & id & Hdefs & Hid & Hfind)).
  exists pid. split; [exact Hpid|].
  unfold update_model_performance. rewrite Hswat. cbn [negb].
  rewrite bind_call, Hmodel. rewrite (attr_text _ _ _ Hpid), bind_ret.
  rewrite bind_call, Hproject.
  rewrite (get_lower_text _ _ _ Hf), bind_ret.
  rewrite bool_decide_eq_true_2 by (by apply list_elem_of_In). cbn [negb].
  rewrite (get_lower_text _ _ _ Htl), bind_ret.
  rewrite bool_decide_eq_true_2 by (by apply list_elem_of_In). cbn [negb].
  assert (H1 : bool_decide
                 (default (PStr "") (project !! "predictionVariable") = PStr "")
               && bool_decide (f = "prediction") = false).
  { apply andb_false_iff. destruct (decide (f = "prediction")) as [Hp|Hp].
    - left. apply bool_decide_eq_false. by apply Hpred.
    - right. by apply bool_decide_eq_false. }
  assert (H2 : bool_decide
                 (default (PStr "") (project !! "eventProbabilityVariable")
                  = PStr "")
               && bool_decide (f = "classification") = false).
  { apply andb_false_iff. destruct (decide (f = "classification")) as [Hp|Hp].
    - left. apply bool_decide_eq_false. by apply Hevent.
    - right. by apply bool_decide_eq_false. }
  rewrite H1, H2. rewrite bind_call, Hdefs.
  destruct defs as [|d defs]; [discriminate|].
  rewrite (attr_text _ _ _ Hid), bind_ret_inner, bind_ret, Hfind.
  cbn [res env_out trace app]. reflexivity.
Qed.

Lemma lookup_not_session e : is_lookup e -> ~ (is_cas e \/ is_execution e).
Proof. destruct e; cbn; tauto. Qed.

(** X17.  A call to [update_model_performance] opens no CAS session, and
    so uploads nothing and executes no definition, unless every check has
    passed: [swat] is there, the model and its project are found, the
    function and the target level of the project are supported and the
    variable that goes with the function is named, a performance definition
    is found for the project, the data have every input column of the
    definition, and also every output column unless CAS is to score the
    data, and the model has an id. *)
Theorem no_cas_session_unless_checked columns model label refresh env e :
  In e (trace (update_model_performance W columns model label refresh env)) ->
  is_cas e \/ is_execution e ->
  exists model_obj project pd,
    definition_found W model model_obj project pd
    /\ columns_present (pd_input_variables pd) columns
    /\ (pd_score_execution_required pd = false ->
        columns_present (pd_output_variables pd) columns)
    /\ exists model_id, model_obj !! "id" = Some (PStr model_id).
Proof.
  intros Hin He.
  destruct (update_model_performance_shape columns model label refresh env)
    as [[Ht _] | (mo & pr & pd & model_id & pre & Hfound & Hi & Ho & Hid & _)].
  - rewrite Forall_forall in Ht. apply list_elem_of_In in Hin.
    by destruct (lookup_not_session e (Ht e Hin)).
  - exists mo, pr, pd. repeat (split; [done|]). by exists model_id.
Qed.


(** *** The session and the execution of the definition *)

(** the three shapes of the trace of the upload step *)
Lemma monitor_upload_trace pd model_id label refresh env :
  let m := monitor_upload W pd model_id label refresh env in
  let url := cas_url W pd in
  exists middle,
    Forall in_session middle
    /\ ((exists e, cas_connect W url = Raise e
                  /\ trace m = [ECASConnect url] /\ res m = Raise e)
        \/ (cas_connect W url = Ok tt
            /\ ((trace m = ECASConnect url :: middle ++ [ECASClose]
                 /\ forall tbl, res m = Ok tbl ->
                                refresh = false /\ uploaded W tbl middle)
                \/ (refresh = true
                    /\ trace m
                       = ECASConnect url :: middle
                         ++ [ECASClose; EExecutePerformanceDefinition (pd_obj pd)]
                    /\ exists tbl0,
                         uploaded W tbl0 middle
                         /\ forall tbl, res m = Ok tbl -> tbl = tbl0)))).
Proof.
  cbn zeta. rewrite monitor_upload_run. cbn zeta.
  set (env1 := if sess_verify (current_session W) then env
               else <["SSLREQCERT" := "no"]> env).
  destruct (session_trace pd model_id label env1) as (middle & Hmid & Hb).
  cbn zeta in Hb. set (b := with_session _ _ env1) in *.
  exists middle. split; [exact Hmid|].
  destruct Hb as [(e & Hc & Hb) | (Hc & Ht & Hup)].
  - left. exists e. rewrite Hb. cbn [res trace]. by repeat split.
  - right. split; [exact Hc|].
    destruct (res b) as [tbl|e] eqn:Hres.
    + destruct (Hup tbl eq_refl) as (name & Hin & Hcall).
      assert (Huploaded : uploaded W tbl middle) by (by exists name, (pd_data_library pd)).
      destruct refresh.
      * right. split; [done|]. cbn [trace res]. rewrite Ht. split.
        { cbn [app]. by rewrite <- app_assoc. }
        exists tbl. split; [done|]. intros tbl'.
        by destruct (mm_execute_performance_definition W (pd_obj pd)); intros [= <-].
      * left. cbn [trace res]. split; [exact Ht|]. by intros tbl' [= <-].
    + left. cbn [trace res]. split; [exact Ht|]. discriminate.
Qed.

Lemma in_session_not_execution e : in_session e -> ~ is_execution e.
Proof. destruct e; cbn; tauto. Qed.

(** X19.  The CAS session and the execution of the performance
    definition, in every call to [update_model_performance].  A session
    that was opened is closed, whether the upload went through or raised.
    The definition is executed only if [refresh] is not [False], only after
    a table was uploaded, and as the last call; and a call that ends
    normally has executed the definition exactly when [refresh] is not
    [False] ([None] stands for [True], line 768). *)
Theorem session_is_closed_and_refresh_is_last columns model label refresh env :
  let o := update_model_performance W columns model label refresh env in
  (forall url,
     In (ECASConnect url) (trace o) -> cas_connect W url = Ok tt ->
     In ECASClose (trace o))
  /\ (forall d,
        In (EExecutePerformanceDefinition d) (trace o) ->
        refresh <> Some false
        /\ last (trace o) = Some (EExecutePerformanceDefinition d)
        /\ exists tbl, uploaded W tbl (trace o))
  /\ (forall tbl,
        res o = Ok tbl ->
        uploaded W tbl (trace o)
        /\ (refresh <> Some false <->
            exists d, In (EExecutePerformanceDefinition d) (trace o))).
Proof.
  intros o. subst o.
  destruct (update_model_performance_shape columns model label refresh env)
    as [[Ht (e & He)]
       | (mo & pr & pd & model_id & pre & _ & _ & _ & _ & Hpre & Hrun)].
  { rewrite Forall_forall in Ht. split; [|split].
    - intros url Hin _. apply list_elem_of_In in Hin. by destruct (Ht _ Hin).
    - intros d Hin. apply list_elem_of_In in Hin. by destruct (Ht _ Hin).
    - intros tbl Hres. congruence. }
  cbn zeta in Hrun. rewrite Hrun. cbn [res trace].
  destruct (monitor_upload_trace pd model_id label (default true refresh) env)
    as (middle & Hmid & Hm).
  cbn zeta in Hm. set (m := monitor_upload _ _ _ _ _ _) in *.
  set (url := cas_url W pd) in *.
  assert (Hpre_no : forall x, In x pre -> is_lookup x).
  { intros x Hx. rewrite Forall_forall in Hpre. apply Hpre. by apply list_elem_of_In. }
  assert (Hmid_no : forall x, In x middle -> in_session x).
  { intros x Hx. rewrite Forall_forall in Hmid. apply Hmid. by apply list_elem_of_In. }
  assert (Hwider : forall tbl, uploaded W tbl middle ->
                               forall a b, uploaded W tbl (pre ++ a :: middle ++ b)).
  { intros tbl (name & caslib & Hin & Hcall) a b. exists name, caslib.
    split; [|done]. rewrite in_app_iff. right. right. rewrite in_app_iff. by left. }
  destruct Hm as [(e & Hc & Ht & Hres)
                 | (Hc & [(Ht & Hok) | (Hr & Ht & tbl0 & Hup & Hsame)])];
    rewrite Ht.
  - split; [|split].
    + intros url' [Hin | [Hin | []]]%in_app_iff Hok.
      * by destruct (Hpre_no _ Hin).
      * injection Hin as <-. congruence.
    + intros d [Hin | [Hin | []]]%in_app_iff; [by destruct (Hpre_no _ Hin) | done].
    + intros tbl Hok. congruence.
  - split; [|split].
    + intros url' _ _. rewrite !in_app_iff. right. right. rewrite in_app_iff.
      right. by left.
    + intros d [Hin | [Hin | [Hin | [Hin | []]]%in_app_iff]]%in_app_iff;
        [by destruct (Hpre_no _ Hin) | done | | done].
      by destruct (Hmid_no _ Hin).
    + intros tbl Hres. destruct (Hok tbl Hres) as [Hrefresh Hup].
      split; [by apply Hwider|]. split.
      * intros Hne. destruct refresh as [[]|]; try done.
      * intros (d & [Hin | [Hin | [Hin | [Hin | []]]%in_app_iff]]%in_app_iff);
          [by destruct (Hpre_no _ Hin) | done | | done].
        by destruct (Hmid_no _ Hin).
  - assert (Hne : refresh <> Some false) by (by destruct refresh as [[]|]).
    assert (Hlast : last (pre ++ ECASConnect url :: middle
                          ++ [ECASClose; EExecutePerformanceDefinition (pd_obj pd)])
                    = Some (EExecutePerformanceDefinition (pd_obj pd))).
    { assert (Heq : pre ++ ECASConnect url :: middle
                      ++ [ECASClose; EExecutePerformanceDefinition (pd_obj pd)]
                    = (pre ++ ECASConnect url :: middle ++ [ECASClose])
                      ++ [EExecutePerformanceDefinition (pd_obj pd)]).
      { rewrite <- app_assoc. cbn [app]. rewrite <- app_assoc. reflexivity. }
      rewrite Heq. apply last_snoc. }
    split; [|split].
    + intros url' _ _. rewrite !in_app_iff. right. right. rewrite in_app_iff.
      right. by left.
    + intros d [Hin | [Hin | [Hin | [Hin | [Hin | []]]]%in_app_iff]]%in_app_iff;
        [by destruct (Hpre_no _ Hin) | done | by destruct (Hmid_no _ Hin) | done |].
      injection Hin as <-. split; [done|]. split; [exact Hlast|].
      exists tbl0. by apply Hwider.
    + intros tbl Hres. split.
      * rewrite (Hsame tbl Hres). by apply Hwider.
      * split; [|done]. intros _. exists (pd_obj pd). rewrite !in_app_iff.
        right. right. rewrite in_app_iff. right. right. by left.
Qed.

End PerformanceExtras.

(** *** Examples of [update_model_performance] *)

(** the checks pass on the small installation *)
Lemma demo_definition_found verify tables upload :
  definition_found (demo_monitoring verify tables upload) "my_model"
    demo_monitored_model demo_monitored_project demo_definition.
Proof.
  split; [reflexivity|]. split; [reflexivity|].
  split; [exists "p-1"; split; reflexivity|].
  split.
  - exists "classification", "binary".
    split; [reflexivity|]. split; [right; left; reflexivity|].
    split; [reflexivity|]. split; [right; left; reflexivity|].
    split; [discriminate|]. intros _. vm_compute. discriminate.
  - eexists _, "p-1". split; [reflexivity|]. split; reflexivity.
Qed.

(** a call with every column: the session is closed, and the checks had
    passed *)
Lemma no_cas_session_unless_checked_witness :
  let W := demo_monitoring true None (Ok (Some "tbl")) in
  let o := update_model_performance W demo_columns "my_model" "Q3" None ∅ in
  In ECASClose (trace o)
  /\ (is_cas ECASClose \/ is_execution ECASClose)
  /\ exists model_obj project pd,
       definition_found W "my_model" model_obj project pd
       /\ columns_present (pd_input_variables pd) demo_columns.
Proof.
  intros W o.
  assert (H1 : In ECASClose (trace o)).
  { vm_compute. repeat (first [left; reflexivity | right]). }
  assert (H2 : is_cas ECASClose \/ is_execution ECASClose) by (left; exact I).
  split; [exact H1|]. split; [exact H2|].
  destruct (no_cas_session_unless_checked W demo_columns "my_model" "Q3" None ∅
              ECASClose H1 H2) as (mo & pr & pd & Hf & Hc & _).
  exists mo, pr, pd. split; [exact Hf | exact Hc].
Defined.

